(** * The sentiment-analysis front end ([frontend/script.js])

    A shallow embedding of the click handler [handleAnalysis] and of the
    helpers it calls ([displayResults], [createOrUpdateChart],
    [setLoadingState], [showError], [clearResults]), together with the
    properties of the request/response life cycle.

    The script mutates the page and one module-level variable
    ([sentimentChart]); the embedding threads a [World] through a small
    state-and-exception monad and records every effect in a trace, so that
    statements about the order of effects are statements about that trace.

    [handleAnalysis] is an [async] function with two suspension points,
    [await fetch(...)] and [await response.json()].  One call is embedded
    as one run that is given what becomes of both promises: each resolves,
    rejects, or never settles, and a run that awaits a promise that never
    settles ends there, suspended, with the effects made so far.  While
    the request is pending the button is disabled, and the only other
    handler of the page, the toggle of the menu, touches nothing that is
    modelled here.  The charting library is outside the sources:
    constructing a chart and destroying one are recorded as effects and do
    not throw. *)

From Stdlib Require Import ZArith NArith List String Ascii Bool Lia.
From Stdlib Require Import DecimalString DecimalZ DecimalPos.
From Stdlib Require Import SpecFloat.
Import ListNotations.

Local Open Scope Z_scope.
Local Set Warnings "-register-all".

(** ** JavaScript strings

    A JavaScript string is a sequence of UTF-16 code units. *)

Definition jsstring := list N.

Definition lit (s : string) : jsstring :=
  map N_of_ascii (list_ascii_of_string s).

(** The double quote, for the markup written inside template literals. *)
Definition dquote : jsstring := [34%N].

Definition quoted (s : string) : jsstring := dquote ++ lit s ++ dquote.

Definition newline : jsstring := [10%N].

Definition spaces (n : nat) : jsstring := repeat 32%N n.

Definition jsstring_eqb (a b : jsstring) : bool :=
  if list_eq_dec N.eq_dec a b then true else false.

(** [WhiteSpace] and [LineTerminator] code points of ECMAScript, the ones
    [String.prototype.trim] strips. *)
Definition is_white_space (c : N) : bool :=
  existsb (N.eqb c)
    [9; 10; 11; 12; 13; 32; 160; 5760; 8232; 8233; 8239; 8287; 12288; 65279]%N
  || ((8192 <=? c) && (c <=? 8202))%N.

Fixpoint trim_start (s : jsstring) : jsstring :=
  match s with
  | c :: s' => if is_white_space c then trim_start s' else s
  | [] => []
  end.

Definition trim_end (s : jsstring) : jsstring := rev (trim_start (rev s)).

(** [String.prototype.trim] *)
Definition trim (s : jsstring) : jsstring := trim_end (trim_start s).

(** ** JavaScript values

    The values [response.json()] can produce.  Numbers are the integers of
    the wire contract; they stand for IEEE doubles.  A double holds every
    integer of the safe range, and the even ones up to [2^54] in absolute
    value, which is as far as the sum of two safe integers reaches; an
    operation answers [None] when an operand or the result lies outside
    (the model says nothing there). *)

Definition MAX_SAFE_INTEGER : Z := 2 ^ 53 - 1.

Definition is_safe (z : Z) : bool :=
  (- MAX_SAFE_INTEGER <=? z) && (z <=? MAX_SAFE_INTEGER).

(** The integers up to [2^54] in absolute value that are doubles. *)
Definition is_double (z : Z) : bool :=
  is_safe z || ((Z.abs z <=? 2 ^ 54) && Z.even z).

(** The double nearest to an integer of at most [2^54] in absolute value:
    the integer itself when it is a double, and of its two neighbours the
    one with the even mantissa (the multiple of four) when it is not. *)
Definition nearest_double (s : Z) : option Z :=
  if is_double s then Some s
  else if Z.abs s <=? 2 ^ 54 then
    Some (if (s + 1) mod 4 =? 0 then s + 1 else s - 1)
  else None.

Inductive JSNumber :=
| Int (z : Z)
| NaN.

Inductive JSValue :=
| VUndefined
| VNull
| VBool (b : bool)
| VNumber (n : JSNumber)
| VString (s : jsstring)
| VArray (elements : list JSValue)
| VObject (fields : list (jsstring * JSValue)).

(** The own property [k] of a parsed object, if it has one; [JSON.parse]
    keeps the last of several members with the same name. *)
Fixpoint own_property (fields : list (jsstring * JSValue)) (k : jsstring)
  : option JSValue :=
  match fields with
  | [] => None
  | (k', v) :: rest =>
      match own_property rest k with
      | Some r => Some r
      | None => if jsstring_eqb k' k then Some v else None
      end
  end.

Definition has_own_property (fields : list (jsstring * JSValue))
    (k : jsstring) : bool :=
  match own_property fields k with Some _ => true | None => false end.

(** How a conversion ends: with a value, or with a [TypeError] about the
    object that has no primitive value. *)
Inductive Completion (A : Type) :=
| Returns (a : A)
| Raises (culprit : JSValue).
Arguments Returns {A} a.
Arguments Raises {A} culprit.

(** Conversions can also leave the modelled range of numbers ([None]). *)
Definition and_then {A B} (c : option (Completion A))
    (k : A -> option (Completion B)) : option (Completion B) :=
  match c with
  | Some (Returns a) => k a
  | Some (Raises v) => Some (Raises v)
  | None => None
  end.

(** Decimal digits of an integer.  [Number::toString] answers them for
    every integer that is a double up to [2^54]: no decimal with fewer
    digits rounds to such a double, and of those with as many digits the
    engines print the closest, the integer itself. *)
Definition decimal (z : Z) : jsstring :=
  lit (NilZero.string_of_int (Z.to_int z)).

Definition number_to_string (n : JSNumber) : option jsstring :=
  match n with
  | NaN => Some (lit "NaN")
  | Int z => if is_double z then Some (decimal z) else None
  end.

(** [Array.prototype.join] with separator [","], on the strings of the
    elements. *)
Fixpoint join_comma (l : list jsstring) : jsstring :=
  match l with
  | [] => []
  | [s] => s
  | s :: l' => s ++ lit "," ++ join_comma l'
  end.

(** The conversions of the elements of an array, in order: the first
    that does not answer a string ends the whole. *)
Fixpoint sequence {A} (l : list (option (Completion A)))
  : option (Completion (list A)) :=
  match l with
  | [] => Some (Returns [])
  | c :: l' =>
      and_then c (fun a =>
      and_then (sequence l') (fun r => Some (Returns (a :: r))))
  end.

(** [OrdinaryToPrimitive] on a parsed object.  No parsed value is
    callable.  So an own member named [toString] hides
    [Object.prototype.toString], and no method is left that answers a
    primitive ([Object.prototype.valueOf] answers the object itself, and
    an own [valueOf] cannot be called either): a [TypeError].  Without
    such a member, [Object.prototype.toString] answers
    ["[object Object]"].  This is so for the hint [string] and for the
    hint [number] alike. *)
Definition object_to_primitive (fields : list (jsstring * JSValue))
  : Completion jsstring :=
  if has_own_property fields (lit "toString") then Raises (VObject fields)
  else Returns (lit "[object Object]").

(** [ToString].  An array joins the strings of its elements, where
    [undefined] and [null] give the empty string. *)
Fixpoint to_string (v : JSValue) : option (Completion jsstring) :=
  match v with
  | VUndefined => Some (Returns (lit "undefined"))
  | VNull => Some (Returns (lit "null"))
  | VBool true => Some (Returns (lit "true"))
  | VBool false => Some (Returns (lit "false"))
  | VNumber n => option_map Returns (number_to_string n)
  | VString s => Some (Returns s)
  | VArray l =>
      and_then
        (sequence
           (map (fun e => match e with
                          | VUndefined | VNull => Some (Returns [])
                          | _ => to_string e
                          end) l))
        (fun strings => Some (Returns (join_comma strings)))
  | VObject fields => Some (object_to_primitive fields)
  end.

(** [ToBoolean] *)
Definition truthy (v : JSValue) : bool :=
  match v with
  | VUndefined | VNull => false
  | VBool b => b
  | VNumber (Int z) => negb (z =? 0)
  | VNumber NaN => false
  | VString s => match s with [] => false | _ => true end
  | VArray _ | VObject _ => true
  end.

(** [a || b] *)
Definition js_or (a b : JSValue) : JSValue := if truthy a then a else b.

(** [ToNumber] on the primitives that are not strings. *)
Definition to_number (v : JSValue) : JSNumber :=
  match v with
  | VNull => Int 0
  | VBool true => Int 1
  | VBool false => Int 0
  | VNumber n => n
  | _ => NaN
  end.

(** The sum of two doubles that are safe integers is the double nearest
    to their sum. *)
Definition number_add (a b : JSNumber) : option JSNumber :=
  match a, b with
  | Int x, Int y =>
      if is_safe x && is_safe y
      then option_map Int (nearest_double (x + y)) else None
  | Int x, NaN => if is_safe x then Some NaN else None
  | NaN, Int y => if is_safe y then Some NaN else None
  | NaN, NaN => Some NaN
  end.

(** [ToPrimitive]: arrays and objects turn into their strings. *)
Definition to_primitive (v : JSValue) : option (Completion JSValue) :=
  match v with
  | VArray _ | VObject _ =>
      and_then (to_string v) (fun s => Some (Returns (VString s)))
  | _ => Some (Returns v)
  end.

Definition is_string (v : JSValue) : bool :=
  match v with VString _ => true | _ => false end.

(** The [+] operator: both operands are made primitive, the left one
    first; then concatenation as soon as one of them is a string, numeric
    addition otherwise. *)
Definition js_add (a b : JSValue) : option (Completion JSValue) :=
  and_then (to_primitive a) (fun pa =>
  and_then (to_primitive b) (fun pb =>
    if is_string pa || is_string pb then
      and_then (to_string pa) (fun sa =>
      and_then (to_string pb) (fun sb =>
        Some (Returns (VString (sa ++ sb)))))
    else
      option_map (fun n => Returns (VNumber n))
        (number_add (to_number pa) (to_number pb)))).

(** [v === 0] *)
Definition strict_equals_zero (v : JSValue) : bool :=
  match v with
  | VNumber (Int z) => z =? 0
  | _ => false
  end.

(** ** Errors, requests and responses *)

(** An [Error] object; the handler reads only its [message]. *)
Record JSError := { error_name : jsstring; message : jsstring }.

(** The arguments of the one [fetch] call.  [req_body_url] is the [url]
    member of the object given to [JSON.stringify]. *)
Record Request := {
  req_resource : jsstring;
  req_method : jsstring;
  req_content_type : jsstring;
  req_body_url : jsstring
}.

(** What becomes of the promise of [response.json()]: it rejects when the
    body is not JSON text (or is missing), resolves to the parsed value
    otherwise, and never settles when the body never arrives in full. *)
Inductive JsonOutcome :=
| JsonRejects (e : JSError)
| JsonResolves (data : JSValue)
| JsonPending.

Record Response := { status : Z; json : JsonOutcome }.

(** [response.ok] *)
Definition ok (r : Response) : bool :=
  (200 <=? status r) && (status r <=? 299).

(** What becomes of the promise of [fetch]: it rejects when no response
    is received, resolves to the response, or never settles (the script
    sets no timeout). *)
Inductive FetchOutcome :=
| FetchRejects (e : JSError)
| FetchResolves (r : Response)
| FetchPending.

(** ** The page and the trace of effects *)

(** A chart instance is known by the order of its construction. *)
Definition ChartRef := nat.

Inductive Event :=
| EvDisabled (b : bool)                (* analyzeButton.disabled = b *)
| EvButtonHTML (s : jsstring)          (* analyzeButton.innerHTML = s *)
| EvErrorText (s : jsstring)           (* errorMessage.textContent = s *)
| EvDisplay (s : jsstring)             (* resultsContainer.style.display = s *)
| EvSummary (s : jsstring)             (* summaryContainer.innerHTML = s *)
| EvFetch (r : Request)                (* fetch(...) *)
| EvConsoleError (e : JSError)         (* console.error(...) *)
| EvNewChart (c : ChartRef) (positive negative : JSValue) (* new Chart(...) *)
| EvDestroy (c : ChartRef).            (* c.destroy() *)

Record World := {
  urlInput_value : jsstring;
  analyzeButton_disabled : bool;
  analyzeButton_innerHTML : jsstring;
  errorMessage_textContent : jsstring;
  resultsContainer_display : jsstring;
  summaryContainer_innerHTML : jsstring;
  sentimentChart : option ChartRef;    (* [null] is [None] *)
  charts_constructed : nat;
  trace : list Event
}.

(** The page as the script finds it: nothing shown, no chart, the variable
    [sentimentChart] still [null]. *)
Definition initial_world (input : jsstring) : World := {|
  urlInput_value := input;
  analyzeButton_disabled := false;
  analyzeButton_innerHTML := lit "Analyze";
  errorMessage_textContent := [];
  resultsContainer_display := lit "none";
  summaryContainer_innerHTML := [];
  sentimentChart := None;
  charts_constructed := 0;
  trace := []
|}.

Definition emit (e : Event) (w : World) : World := {|
  urlInput_value := urlInput_value w;
  analyzeButton_disabled := analyzeButton_disabled w;
  analyzeButton_innerHTML := analyzeButton_innerHTML w;
  errorMessage_textContent := errorMessage_textContent w;
  resultsContainer_display := resultsContainer_display w;
  summaryContainer_innerHTML := summaryContainer_innerHTML w;
  sentimentChart := sentimentChart w;
  charts_constructed := charts_constructed w;
  trace := trace w ++ [e]
|}.

(** The state change an effect makes, apart from its entry in the trace. *)
Definition apply_event (e : Event) (w : World) : World := {|
  urlInput_value := urlInput_value w;
  analyzeButton_disabled :=
    match e with EvDisabled b => b | _ => analyzeButton_disabled w end;
  analyzeButton_innerHTML :=
    match e with EvButtonHTML s => s | _ => analyzeButton_innerHTML w end;
  errorMessage_textContent :=
    match e with EvErrorText s => s | _ => errorMessage_textContent w end;
  resultsContainer_display :=
    match e with EvDisplay s => s | _ => resultsContainer_display w end;
  summaryContainer_innerHTML :=
    match e with EvSummary s => s | _ => summaryContainer_innerHTML w end;
  sentimentChart := sentimentChart w;
  charts_constructed :=
    match e with
    | EvNewChart _ _ _ => S (charts_constructed w)
    | _ => charts_constructed w
    end;
  trace := trace w
|}.

Definition perform (e : Event) (w : World) : World := emit e (apply_event e w).

Definition assign_sentimentChart (c : ChartRef) (w : World) : World := {|
  urlInput_value := urlInput_value w;
  analyzeButton_disabled := analyzeButton_disabled w;
  analyzeButton_innerHTML := analyzeButton_innerHTML w;
  errorMessage_textContent := errorMessage_textContent w;
  resultsContainer_display := resultsContainer_display w;
  summaryContainer_innerHTML := summaryContainer_innerHTML w;
  sentimentChart := Some c;
  charts_constructed := charts_constructed w;
  trace := trace w
|}.

(** The chart instances a trace leaves alive: constructed and not destroyed
    since. *)
Fixpoint live_from (alive : list ChartRef) (tr : list Event) : list ChartRef :=
  match tr with
  | [] => alive
  | EvNewChart c _ _ :: tr' => live_from (c :: alive) tr'
  | EvDestroy c :: tr' => live_from (remove Nat.eq_dec c alive) tr'
  | _ :: tr' => live_from alive tr'
  end.

Definition live (tr : list Event) : list ChartRef := live_from [] tr.

(** ** The monad: state, exceptions, and the edge of the modelled fragment *)

(** How a run of a function ends: it returns, it throws, or it stays
    suspended at an [await] whose promise never settles, in which case
    nothing that follows the [await] is ever run. *)
Inductive Result (A : Type) :=
| Normal (a : A)
| Throw (e : JSError)
| Suspended.
Arguments Normal {A} a.
Arguments Throw {A} e.
Arguments Suspended {A}.

(** [None] only when a number leaves the modelled range. *)
Definition M (A : Type) : Type := World -> option (Result A * World).

Definition ret {A} (a : A) : M A := fun w => Some (Normal a, w).

Definition throw {A} (e : JSError) : M A := fun w => Some (Throw e, w).

Definition bind {A B} (m : M A) (k : A -> M B) : M B :=
  fun w =>
    match m w with
    | Some (Normal a, w') => k a w'
    | Some (Throw e, w') => Some (Throw e, w')
    | Some (Suspended, w') => Some (Suspended, w')
    | None => None
    end.

Declare Scope js_scope.
Delimit Scope js_scope with js.
Notation "x <- m ;; k" := (bind m (fun x => k))
  (at level 61, m at next level, right associativity) : js_scope.
Notation "m ;; k" := (bind m (fun _ => k))
  (at level 61, right associativity) : js_scope.
Local Open Scope js_scope.

(** [await] on a promise that never settles. *)
Definition await_forever {A} : M A := fun w => Some (Suspended, w).

Definition do_event (e : Event) : M unit :=
  fun w => Some (Normal tt, perform e w).

Definition finally {A} (r : Result A) (fin : M unit) : M A :=
  fun w =>
    match fin w with
    | Some (Normal _, w') => Some (r, w')
    | Some (Throw e, w') => Some (Throw e, w')
    | Some (Suspended, w') => Some (Suspended, w')
    | None => None
    end.

(** [try { body } catch (error) { handler } finally { fin }].  A block
    that stays suspended never reaches the blocks after it. *)
Definition try_catch_finally {A}
    (body : M A) (handler : JSError -> M A) (fin : M unit) : M A :=
  fun w =>
    match body w with
    | Some (Normal a, w1) => finally (Normal a) fin w1
    | Some (Throw e, w1) =>
        match handler e w1 with
        | Some (Suspended, w2) => Some (Suspended, w2)
        | Some (r, w2) => finally r fin w2
        | None => None
        end
    | Some (Suspended, w1) => Some (Suspended, w1)
    | None => None
    end.

(** ** The script *)

(** The wording of the [TypeError]s the engine raises differs between
    engines; the script only copies it into the error line. *)
Record Host := {
  cannot_read_property : JSValue -> jsstring -> jsstring;
  cannot_destructure : JSValue -> jsstring;
  cannot_convert : JSValue -> jsstring
}.

Definition type_error (msg : jsstring) : JSError :=
  {| error_name := lit "TypeError"; message := msg |}.

Definition markup_line (indent : nat) (s : jsstring) : jsstring :=
  spaces indent ++ s ++ newline.

Definition no_comments_markup : jsstring :=
  lit "<h3>No comments were analyzed.</h3><p>The video may have no comments, or they could not be processed.</p>".

Definition stat_markup (indent : nat) (icon : string) (count : jsstring)
    (caption : string) : jsstring :=
  markup_line indent (lit "<div class=" ++ quoted "stat" ++ lit ">")
  ++ markup_line 16 (lit "<i class=" ++ quoted icon ++ lit "></i>")
  ++ markup_line 16
       (lit "<span><strong>" ++ count ++ lit "</strong> " ++ lit caption
        ++ lit "</span>")
  ++ markup_line 12 (lit "</div>").

(** The template literal of [displayResults], with the three
    interpolated strings. *)
Definition summary_markup (positive negative total : jsstring) : jsstring :=
  newline
  ++ markup_line 12 (lit "<h3>Analysis Summary</h3>")
  ++ stat_markup 12 "fa-solid fa-thumbs-up stat-icon positive" positive
       "Positive Comments"
  ++ stat_markup 12 "fa-solid fa-thumbs-down stat-icon negative" negative
       "Negative Comments"
  ++ stat_markup 13 "fa-solid fa-comments stat-icon" total
       "Total Comments Analyzed"
  ++ spaces 8.

Definition analyzing_markup : jsstring :=
  lit "<i class=" ++ quoted "fa-solid fa-spinner fa-spin"
  ++ lit "></i> Analyzing...".

Definition analyze_request (url : jsstring) : Request := {|
  req_resource := lit "http://127.0.0.1:8000/analyze";
  req_method := lit "POST";
  req_content_type := lit "application/json";
  req_body_url := url
|}.

(** The value of [v.k] for the names the script reads ([detail],
    [positive], [negative]) when [v] is neither [null] nor [undefined]:
    none of them is inherited, so only a parsed object can have one. *)
Definition property (v : JSValue) (k : jsstring) : JSValue :=
  match v with
  | VObject fields =>
      match own_property fields k with Some r => r | None => VUndefined end
  | _ => VUndefined
  end.

Section Script.

Variable host : Host.

(** A conversion inside the script: its [TypeError] is thrown with the
    wording of the engine. *)
Definition convert {A} (c : option (Completion A)) : M A :=
  match c with
  | Some (Returns a) => ret a
  | Some (Raises v) => throw (type_error (cannot_convert host v))
  | None => fun _ => None
  end.

(** [new Error(v)]: the message is [ToString(v)] unless [v] is
    [undefined]. *)
Definition new_Error (v : JSValue) : M JSError :=
  match v with
  | VUndefined => ret {| error_name := lit "Error"; message := [] |}
  | _ => s <- convert (to_string v) ;;
         ret {| error_name := lit "Error"; message := s |}
  end.

(** [v.k]: reading from [null] or [undefined] throws. *)
Definition get_property (v : JSValue) (k : jsstring) : M JSValue :=
  match v with
  | VUndefined | VNull => throw (type_error (cannot_read_property host v k))
  | _ => ret (property v k)
  end.

(** [const { positive, negative } = data] *)
Definition destructure (data : JSValue) : M (JSValue * JSValue) :=
  match data with
  | VUndefined | VNull => throw (type_error (cannot_destructure host data))
  | _ =>
      positive <- get_property data (lit "positive") ;;
      negative <- get_property data (lit "negative") ;;
      ret (positive, negative)
  end.

Definition setLoadingState (isLoading : bool) : M unit :=
  do_event (EvDisabled isLoading) ;;
  do_event (EvButtonHTML (if isLoading then analyzing_markup else lit "Analyze")).

Definition showError (msg : jsstring) : M unit :=
  do_event (EvErrorText msg).

Definition clearResults : M unit :=
  do_event (EvErrorText []) ;;
  do_event (EvDisplay (lit "none")) ;;
  do_event (EvSummary []) ;;
  fun w =>
    match sentimentChart w with
    | Some c => do_event (EvDestroy c) w
    | None => ret tt w
    end.

Definition createOrUpdateChart (data : JSValue) : M unit :=
  (fun w =>
     match sentimentChart w with
     | Some c => do_event (EvDestroy c) w
     | None => ret tt w
     end) ;;
  positive <- get_property data (lit "positive") ;;
  negative <- get_property data (lit "negative") ;;
  fun w =>
    let c := charts_constructed w in
    Some (Normal tt,
          assign_sentimentChart c (perform (EvNewChart c positive negative) w)).

Definition displayResults (data : JSValue) : M unit :=
  do_event (EvDisplay (lit "flex")) ;;
  pn <- destructure data ;;
  let positive := fst pn in
  let negative := snd pn in
  total <- convert (js_add positive negative) ;;
  if strict_equals_zero total then
    do_event (EvSummary no_comments_markup)
  else
    sp <- convert (to_string positive) ;;
    sn <- convert (to_string negative) ;;
    st <- convert (to_string total) ;;
    do_event (EvSummary (summary_markup sp sn st)) ;;
    createOrUpdateChart data.

(** [await fetch(...)]: the request goes out, and the promise settles as
    the network decides, or never. *)
Definition fetch (net : Request -> FetchOutcome) (r : Request) : M Response :=
  do_event (EvFetch r) ;;
  match net r with
  | FetchRejects e => throw e
  | FetchResolves response => ret response
  | FetchPending => await_forever
  end.

(** [await response.json()] *)
Definition response_json (r : Response) : M JSValue :=
  match json r with
  | JsonRejects e => throw e
  | JsonResolves data => ret data
  | JsonPending => await_forever
  end.

(** The [try] block of [handleAnalysis]. *)
Definition attempt (net : Request -> FetchOutcome) (url : jsstring) : M unit :=
  response <- fetch net (analyze_request url) ;;
  data <- response_json response ;;
  (if negb (ok response) then
     detail <- get_property data (lit "detail") ;;
     error <- new_Error
                (js_or detail (VString (lit "An unknown error occurred."))) ;;
     throw error
   else ret tt) ;;
  displayResults data.

(** The [catch] block of [handleAnalysis]. *)
Definition report (error : JSError) : M unit :=
  do_event (EvConsoleError error) ;;
  showError (lit "Error: " ++ message error).

Definition handleAnalysis (net : Request -> FetchOutcome) : M unit :=
  fun w0 =>
  let url := trim (urlInput_value w0) in
  (match url with
   | [] => showError (lit "Please paste a YouTube video URL.")
   | _ =>
       setLoadingState true ;;
       clearResults ;;
       try_catch_finally (attempt net url) report (setLoadingState false)
   end) w0.

End Script.

(** ** The tooltip of the chart

    The [label] callback divides and multiplies IEEE doubles and prints
    the result with [toFixed(1)].  The operands here are non-negative
    integers and the ratio is positive, so a double is a mantissa of 53
    bits and an exponent, and an operation is the exact result rounded to
    the nearest such number, ties to the even mantissa. *)

Record Double := { mantissa : Z; exponent : Z }.

(** The exponent [e] with [2^52 <= a / (b * 2^e) < 2^53], for positive
    [a] and [b]. *)
Definition binade (a b : Z) : Z :=
  let d := Z.log2 a - Z.log2 b in
  if a * 2 ^ Z.max 0 (- d) <? b * 2 ^ Z.max 0 d then d - 1 - 52 else d - 52.

(** The double nearest to [a / b], for positive [a] and [b]; [None] outside
    the range of the normal numbers. *)
Definition round_binary64 (a b : Z) : option Double :=
  let e := binade a b in
  let num := a * 2 ^ Z.max 0 (- e) in
  let den := b * 2 ^ Z.max 0 e in
  let q := num / den in
  let r := num mod den in
  let up := (den <? 2 * r) || ((den =? 2 * r) && Z.odd q) in
  let m := if up then q + 1 else q in
  let x := if m =? 2 ^ 53 then {| mantissa := 2 ^ 52; exponent := e + 1 |}
           else {| mantissa := m; exponent := e |} in
  if (-1074 <=? exponent x) && (exponent x <=? 971) then Some x else None.

(** [value / total], both integers that a double holds exactly. *)
Definition double_div (value total : Z) : option Double :=
  round_binary64 value total.

(** [x * 100] *)
Definition double_mul_100 (x : Double) : option Double :=
  round_binary64 (mantissa x * 100 * 2 ^ Z.max 0 (exponent x))
                 (2 ^ Z.max 0 (- exponent x)).

(** The integer [n] of [Number.prototype.toFixed] with one digit: [n / 10]
    is as close to [x] as possible, and of two such [n] it is the larger. *)
Definition tenths (x : Double) : Z :=
  (2 * 10 * mantissa x * 2 ^ Z.max 0 (exponent x) + 2 ^ Z.max 0 (- exponent x))
  / (2 * 2 ^ Z.max 0 (- exponent x)).

(** The digits of [n] with a point before the last one. *)
Definition fixed1 (n : Z) : jsstring :=
  decimal (n / 10) ++ lit "." ++ decimal (n mod 10).

(** [((value / total) * 100).toFixed(1)] for [0 <= value] and [0 < total]
    in the safe range; the model says nothing elsewhere. *)
Definition percentage_tenths (value total : Z) : option Z :=
  if (0 <=? value) && (0 <? total) && is_safe value && is_safe total then
    if value =? 0 then Some 0
    else
      match double_div value total with
      | Some q =>
          match double_mul_100 q with
          | Some x => Some (tenths x)
          | None => None
          end
      | None => None
      end
  else None.

Definition percentage (value total : Z) : option jsstring :=
  option_map (fun n => fixed1 n ++ lit "%") (percentage_tenths value total).

(** What the charting library hands to the callback: [context.label],
    [context.raw] and [context.chart.getDatasetMeta(0).total]. *)
Record TooltipContext := {
  context_label : jsstring;
  context_raw : Z;
  context_total : Z
}.

(** [a || b] on strings: the empty string is the falsy one. *)
Definition string_or (a b : jsstring) : jsstring :=
  match a with [] => b | _ => a end.

(** The [label] callback of the tooltip. *)
Definition tooltip_label (context : TooltipContext) : option jsstring :=
  let label := string_or (context_label context) [] in
  let value := context_raw context in
  let total := context_total context in
  match percentage value total with
  | Some percentage =>
      Some (label ++ lit ": " ++ decimal value
            ++ lit " (" ++ percentage ++ lit ")")
  | None => None
  end.

(** Modelled from the spec: the charting library is not part of the
    sources; its total for the data set is "the sum of the two rendered
    values", and it calls the callback of slice [i] with the label and the
    value of that slice. *)
Definition dataset_total (positive negative : Z) : Z := positive + negative.

(** Modelled from the spec: the context the charting library passes for
    the slice "Positive" ([slice = true]) or "Negative". *)
Definition slice_context (positive negative : Z) (slice : bool)
  : TooltipContext := {|
  context_label := if slice then lit "Positive" else lit "Negative";
  context_raw := if slice then positive else negative;
  context_total := dataset_total positive negative
|}.

(** The same product computed with the operations of the standard
    library's specification of IEEE 754 binary64, for comparison. *)
Definition reference_product (value total : Z) : spec_float :=
  SFmul 53 1024
    (SFdiv 53 1024 (binary_normalize 53 1024 value 0 false)
                   (binary_normalize 53 1024 total 0 false))
    (binary_normalize 53 1024 100 0 false).

Definition model_product (value total : Z) : option spec_float :=
  match double_div value total with
  | Some q =>
      match double_mul_100 q with
      | Some x => Some (S754_finite false (Z.to_pos (mantissa x)) (exponent x))
      | None => None
      end
  | None => None
  end.

Definition products_agree (vt : Z * Z) : bool :=
  match model_product (fst vt) (snd vt), reference_product (fst vt) (snd vt) with
  | Some (S754_finite s m e), S754_finite s' m' e' =>
      Bool.eqb s s' && Pos.eqb m m' && Z.eqb e e'
  | _, _ => false
  end.

(** The sum of two integers computed with the operations of the standard
    library's specification of binary64, for comparison. *)
Definition reference_sum (x y : Z) : spec_float :=
  SFadd 53 1024 (binary_normalize 53 1024 x 0 false)
                (binary_normalize 53 1024 y 0 false).

Definition sums_agree (xy : Z * Z) : bool :=
  match number_add (Int (fst xy)) (Int (snd xy)),
        reference_sum (fst xy) (snd xy) with
  | Some (Int z), S754_finite s m e =>
      let signed := if s then - Zpos m else Zpos m in
      if 0 <=? e then z =? signed * 2 ^ e else z * 2 ^ (- e) =? signed
  | Some (Int z), S754_zero _ => z =? 0
  | _, _ => false
  end.

(** ** Runs of the page *)

(** The user edits the input field. *)
Definition type_input (input : jsstring) (w : World) : World := {|
  urlInput_value := input;
  analyzeButton_disabled := analyzeButton_disabled w;
  analyzeButton_innerHTML := analyzeButton_innerHTML w;
  errorMessage_textContent := errorMessage_textContent w;
  resultsContainer_display := resultsContainer_display w;
  summaryContainer_innerHTML := summaryContainer_innerHTML w;
  sentimentChart := sentimentChart w;
  charts_constructed := charts_constructed w;
  trace := trace w
|}.

(** What can happen to the page: a click on the button with some text in
    the field and some behaviour of the network, or a direct call of one
    of the two functions that touch the chart. *)
Inductive Action :=
| Click (input : jsstring) (net : Request -> FetchOutcome)
| Present (data : JSValue)
| Clear.

Definition act (host : Host) (a : Action) : M unit :=
  match a with
  | Click input net => fun w => handleAnalysis host net (type_input input w)
  | Present data => createOrUpdateChart host data
  | Clear => clearResults
  end.

Fixpoint run (host : Host) (actions : list Action) (w : World)
  : option World :=
  match actions with
  | [] => Some w
  | a :: rest =>
      match act host a w with
      | Some (_, w') => run host rest w'
      | None => None
      end
  end.

(** The variable [sentimentChart] refers to the only live chart, if there
    is one. *)
Definition single_owner (w : World) : Prop :=
  live (trace w) = []
  \/ exists c, sentimentChart w = Some c /\ live (trace w) = [c].

(** No more than one chart alive after any prefix of the trace. *)
Definition at_most_one_live (tr : list Event) : Prop :=
  forall n, (List.length (live (firstn n tr)) <= 1)%nat.

(** ** The modelled fragment *)

(** Every number inside [v] is a safe integer. *)
Fixpoint numbers_safe (v : JSValue) : bool :=
  match v with
  | VNumber (Int z) => is_safe z
  | VArray l => forallb numbers_safe l
  | VObject fields => forallb (fun kv => numbers_safe (snd kv)) fields
  | _ => true
  end.

(** A body the model covers: safe integers only. *)
Definition modelled_body (data : JSValue) : bool := numbers_safe data.

Definition modelled (o : FetchOutcome) : bool :=
  match o with
  | FetchResolves r =>
      match json r with
      | JsonResolves data => modelled_body data
      | _ => true
      end
  | _ => true
  end.

(** Both promises of the attempt settle. *)
Definition settles (o : FetchOutcome) : bool :=
  match o with
  | FetchPending => false
  | FetchRejects _ => true
  | FetchResolves r =>
      match json r with
      | JsonPending => false
      | _ => true
      end
  end.

(** The body [{"positive": p, "negative": n}]. *)
Definition result_model (p n : Z) : JSValue :=
  VObject [(lit "positive", VNumber (Int p)); (lit "negative", VNumber (Int n))].

(** The effect of [if (sentimentChart) { sentimentChart.destroy(); }]. *)
Definition release_events (w : World) : list Event :=
  match sentimentChart w with Some c => [EvDestroy c] | None => [] end.

(** The effects of [clearResults()]. *)
Definition clearing_events (w : World) : list Event :=
  [EvErrorText []; EvDisplay (lit "none"); EvSummary []] ++ release_events w.

(** The effects of [setLoadingState(true); clearResults()]. *)
Definition loading_events (w : World) : list Event :=
  [EvDisabled true; EvButtonHTML analyzing_markup] ++ clearing_events w.

(** The effects of the [catch] block followed by the [finally] block. *)
Definition failure_events (error : JSError) : list Event :=
  [EvConsoleError error; EvErrorText (lit "Error: " ++ message error);
   EvDisabled false; EvButtonHTML (lit "Analyze")].

Definition touches_button_or_network (e : Event) : bool :=
  match e with
  | EvDisabled _ | EvButtonHTML _ | EvFetch _ => true
  | _ => false
  end.

(** [v] is [null] or [undefined]. *)
Definition nullish (v : JSValue) : bool :=
  match v with
  | VUndefined | VNull => true
  | _ => false
  end.

(** The world after a list of effects, performed in order. *)
Definition replay (events : list Event) (w : World) : World :=
  fold_left (fun w e => perform e w) events w.

(** A list of effects that leaves the button and the network alone. *)
Definition quiet (events : list Event) : Prop :=
  forallb (fun e => negb (touches_button_or_network e)) events = true.

(** The invariant of the chart: one owner now, and never two charts alive
    before. *)
Definition chart_invariant (w : World) : Prop :=
  single_owner w /\ at_most_one_live (trace w).

(** A computation that keeps the invariant of the chart, however it
    ends. *)
Definition keeps {A} (m : M A) : Prop :=
  forall w r w', chart_invariant w -> m w = Some (r, w') -> chart_invariant w'.

(** The integer a string of decimal digits denotes. *)
Definition read_decimal (s : jsstring) : option Z :=
  option_map Z.of_int
    (NilZero.int_of_string (string_of_list_ascii (map ascii_of_N s))).

Definition fallback_message : jsstring := lit "An unknown error occurred.".

(** The ways the [try] block throws before it renders anything, with the
    error it throws: no response; a body that does not parse; a response
    that is not [ok], whose parsed body is [null] (reading [detail]
    throws), or gives the message of the [Error] the script throws itself,
    or has a [detail] with no string (making the message throws). *)
Inductive attempt_fails (host : Host) : FetchOutcome -> JSError -> Prop :=
| fails_transport (e : JSError) :
    attempt_fails host (FetchRejects e) e
| fails_parse (r : Response) (e : JSError) :
    json r = JsonRejects e ->
    attempt_fails host (FetchResolves r) e
| fails_null_body (r : Response) (data : JSValue) :
    json r = JsonResolves data -> ok r = false -> nullish data = true ->
    attempt_fails host (FetchResolves r)
      (type_error (cannot_read_property host data (lit "detail")))
| fails_service (r : Response) (data : JSValue) (s : jsstring) :
    json r = JsonResolves data -> ok r = false -> nullish data = false ->
    to_string (js_or (property data (lit "detail")) (VString fallback_message))
    = Some (Returns s) ->
    attempt_fails host (FetchResolves r)
      {| error_name := lit "Error"; message := s |}
| fails_message (r : Response) (data : JSValue) (v : JSValue) :
    json r = JsonResolves data -> ok r = false -> nullish data = false ->
    to_string (js_or (property data (lit "detail")) (VString fallback_message))
    = Some (Raises v) ->
    attempt_fails host (FetchResolves r) (type_error (cannot_convert host v)).

Definition is_chart_event (e : Event) : bool :=
  match e with
  | EvNewChart _ _ _ | EvDestroy _ => true
  | _ => false
  end.

(** Two worlds that show the same page and hold the same chart; only
    their traces may differ. *)
Definition same_page (a b : World) : Prop :=
  urlInput_value a = urlInput_value b
  /\ analyzeButton_disabled a = analyzeButton_disabled b
  /\ analyzeButton_innerHTML a = analyzeButton_innerHTML b
  /\ errorMessage_textContent a = errorMessage_textContent b
  /\ resultsContainer_display a = resultsContainer_display b
  /\ summaryContainer_innerHTML a = summaryContainer_innerHTML b
  /\ sentimentChart a = sentimentChart b
  /\ live (trace a) = live (trace b).

(** ** Induction on values

    The induction principle that reaches the elements of arrays and the
    members of objects. *)

Section JSValue_induction.

Variable P : JSValue -> Prop.
Hypothesis P_undefined : P VUndefined.
Hypothesis P_null : P VNull.
Hypothesis P_bool : forall b, P (VBool b).
Hypothesis P_number : forall n, P (VNumber n).
Hypothesis P_string : forall s, P (VString s).
Hypothesis P_array : forall l, Forall P l -> P (VArray l).
Hypothesis P_object :
  forall fields, Forall (fun kv => P (snd kv)) fields -> P (VObject fields).

Fixpoint JSValue_nested_ind (v : JSValue) : P v :=
  match v with
  | VUndefined => P_undefined
  | VNull => P_null
  | VBool b => P_bool b
  | VNumber n => P_number n
  | VString s => P_string s
  | VArray l =>
      P_array l
        ((fix elements (l : list JSValue) : Forall P l :=
            match l with
            | [] => Forall_nil P
            | e :: l' => Forall_cons e (JSValue_nested_ind e) (elements l')
            end) l)
  | VObject fields =>
      P_object fields
        ((fix members (fs : list (jsstring * JSValue))
            : Forall (fun kv => P (snd kv)) fs :=
            match fs with
            | [] => Forall_nil _
            | kv :: fs' =>
                Forall_cons kv (JSValue_nested_ind (snd kv)) (members fs')
            end) fields)
  end.

End JSValue_induction.

(** ** Sample hosts and networks *)

(** The wording of V8. *)
Definition v8 : Host := {|
  cannot_read_property := fun v k =>
    lit "Cannot read properties of "
    ++ match v with VNull => lit "null" | _ => lit "undefined" end
    ++ lit " (reading '" ++ k ++ lit "')";
  cannot_destructure := fun v =>
    lit "Cannot destructure property 'positive' of 'data' as it is "
    ++ match v with VNull => lit "null" | _ => lit "undefined" end ++ lit ".";
  cannot_convert := fun _ => lit "Cannot convert object to primitive value"
|}.

Definition responds (status : Z) (body : JsonOutcome) : Request -> FetchOutcome :=
  fun _ => FetchResolves {| status := status; json := body |}.

Definition unreachable (description : string) : Request -> FetchOutcome :=
  fun _ => FetchRejects {| error_name := lit "TypeError";
                           message := lit description |}.

Definition detail_body (detail : string) : JsonOutcome :=
  JsonResolves (VObject [(lit "detail", VString (lit detail))]).

Definition unparseable_body : JsonOutcome :=
  JsonRejects {| error_name := lit "SyntaxError";
                 message := lit "Unexpected end of JSON input" |}.

(** ** Requests, and what a computation leaves alone *)

(** The requests a trace holds, in order. *)
Fixpoint requests (tr : list Event) : list Request :=
  match tr with
  | [] => []
  | EvFetch r :: tr' => r :: requests tr'
  | _ :: tr' => requests tr'
  end.

(** A computation that keeps a property of the world, however it ends. *)
Definition preserves {A} (P : World -> Prop) (m : M A) : Prop :=
  forall w r w', P w -> m w = Some (r, w') -> P w'.

(** A property of the world that no single step of the script disturbs:
    no effect, and no assignment to [sentimentChart]. *)
Definition stable (P : World -> Prop) : Prop :=
  (forall e w, P w -> P (perform e w))
  /\ (forall c w, P w -> P (assign_sentimentChart c w)).

(** ** The menu

    [menuIcon.addEventListener('click',
       () => navBar.classList.toggle('responsive'))].
    The class list of an element is an ordered set of tokens. *)

(** [classList.contains(token)] *)
Definition classList_contains (token : jsstring) (classes : list jsstring)
  : bool :=
  existsb (jsstring_eqb token) classes.

(** [classList.toggle(token)] for a token that is not empty and holds no
    white space: the token is removed when the list holds it and appended
    when it does not; the answer tells whether the list holds it
    afterwards. *)
Definition classList_toggle (token : jsstring) (classes : list jsstring)
  : list jsstring * bool :=
  if classList_contains token classes then
    (filter (fun c => negb (jsstring_eqb token c)) classes, false)
  else (classes ++ [token], true).

(** The listener of the menu icon, on the class list of the navigation
    bar. *)
Definition menu_click (navBar_classList : list jsstring) : list jsstring :=
  fst (classList_toggle (lit "responsive") navBar_classList).

(** ** The body of the request

    [JSON.stringify({ url: url })]: the member name, and the string quoted
    as [QuoteJSONString] does it. *)

Definition hex_digit (d : N) : N :=
  if (d <? 10)%N then (48 + d)%N else (87 + d)%N.

(** [UnicodeEscape]: a backslash, [u], and four lowercase hexadecimal
    digits. *)
Definition unicode_escape (c : N) : jsstring :=
  [92; 117; hex_digit (c / 4096 mod 16); hex_digit (c / 256 mod 16);
   hex_digit (c / 16 mod 16); hex_digit (c mod 16)]%N.

Definition is_leading_surrogate (c : N) : bool :=
  ((55296 <=? c) && (c <=? 56319))%N.

Definition is_trailing_surrogate (c : N) : bool :=
  ((56320 <=? c) && (c <=? 57343))%N.

(** One code unit that is not half of a surrogate pair: the short escapes
    of backspace, tab, line feed, form feed, carriage return, the quote and
    the backslash; [UnicodeEscape] for the other control characters and for
    a lone surrogate; the unit itself otherwise. *)
Definition quote_unit (c : N) : jsstring :=
  if (c =? 8)%N then [92; 98]%N
  else if (c =? 9)%N then [92; 116]%N
  else if (c =? 10)%N then [92; 110]%N
  else if (c =? 12)%N then [92; 102]%N
  else if (c =? 13)%N then [92; 114]%N
  else if (c =? 34)%N then [92; 34]%N
  else if (c =? 92)%N then [92; 92]%N
  else if (c <? 32)%N || is_leading_surrogate c || is_trailing_surrogate c
       then unicode_escape c
  else [c].

(** The code points of the string, one after the other: a leading
    surrogate followed by a trailing one is one code point and is copied. *)
Fixpoint quote_units (s : jsstring) : jsstring :=
  match s with
  | [] => []
  | c :: rest =>
      match rest with
      | d :: rest' =>
          if is_leading_surrogate c && is_trailing_surrogate d
          then c :: d :: quote_units rest'
          else quote_unit c ++ quote_units rest
      | [] => quote_unit c
      end
  end.

Definition QuoteJSONString (s : jsstring) : jsstring :=
  dquote ++ quote_units s ++ dquote.

(** The [body] option of the [fetch] call. *)
Definition request_body (r : Request) : jsstring :=
  lit "{" ++ quoted "url" ++ lit ":" ++ QuoteJSONString (req_body_url r)
  ++ lit "}".

(** A code unit that [QuoteJSONString] copies whatever follows it. *)
Definition plain_unit (c : N) : bool :=
  ((32 <=? c) && negb (c =? 34) && negb (c =? 92))%N
  && negb (is_leading_surrogate c) && negb (is_trailing_surrogate c).

(** The reading of the inside of a quoted JSON string, used to tell
    quoted strings apart. *)
Definition hex_value (c : N) : option N :=
  if ((48 <=? c) && (c <=? 57))%N then Some (c - 48)%N
  else if ((97 <=? c) && (c <=? 102))%N then Some (c - 87)%N
  else None.

Fixpoint unquote_units (s : jsstring) : option jsstring :=
  match s with
  | [] => Some []
  | c :: rest =>
      if (c =? 92)%N then
        match rest with
        | e :: rest' =>
            if (e =? 117)%N then
              match rest' with
              | h1 :: h2 :: h3 :: h4 :: rest'' =>
                  match hex_value h1, hex_value h2, hex_value h3, hex_value h4,
                        unquote_units rest'' with
                  | Some a, Some b, Some c', Some d, Some r =>
                      Some ((a * 4096 + b * 256 + c' * 16 + d)%N :: r)
                  | _, _, _, _, _ => None
                  end
              | _ => None
              end
            else
              let unit :=
                if (e =? 98)%N then Some 8%N
                else if (e =? 116)%N then Some 9%N
                else if (e =? 110)%N then Some 10%N
                else if (e =? 102)%N then Some 12%N
                else if (e =? 114)%N then Some 13%N
                else if (e =? 34)%N then Some 34%N
                else if (e =? 92)%N then Some 92%N
                else None in
              match unit, unquote_units rest' with
              | Some u, Some r => Some (u :: r)
              | _, _ => None
              end
        | [] => None
        end
      else if (c =? 34)%N || (c <? 32)%N then None
      else
        match unquote_units rest with
        | Some r => Some (c :: r)
        | None => None
        end
  end.

(** Every element of a list of values is an object without a member
    named [toString]. *)
Definition plain_objects (l : list JSValue) : bool :=
  forallb (fun v => match v with
                    | VObject fields =>
                        negb (has_own_property fields (lit "toString"))
                    | _ => false
                    end) l.


(** ** The results region and the chart *)

(** The results region is hidden, with an empty summary and no chart
    alive, or it is shown; and a chart is alive only beside a summary. *)
Definition results_consistent (w : World) : Prop :=
  (resultsContainer_display w = lit "none"
   /\ summaryContainer_innerHTML w = []
   /\ live (trace w) = [])
  \/ (resultsContainer_display w = lit "flex"
      /\ (live (trace w) <> [] -> summaryContainer_innerHTML w <> [])).

Definition is_click (a : Action) : bool :=
  match a with Click _ _ => true | _ => false end.

(** ** Promises that settle *)

(** A computation that returns or throws whenever it has an outcome: it
    waits for no promise that never settles. *)
Definition never_suspends {A} (m : M A) : Prop :=
  forall w r w', m w = Some (r, w') -> r <> Suspended.

(** An action during which every promise settles, whatever is requested. *)
Definition settling (a : Action) : Prop :=
  match a with
  | Click _ net => forall r, settles (net r) = true
  | _ => True
  end.

(** * Properties *)

(** ** Trimming *)

Lemma trim_start_white (s : jsstring) :
  forallb is_white_space s = true -> trim_start s = [].
Proof.
  induction s as [|c s IH]; simpl; [reflexivity|].
  intros H. apply andb_prop in H. destruct H as [Hc Hs].
  rewrite Hc. auto.
Qed.

Lemma trim_start_empty_white (s : jsstring) :
  trim_start s = [] -> forallb is_white_space s = true.
Proof.
  induction s as [|c s IH]; simpl; [reflexivity|].
  destruct (is_white_space c); [auto | discriminate].
Qed.

Lemma trim_start_rest_white (s : jsstring) :
  forallb is_white_space (trim_start s) = true ->
  forallb is_white_space s = true.
Proof.
  induction s as [|c s IH]; simpl; [reflexivity|].
  destruct (is_white_space c) eqn:Hc; simpl; [auto|].
  rewrite Hc. discriminate.
Qed.

Lemma forallb_rev {A} (f : A -> bool) (l : list A) :
  forallb f (rev l) = forallb f l.
Proof.
  induction l as [|a l IH]; simpl; [reflexivity|].
  rewrite forallb_app, IH. simpl. rewrite andb_true_r. apply andb_comm.
Qed.

(** The trimmed string is empty exactly when the string holds nothing but
    white space. *)
Lemma trim_empty_iff (s : jsstring) :
  trim s = [] <-> forallb is_white_space s = true.
Proof.
  unfold trim, trim_end. split.
  - intros H. apply trim_start_rest_white.
    rewrite <- forallb_rev. apply trim_start_empty_white.
    apply (f_equal (@rev N)) in H. rewrite rev_involutive in H. exact H.
  - intros H. rewrite (trim_start_white s H). reflexivity.
Qed.

(** ** Validation of the input *)

(** C1.  When the text of the input field is empty or consists of white
    space only, [handleAnalysis] completes with a single effect: the error
    line is set to exactly "Please paste a YouTube video URL.".  The trace
    grows by that one entry, so no request is sent. *)
Theorem blank_input_reports_error
    (host : Host) (net : Request -> FetchOutcome) (w : World) :
  forallb is_white_space (urlInput_value w) = true ->
  exists w',
    handleAnalysis host net w = Some (Normal tt, w')
    /\ errorMessage_textContent w' = lit "Please paste a YouTube video URL."
    /\ trace w' = trace w ++ [EvErrorText (lit "Please paste a YouTube video URL.")].
Proof.
  intros Hblank. apply trim_empty_iff in Hblank.
  unfold handleAnalysis. rewrite Hblank.
  eexists. split; [reflexivity|]. split; reflexivity.
Qed.

Lemma blank_input_reports_error_witness :
  exists w',
    handleAnalysis v8 (responds 200 (JsonResolves (result_model 10 5)))
      (initial_world [32; 9; 10; 160]%N) = Some (Normal tt, w')
    /\ errorMessage_textContent w' = lit "Please paste a YouTube video URL."
    /\ trace w' = [EvErrorText (lit "Please paste a YouTube video URL.")].
Proof.
  apply (blank_input_reports_error v8 _ (initial_world [32; 9; 10; 160]%N)).
  reflexivity.
Defined.

(** ** Strings of values inside the fragment *)

(** The digits of an integer denote that integer. *)
Lemma read_decimal_decimal (z : Z) : read_decimal (decimal z) = Some z.
Proof.
  unfold read_decimal, decimal, lit.
  rewrite map_map.
  rewrite (map_ext _ (fun a => a) ascii_N_embedding), map_id.
  rewrite string_of_list_ascii_of_string.
  rewrite NilZero.isi.
  - simpl. rewrite DecimalZ.of_to. reflexivity.
  - destruct z; simpl; try discriminate.
    intros H. inversion H as [Hp]. exact (Unsigned.to_uint_nonnil _ Hp).
  - destruct z; simpl; try discriminate.
    intros H. inversion H as [Hp]. exact (Unsigned.to_uint_nonnil _ Hp).
Qed.

Lemma is_safe_double (z : Z) : is_safe z = true -> is_double z = true.
Proof. unfold is_double. intros ->. reflexivity. Qed.

Lemma is_safe_abs (z : Z) : is_safe z = true -> Z.abs z <= 2 ^ 53 - 1.
Proof.
  unfold is_safe, MAX_SAFE_INTEGER. intros H.
  apply andb_prop in H. destruct H as [Hlo Hhi].
  apply Z.leb_le in Hlo, Hhi. lia.
Qed.

Lemma nearest_double_safe (s : Z) :
  is_safe s = true -> nearest_double s = Some s.
Proof.
  intros H. unfold nearest_double. rewrite (is_safe_double s H). reflexivity.
Qed.

Lemma nearest_double_defined (s : Z) :
  Z.abs s <= 2 ^ 54 -> exists z, nearest_double s = Some z.
Proof.
  intros H. unfold nearest_double. destruct (is_double s); [eauto|].
  replace (Z.abs s <=? 2 ^ 54) with true by (symmetry; apply Z.leb_le; exact H).
  eauto.
Qed.

(** The double nearest to an integer is a double, at most one away. *)
Lemma nearest_double_spec (s z : Z) :
  nearest_double s = Some z -> is_double z = true /\ Z.abs (z - s) <= 1.
Proof.
  unfold nearest_double. destruct (is_double s) eqn:Hd.
  - intros H. inversion H; subst. split; [exact Hd | lia].
  - destruct (Z.abs s <=? 2 ^ 54) eqn:Hrange; [|discriminate].
    apply Z.leb_le in Hrange.
    unfold is_double in Hd. apply orb_false_elim in Hd. destruct Hd as [_ Hd].
    replace (Z.abs s <=? 2 ^ 54) with true in Hd
      by (symmetry; apply Z.leb_le; exact Hrange).
    cbn [andb] in Hd.
    assert (Hodd : Z.odd s = true) by (rewrite <- Z.negb_even, Hd; reflexivity).
    assert (Hbound : Z.abs s <= 2 ^ 54 - 1).
    { assert (Hne : Z.abs s <> 2 ^ 54); [|lia].
      intros Heq. destruct (Z.abs_eq_or_opp s) as [Hs|Hs];
        rewrite Hs in Heq.
      - rewrite Heq in Hd. vm_compute in Hd. discriminate.
      - assert (Hs' : s = - 2 ^ 54) by lia.
        rewrite Hs' in Hd. vm_compute in Hd. discriminate. }
    intros H. inversion H; subst. clear H. unfold is_double.
    destruct ((s + 1) mod 4 =? 0).
    + split; [|lia]. apply orb_true_intro. right.
      apply andb_true_intro. split; [apply Z.leb_le; lia|].
      rewrite Z.even_add, Hd. reflexivity.
    + split; [|lia]. apply orb_true_intro. right.
      apply andb_true_intro. split; [apply Z.leb_le; lia|].
      rewrite Z.even_sub, Hd. reflexivity.
Qed.

(** The sum of two safe integers has a nearest double. *)
Lemma number_add_safe (x y : Z) :
  is_safe x = true -> is_safe y = true ->
  exists z,
    number_add (Int x) (Int y) = Some (Int z)
    /\ is_double z = true /\ Z.abs (z - (x + y)) <= 1.
Proof.
  intros Hx Hy. unfold number_add. rewrite Hx, Hy. cbn [andb].
  pose proof (is_safe_abs x Hx) as Ax. pose proof (is_safe_abs y Hy) as Ay.
  destruct (nearest_double_defined (x + y)) as [z Hz]; [lia|].
  rewrite Hz. exists z. split; [reflexivity|].
  apply nearest_double_spec, Hz.
Qed.

Lemma sequence_defined {A} (l : list (option (Completion A))) :
  Forall (fun c => exists r, c = Some r) l -> exists r, sequence l = Some r.
Proof.
  induction 1 as [|c l [r Hc] _ [rs IH]]; simpl; [eauto|].
  subst c. destruct r as [a|v]; simpl; [|eauto].
  rewrite IH. destruct rs; simpl; eauto.
Qed.

Lemma to_string_defined (v : JSValue) :
  numbers_safe v = true -> exists c, to_string v = Some c.
Proof.
  induction v as [| |b|n|s|l IH|fields IH] using JSValue_nested_ind;
    intros Hsafe; simpl.
  - eauto.
  - eauto.
  - destruct b; eauto.
  - destruct n as [z|]; simpl in *; [rewrite (is_safe_double z Hsafe)|];
      simpl; eauto.
  - eauto.
  - destruct (sequence_defined
                (map (fun e => match e with
                               | VUndefined | VNull => Some (Returns [])
                               | _ => to_string e
                               end) l)) as [r Hr].
    { simpl in Hsafe. induction IH as [|e l He _ IHl]; simpl; constructor.
      - simpl in Hsafe. apply andb_prop in Hsafe. destruct Hsafe as [Hse _].
        destruct (He Hse) as [c Hc]. destruct e; eauto.
      - simpl in Hsafe. apply andb_prop in Hsafe. destruct Hsafe as [_ Hsl].
        apply IHl, Hsl. }
    rewrite Hr. destruct r; simpl; eauto.
  - eauto.
Qed.

Lemma own_property_safe (fields : list (jsstring * JSValue)) (k : jsstring)
    (r : JSValue) :
  forallb (fun kv => numbers_safe (snd kv)) fields = true ->
  own_property fields k = Some r -> numbers_safe r = true.
Proof.
  induction fields as [|[k' v] rest IH]; simpl; [discriminate|].
  intros Hsafe Hfind. apply andb_prop in Hsafe. destruct Hsafe as [Hv Hrest].
  destruct (own_property rest k) as [r'|] eqn:Hr.
  - inversion Hfind; subst. apply IH; auto.
  - destruct (jsstring_eqb k' k); [|discriminate].
    inversion Hfind; subst. exact Hv.
Qed.

Lemma property_safe (v : JSValue) (k : jsstring) :
  numbers_safe v = true -> numbers_safe (property v k) = true.
Proof.
  destruct v; simpl; auto.
  intros Hsafe. destruct (own_property fields k) as [r|] eqn:Hr; [|reflexivity].
  eapply own_property_safe; eauto.
Qed.

(** What [ToPrimitive] answers is a string or the value itself, which is
    then no array and no object. *)
Lemma to_primitive_cases (v p : JSValue) :
  to_primitive v = Some (Returns p) ->
  (exists s, p = VString s /\ to_string v = Some (Returns s))
  \/ (p = v /\ forall c, to_string v = Some c -> exists s, c = Returns s).
Proof.
  destruct v; simpl; intros H;
    try (right; inversion H; subst; split; [reflexivity|];
         intros c Hc; simpl in Hc;
         repeat match goal with
                | b : bool |- _ => destruct b
                | n : JSNumber |- _ => destruct n
                end;
         simpl in Hc;
         try (match type of Hc with
              | option_map _ ?o = _ => destruct o
              end; simpl in Hc);
         try discriminate; inversion Hc; eauto; fail).
  - left.
    match type of H with
    | and_then ?c _ = _ => destruct c as [[s|u]|] eqn:Hs
    end; simpl in H; try discriminate.
    inversion H; subst. eauto.
  - left. unfold object_to_primitive in *.
    destruct (has_own_property fields (lit "toString")); simpl in H;
      try discriminate.
    inversion H; subst. eauto.
Qed.

Lemma to_primitive_defined (v : JSValue) :
  numbers_safe v = true -> exists c, to_primitive v = Some c.
Proof.
  intros Hsafe. destruct (to_string_defined v Hsafe) as [c Hc].
  destruct v; try (simpl; eauto; fail);
    unfold to_primitive; rewrite Hc; destruct c; simpl; eauto.
Qed.

Lemma to_primitive_safe (v p : JSValue) :
  numbers_safe v = true -> to_primitive v = Some (Returns p) ->
  numbers_safe p = true.
Proof.
  intros Hsafe H.
  destruct (to_primitive_cases v p H) as [(s & -> & _)|[-> _]];
    [reflexivity | exact Hsafe].
Qed.

(** The number of a primitive in the fragment is a safe integer or
    [NaN]. *)
Lemma to_number_safe (p : JSValue) :
  numbers_safe p = true ->
  to_number p = NaN \/ exists z, to_number p = Int z /\ is_safe z = true.
Proof.
  destruct p as [| |[|]|[z|]|s|l|fields]; simpl; intros H; eauto;
    right; eexists; split; try reflexivity; try exact H; reflexivity.
Qed.

(** Inside the fragment the operator [+] always has an outcome. *)
Lemma js_add_defined (a b : JSValue) :
  numbers_safe a = true -> numbers_safe b = true ->
  exists c, js_add a b = Some c.
Proof.
  intros Ha Hb. unfold js_add.
  destruct (to_primitive_defined a Ha) as [[pa|v] Hpa]; rewrite Hpa; simpl;
    [|eauto].
  destruct (to_primitive_defined b Hb) as [[pb|v] Hpb]; rewrite Hpb; simpl;
    [|eauto].
  pose proof (to_primitive_safe a pa Ha Hpa) as Spa.
  pose proof (to_primitive_safe b pb Hb Hpb) as Spb.
  destruct (is_string pa || is_string pb).
  - destruct (to_string_defined pa Spa) as [[sa|v] Hsa]; rewrite Hsa; simpl;
      [|eauto].
    destruct (to_string_defined pb Spb) as [[sb|v] Hsb]; rewrite Hsb; simpl;
      eauto.
  - destruct (to_number_safe pa Spa) as [Na|(x & Na & Sx)];
      destruct (to_number_safe pb Spb) as [Nb|(y & Nb & Sy)];
      rewrite Na, Nb; simpl; try rewrite Sx; try rewrite Sy; simpl; eauto.
    destruct (number_add_safe x y Sx Sy) as (z & Hz & _).
    simpl in Hz. rewrite Sx, Sy in Hz. simpl in Hz.
    destruct (nearest_double (x + y)); [|discriminate]. simpl. eauto.
Qed.

(** What the operator [+] answers has a string. *)
Lemma js_add_result_string (a b t : JSValue) :
  js_add a b = Some (Returns t) -> exists s, to_string t = Some (Returns s).
Proof.
  unfold js_add.
  destruct (to_primitive a) as [[pa|v]|]; simpl; try discriminate.
  destruct (to_primitive b) as [[pb|v]|]; simpl; try discriminate.
  destruct (is_string pa || is_string pb).
  - destruct (to_string pa) as [[sa|v]|]; simpl; try discriminate.
    destruct (to_string pb) as [[sb|v]|]; simpl; try discriminate.
    intros H; inversion H; subst. simpl. eauto.
  - destruct (number_add (to_number pa) (to_number pb)) as [n|] eqn:Hn;
      simpl; [|discriminate].
    intros H; inversion H; subst. simpl.
    destruct (to_number pa) as [x|], (to_number pb) as [y|]; simpl in Hn.
    + destruct (is_safe x && is_safe y); [|discriminate].
      destruct (nearest_double (x + y)) as [z|] eqn:Hz; [|discriminate].
      inversion Hn; subst. simpl.
      destruct (nearest_double_spec _ _ Hz) as [Hd _]. rewrite Hd. simpl. eauto.
    + destruct (is_safe x); inversion Hn; subst; simpl; eauto.
    + destruct (is_safe y); inversion Hn; subst; simpl; eauto.
    + inversion Hn; subst; simpl; eauto.
Qed.

(** When the operator [+] answers, the conversion of neither operand to
    a string throws. *)
Lemma js_add_operands (a b t : JSValue) :
  js_add a b = Some (Returns t) ->
  (forall c, to_string a = Some c -> exists s, c = Returns s)
  /\ (forall c, to_string b = Some c -> exists s, c = Returns s).
Proof.
  unfold js_add.
  destruct (to_primitive a) as [[pa|v]|] eqn:Hpa; simpl; try discriminate.
  destruct (to_primitive b) as [[pb|v]|] eqn:Hpb; simpl; try discriminate.
  intros _. split.
  - destruct (to_primitive_cases a pa Hpa) as [(s & _ & Hs)|[_ H]];
      [|exact H].
    intros c Hc. rewrite Hs in Hc. inversion Hc. eauto.
  - destruct (to_primitive_cases b pb Hpb) as [(s & _ & Hs)|[_ H]];
      [|exact H].
    intros c Hc. rewrite Hs in Hc. inversion Hc. eauto.
Qed.


(** ** How the functions of the script run *)

Lemma trace_perform e w : trace (perform e w) = trace w ++ [e].
Proof. reflexivity. Qed.

Lemma replay_app evs evs' w : replay (evs ++ evs') w = replay evs' (replay evs w).
Proof. apply fold_left_app. Qed.

Lemma replay_cons e evs w : replay (e :: evs) w = replay evs (perform e w).
Proof. reflexivity. Qed.

Lemma trace_replay evs : forall w, trace (replay evs w) = trace w ++ evs.
Proof.
  induction evs as [|e evs IH]; intros w.
  - simpl. now rewrite app_nil_r.
  - rewrite replay_cons, IH, trace_perform, <- app_assoc. reflexivity.
Qed.

Lemma bind_normal {A B} (m : M A) (k : A -> M B) w a w1 :
  m w = Some (Normal a, w1) -> bind m k w = k a w1.
Proof. unfold bind. now intros ->. Qed.

Lemma setLoadingState_run b w :
  setLoadingState b w
  = Some (Normal tt,
          replay [EvDisabled b;
                  EvButtonHTML (if b then analyzing_markup else lit "Analyze")] w).
Proof. reflexivity. Qed.

Lemma clearResults_run w :
  clearResults w = Some (Normal tt, replay (clearing_events w) w).
Proof.
  unfold clearResults, clearing_events, release_events, bind, do_event.
  cbn [sentimentChart perform emit apply_event].
  destruct (sentimentChart w); reflexivity.
Qed.

Lemma get_property_defined host v k :
  nullish v = false -> get_property host v k = ret (property v k).
Proof. destruct v; simpl; congruence. Qed.

Lemma destructure_defined host data :
  nullish data = false ->
  destructure host data
  = ret (property data (lit "positive"), property data (lit "negative")).
Proof.
  intros Hnull. unfold destructure.
  rewrite !(get_property_defined host data _ Hnull).
  destruct data; try discriminate; reflexivity.
Qed.

Lemma destructure_nullish host data w :
  nullish data = true ->
  destructure host data w
  = Some (Throw (type_error (cannot_destructure host data)), w).
Proof. destruct data; try discriminate; reflexivity. Qed.

Lemma createOrUpdateChart_run host data w :
  nullish data = false ->
  createOrUpdateChart host data w
  = Some (Normal tt,
          assign_sentimentChart (charts_constructed w)
            (replay (release_events w
                     ++ [EvNewChart (charts_constructed w)
                           (property data (lit "positive"))
                           (property data (lit "negative"))]) w)).
Proof.
  intros Hdata. unfold createOrUpdateChart, release_events, bind.
  rewrite !(get_property_defined host data _ Hdata).
  destruct (sentimentChart w); reflexivity.
Qed.

Lemma convert_returns host {A} (c : option (Completion A)) (a : A) w :
  c = Some (Returns a) -> convert host c w = Some (Normal a, w).
Proof. intros ->. reflexivity. Qed.

Lemma convert_raises host {A} (c : option (Completion A)) (v : JSValue) w :
  c = Some (Raises v) ->
  convert host c w = Some (Throw (type_error (cannot_convert host v)), w).
Proof. intros ->. reflexivity. Qed.

(** The effects of [displayResults] on a body with counts. *)
Lemma displayResults_run host data w total sp sn st :
  nullish data = false ->
  js_add (property data (lit "positive")) (property data (lit "negative"))
  = Some (Returns total) ->
  to_string (property data (lit "positive")) = Some (Returns sp) ->
  to_string (property data (lit "negative")) = Some (Returns sn) ->
  to_string total = Some (Returns st) ->
  displayResults host data w
  = if strict_equals_zero total then
      Some (Normal tt,
            replay [EvDisplay (lit "flex"); EvSummary no_comments_markup] w)
    else
      Some (Normal tt,
            assign_sentimentChart (charts_constructed w)
              (replay ([EvDisplay (lit "flex");
                        EvSummary (summary_markup sp sn st)]
                       ++ release_events w
                       ++ [EvNewChart (charts_constructed w)
                             (property data (lit "positive"))
                             (property data (lit "negative"))]) w)).
Proof.
  intros Hnull Htotal Hsp Hsn Hst.
  unfold displayResults. unfold bind at 1. cbn [do_event].
  unfold bind at 1. rewrite (destructure_defined host data Hnull).
  cbn [ret fst snd].
  unfold bind at 1. rewrite Htotal. cbn [convert ret].
  destruct (strict_equals_zero total); [reflexivity|].
  unfold bind at 1. rewrite Hsp. cbn [convert ret].
  unfold bind at 1. rewrite Hsn. cbn [convert ret].
  unfold bind at 1. rewrite Hst. cbn [convert ret].
  unfold bind at 1. cbn [do_event].
  rewrite (createOrUpdateChart_run host data _ Hnull).
  unfold release_events.
  cbn [charts_constructed sentimentChart perform emit apply_event].
  rewrite (replay_app [_; _]). reflexivity.
Qed.

(** [displayResults] on a body whose counts cannot be added: the
    operator [+] throws after the results region has been shown. *)
Lemma displayResults_raises host data w v :
  nullish data = false ->
  js_add (property data (lit "positive")) (property data (lit "negative"))
  = Some (Raises v) ->
  displayResults host data w
  = Some (Throw (type_error (cannot_convert host v)),
          replay [EvDisplay (lit "flex")] w).
Proof.
  intros Hnull Htotal.
  unfold displayResults. unfold bind at 1. cbn [do_event].
  unfold bind at 1. rewrite (destructure_defined host data Hnull).
  cbn [ret fst snd].
  unfold bind at 1. rewrite Htotal. reflexivity.
Qed.

Lemma displayResults_nullish host data w :
  nullish data = true ->
  displayResults host data w
  = Some (Throw (type_error (cannot_destructure host data)),
          replay [EvDisplay (lit "flex")] w).
Proof.
  intros Hnull. unfold displayResults. unfold bind at 1. cbn [do_event].
  unfold bind at 1. rewrite (destructure_nullish host data _ Hnull).
  reflexivity.
Qed.

Lemma js_or_defined (v : JSValue) :
  js_or v (VString fallback_message) <> VUndefined.
Proof.
  unfold js_or. destruct (truthy v) eqn:Hv; [|discriminate].
  intros ->. discriminate.
Qed.

Lemma new_Error_run host (v : JSValue) (s : jsstring) (w : World) :
  v <> VUndefined -> to_string v = Some (Returns s) ->
  new_Error host v w
  = Some (Normal {| error_name := lit "Error"; message := s |}, w).
Proof.
  intros Hv Hs. destruct v; try congruence;
    unfold new_Error, bind; rewrite Hs; reflexivity.
Qed.

Lemma new_Error_raises host (v u : JSValue) (w : World) :
  to_string v = Some (Raises u) ->
  new_Error host v w = Some (Throw (type_error (cannot_convert host u)), w).
Proof.
  intros Hs. destruct v; try (simpl in Hs; discriminate);
    unfold new_Error, bind; rewrite Hs; reflexivity.
Qed.

(** The [try] block when it throws before rendering. *)
Lemma attempt_failure host net url w err :
  attempt_fails host (net (analyze_request url)) err ->
  attempt host net url w
  = Some (Throw err, perform (EvFetch (analyze_request url)) w).
Proof.
  intros Hfail. unfold attempt, fetch.
  unfold bind at 1. unfold bind at 1. cbn [do_event].
  inversion Hfail as [e He|r e Hjson Hr|r data Hjson Hok Hnull Hr
                      |r data s Hjson Hok Hnull Hs Hr
                      |r data v Hjson Hok Hnull Hs Hr]; subst.
  - reflexivity.
  - cbn [ret]. unfold response_json, bind. rewrite Hjson. reflexivity.
  - cbn [ret]. unfold response_json. unfold bind at 1. rewrite Hjson.
    cbn [ret]. unfold bind at 1. rewrite Hok. cbn [negb].
    destruct data; try discriminate; reflexivity.
  - cbn [ret]. unfold response_json. unfold bind at 1. rewrite Hjson.
    cbn [ret]. unfold bind at 1. rewrite Hok. cbn [negb].
    rewrite (bind_normal _ _ _ _ _
               (f_equal (fun m => m _) (get_property_defined host data _ Hnull))).
    unfold bind.
    rewrite (new_Error_run host _ s _ (js_or_defined _) Hs). reflexivity.
  - cbn [ret]. unfold response_json. unfold bind at 1. rewrite Hjson.
    cbn [ret]. unfold bind at 1. rewrite Hok. cbn [negb].
    rewrite (bind_normal _ _ _ _ _
               (f_equal (fun m => m _) (get_property_defined host data _ Hnull))).
    unfold bind.
    rewrite (new_Error_raises host _ v _ Hs). reflexivity.
Qed.

(** The [try] block when one of the two promises never settles: the
    request has gone out and nothing follows. *)
Lemma attempt_pending host net url w :
  settles (net (analyze_request url)) = false ->
  attempt host net url w
  = Some (Suspended, perform (EvFetch (analyze_request url)) w).
Proof.
  intros Hpending. unfold attempt, fetch.
  unfold bind at 1. unfold bind at 1. cbn [do_event].
  destruct (net (analyze_request url)) as [e|r|]; try discriminate;
    [|reflexivity].
  cbn [ret]. unfold response_json. unfold bind at 1.
  simpl in Hpending. destruct (json r); try discriminate. reflexivity.
Qed.

(** The [try] block when the response is [ok] and its body parses. *)
Lemma attempt_renders host net url w r data :
  net (analyze_request url) = FetchResolves r ->
  json r = JsonResolves data -> ok r = true ->
  attempt host net url w
  = displayResults host data (perform (EvFetch (analyze_request url)) w).
Proof.
  intros Hnet Hjson Hok. unfold attempt, fetch.
  unfold bind at 1. unfold bind at 1. cbn [do_event]. rewrite Hnet.
  cbn [ret]. unfold response_json. unfold bind at 1. rewrite Hjson.
  cbn [ret]. unfold bind at 1. rewrite Hok. reflexivity.
Qed.

(** [handleAnalysis] on input that is not blank, from the way the [try]
    block ends. *)
Lemma handleAnalysis_run host net w res w1 :
  trim (urlInput_value w) <> [] ->
  attempt host net (trim (urlInput_value w)) (replay (loading_events w) w)
  = Some (res, w1) ->
  handleAnalysis host net w
  = Some (match res with
          | Suspended => Suspended
          | _ => Normal tt
          end,
          match res with
          | Normal _ => replay [EvDisabled false; EvButtonHTML (lit "Analyze")] w1
          | Throw e => replay (failure_events e) w1
          | Suspended => w1
          end).
Proof.
  intros Hne Hrun. unfold handleAnalysis.
  destruct (trim (urlInput_value w)) as [|c url] eqn:Hurl; [congruence|].
  rewrite (bind_normal _ _ _ _ _ (setLoadingState_run true w)).
  rewrite (bind_normal _ _ _ _ _ (clearResults_run _)).
  change (replay (clearing_events (replay [EvDisabled true; EvButtonHTML analyzing_markup] w))
            (replay [EvDisabled true; EvButtonHTML analyzing_markup] w))
    with (replay (loading_events w) w).
  unfold try_catch_finally. rewrite Hrun.
  destruct res as [[]|e|]; reflexivity.
Qed.

Lemma handleAnalysis_undefined host net w :
  trim (urlInput_value w) <> [] ->
  attempt host net (trim (urlInput_value w)) (replay (loading_events w) w) = None ->
  handleAnalysis host net w = None.
Proof.
  intros Hne Hrun. unfold handleAnalysis.
  destruct (trim (urlInput_value w)) as [|c url] eqn:Hurl; [congruence|].
  rewrite (bind_normal _ _ _ _ _ (setLoadingState_run true w)).
  rewrite (bind_normal _ _ _ _ _ (clearResults_run _)).
  change (replay (clearing_events (replay [EvDisabled true; EvButtonHTML analyzing_markup] w))
            (replay [EvDisabled true; EvButtonHTML analyzing_markup] w))
    with (replay (loading_events w) w).
  unfold try_catch_finally. rewrite Hrun. reflexivity.
Qed.

(** What the loading phase leaves. *)
Lemma loading_world w :
  errorMessage_textContent (replay (loading_events w) w) = []
  /\ summaryContainer_innerHTML (replay (loading_events w) w) = []
  /\ resultsContainer_display (replay (loading_events w) w) = lit "none"
  /\ analyzeButton_disabled (replay (loading_events w) w) = true.
Proof.
  unfold loading_events, clearing_events, release_events.
  destruct (sentimentChart w); repeat split; reflexivity.
Qed.

(** An outcome that settles and does not render is a failure of the
    attempt; inside the fragment the error it throws is determined. *)
Lemma settled_failure host (o : FetchOutcome) :
  modelled o = true -> settles o = true ->
  match o with
  | FetchResolves r =>
      ok r = false \/ exists e, json r = JsonRejects e
  | _ => True
  end ->
  exists err, attempt_fails host o err.
Proof.
  intros Hm Hs Hbad. destruct o as [e|r|]; [| |discriminate].
  - exists e. constructor.
  - simpl in Hm, Hs. destruct (json r) as [e|data|] eqn:Hjson;
      [| |discriminate].
    + exists e. now constructor.
    + destruct Hbad as [Hok|[e He]]; [|discriminate].
      destruct (nullish data) eqn:Hnull.
      * eexists. eapply fails_null_body; eauto.
      * assert (Hsafe : numbers_safe
                          (js_or (property data (lit "detail"))
                             (VString fallback_message)) = true).
        { unfold js_or. destruct (truthy _); [|reflexivity].
          apply property_safe, Hm. }
        destruct (to_string_defined _ Hsafe) as [[s|v] Hstr].
        -- eexists. eapply fails_service; eauto.
        -- eexists. eapply fails_message; eauto.
Qed.

(** What the [try] block does to the page in every modelled outcome: it
    sends the request, leaves the button and the error line alone, and
    writes no summary unless it returns.  It stays suspended exactly when
    a promise does not settle. *)
Lemma attempt_shape host net url w :
  modelled (net (analyze_request url)) = true ->
  exists res evs w1,
    attempt host net url w = Some (res, w1)
    /\ trace w1 = trace w ++ EvFetch (analyze_request url) :: evs
    /\ quiet evs
    /\ errorMessage_textContent w1 = errorMessage_textContent w
    /\ analyzeButton_disabled w1 = analyzeButton_disabled w
    /\ (res = Suspended <-> settles (net (analyze_request url)) = false)
    /\ match res with
       | Normal _ => True
       | _ => summaryContainer_innerHTML w1 = summaryContainer_innerHTML w
       end.
Proof.
  intros Hm.
  destruct (settles (net (analyze_request url))) eqn:Hsettles.
  2:{ exists Suspended, [], (perform (EvFetch (analyze_request url)) w).
      rewrite (attempt_pending host net url w Hsettles).
      repeat split; reflexivity. }
  assert (Hfailure : forall err,
             attempt_fails host (net (analyze_request url)) err ->
             exists res evs w1,
               attempt host net url w = Some (res, w1)
               /\ trace w1 = trace w ++ EvFetch (analyze_request url) :: evs
               /\ quiet evs
               /\ errorMessage_textContent w1 = errorMessage_textContent w
               /\ analyzeButton_disabled w1 = analyzeButton_disabled w
               /\ (res = Suspended <-> true = false)
               /\ match res with
                  | Normal _ => True
                  | _ => summaryContainer_innerHTML w1
                         = summaryContainer_innerHTML w
                  end).
  { intros err Hfail.
    exists (Throw err), [], (perform (EvFetch (analyze_request url)) w).
    rewrite (attempt_failure host net url w err Hfail).
    repeat split; try reflexivity; discriminate. }
  destruct (net (analyze_request url)) as [e|r|] eqn:Hnet; [| |discriminate].
  { apply (Hfailure e). constructor. }
  destruct (ok r) eqn:Hok.
  2:{ destruct (settled_failure host (FetchResolves r) Hm Hsettles) as [err Herr];
        [left; exact Hok | apply (Hfailure err Herr)]. }
  simpl in Hm. simpl in Hsettles.
  destruct (json r) as [e|data|] eqn:Hjson; [| |discriminate].
  { apply (Hfailure e). now constructor. }
  unfold modelled_body in Hm.
  rewrite (attempt_renders host net url w r data Hnet Hjson Hok).
  set (w0 := perform (EvFetch (analyze_request url)) w).
  assert (Hthrown : forall err,
             exists res evs w1,
               Some (@Throw unit err, replay [EvDisplay (lit "flex")] w0)
               = Some (res, w1)
               /\ trace w1 = trace w ++ EvFetch (analyze_request url) :: evs
               /\ quiet evs
               /\ errorMessage_textContent w1 = errorMessage_textContent w
               /\ analyzeButton_disabled w1 = analyzeButton_disabled w
               /\ (res = Suspended <-> true = false)
               /\ match res with
                  | Normal _ => True
                  | _ => summaryContainer_innerHTML w1
                         = summaryContainer_innerHTML w
                  end).
  { intros err. exists (Throw err), [EvDisplay (lit "flex")],
      (replay [EvDisplay (lit "flex")] w0).
    split; [reflexivity|]. rewrite trace_replay.
    subst w0. rewrite trace_perform, <- app_assoc.
    repeat split; try reflexivity; discriminate. }
  destruct (nullish data) eqn:Hnull.
  { rewrite (displayResults_nullish host data w0 Hnull). apply Hthrown. }
  destruct (js_add_defined _ _ (property_safe data (lit "positive") Hm)
              (property_safe data (lit "negative") Hm)) as [[total|v] Htotal].
  2:{ rewrite (displayResults_raises host data w0 v Hnull Htotal).
      apply Hthrown. }
  destruct (js_add_operands _ _ _ Htotal) as [Hpos Hneg].
  destruct (to_string_defined _ (property_safe data (lit "positive") Hm))
    as [cp Hcp].
  destruct (Hpos cp Hcp) as [sp ->].
  destruct (to_string_defined _ (property_safe data (lit "negative") Hm))
    as [cn Hcn].
  destruct (Hneg cn Hcn) as [sn ->].
  destruct (js_add_result_string _ _ _ Htotal) as [st Hst].
  rewrite (displayResults_run host data w0 total sp sn st
             Hnull Htotal Hcp Hcn Hst).
  destruct (strict_equals_zero total).
  - do 3 eexists. split; [reflexivity|]. rewrite trace_replay.
    subst w0. rewrite trace_perform, <- app_assoc.
    repeat split; try reflexivity; discriminate.
  - do 3 eexists. split; [reflexivity|].
    cbn [trace assign_sentimentChart]. rewrite trace_replay.
    subst w0. rewrite trace_perform, <- app_assoc.
    split; [reflexivity|].
    unfold release_events. cbn [sentimentChart perform emit apply_event].
    destruct (sentimentChart w); repeat split; try reflexivity; discriminate.
Qed.

Lemma handleAnalysis_shape host net w :
  trim (urlInput_value w) <> [] ->
  modelled (net (analyze_request (trim (urlInput_value w)))) = true ->
  exists res post w',
    handleAnalysis host net w = Some (res, w')
    /\ res = (if settles (net (analyze_request (trim (urlInput_value w))))
              then Normal tt else Suspended)
    /\ trace w'
       = trace w ++ loading_events w
         ++ EvFetch (analyze_request (trim (urlInput_value w))) :: post
         ++ (if settles (net (analyze_request (trim (urlInput_value w))))
             then [EvDisabled false; EvButtonHTML (lit "Analyze")] else [])
    /\ quiet post
    /\ analyzeButton_disabled w'
       = negb (settles (net (analyze_request (trim (urlInput_value w)))))
    /\ (errorMessage_textContent w' = [] \/ summaryContainer_innerHTML w' = []).
Proof.
  intros Hne Hm.
  destruct (attempt_shape host net (trim (urlInput_value w))
              (replay (loading_events w) w) Hm)
    as (res & evs & w1 & Hrun & Htr & Hq & Herr & Hbutton & Hpending & Hsum).
  destruct (loading_world w) as (Herr2 & Hsum2 & _ & Hdisabled).
  rewrite trace_replay in Htr.
  rewrite (handleAnalysis_run host net w res w1 Hne Hrun).
  destruct (settles (net (analyze_request (trim (urlInput_value w)))))
    eqn:Hsettles.
  - destruct res as [[]|e|].
    + exists (Normal tt), evs. eexists.
      split; [reflexivity|]. split; [reflexivity|].
      rewrite trace_replay, Htr, <- !app_assoc.
      split; [reflexivity|]. split; [exact Hq|]. split; [reflexivity|].
      left. cbn [replay fold_left errorMessage_textContent perform emit apply_event].
      congruence.
    + exists (Normal tt),
        (evs ++ [EvConsoleError e; EvErrorText (lit "Error: " ++ message e)]).
      eexists. split; [reflexivity|]. split; [reflexivity|].
      rewrite trace_replay, Htr, <- !app_assoc.
      split; [reflexivity|].
      split; [unfold quiet in *; rewrite forallb_app, Hq; reflexivity|].
      split; [reflexivity|].
      right.
      cbn [replay fold_left failure_events summaryContainer_innerHTML perform emit apply_event].
      rewrite Hsum. exact Hsum2.
    + destruct Hpending as [Hp _]. specialize (Hp eq_refl). discriminate.
  - destruct Hpending as [_ Hp]. rewrite (Hp eq_refl) in *.
    exists Suspended, evs, w1. split; [reflexivity|]. split; [reflexivity|].
    rewrite Htr, <- !app_assoc, app_nil_r.
    split; [reflexivity|]. split; [exact Hq|].
    split; [rewrite Hbutton; exact Hdisabled|].
    left. congruence.
Qed.

(** A failure before rendering: the effects are those of the loading
    phase, the request, the [catch] block and the [finally] block. *)
Lemma handleAnalysis_failure
    (host : Host) (net : Request -> FetchOutcome) (w : World) (err : JSError) :
  trim (urlInput_value w) <> [] ->
  attempt_fails host (net (analyze_request (trim (urlInput_value w)))) err ->
  handleAnalysis host net w
  = Some (Normal tt,
          replay (failure_events err)
            (perform (EvFetch (analyze_request (trim (urlInput_value w))))
               (replay (loading_events w) w))).
Proof.
  intros Hne Hfail.
  apply (handleAnalysis_run host net w (Throw err) _ Hne).
  apply attempt_failure, Hfail.
Qed.

(** ** Charts alive after a trace *)

Lemma live_from_app (evs evs' : list Event) :
  forall alive, live_from alive (evs ++ evs') = live_from (live_from alive evs) evs'.
Proof.
  induction evs as [|e evs IH]; intros alive; simpl; [reflexivity|].
  destruct e; apply IH.
Qed.

Lemma live_app (tr evs : list Event) :
  live (tr ++ evs) = live_from (live tr) evs.
Proof. apply live_from_app. Qed.

Lemma live_released (w : World) :
  single_owner w -> live_from (live (trace w)) (release_events w) = [].
Proof.
  unfold release_events. intros [Hnone|(c & Href & Hone)].
  - rewrite Hnone. destruct (sentimentChart w); reflexivity.
  - rewrite Href, Hone. simpl. destruct (Nat.eq_dec c c) as [_|Hc]; [reflexivity|].
    exfalso. apply Hc. reflexivity.
Qed.

Lemma live_cleared (w : World) :
  single_owner w -> live (trace w ++ clearing_events w) = [].
Proof.
  intros Hw. unfold clearing_events. rewrite live_app, live_from_app.
  simpl. apply live_released, Hw.
Qed.

Lemma live_loading (w : World) :
  single_owner w -> live (trace w ++ loading_events w) = [].
Proof.
  intros Hw. unfold loading_events, clearing_events.
  rewrite live_app, !live_from_app. simpl. apply live_released, Hw.
Qed.

(** ** The life cycle of one attempt *)

(** C2.  For input that is not blank, and whatever the network does
    (no response, a body that does not parse, a refusal, a result, a body
    whose processing throws, a promise that never settles), the first
    effect of [handleAnalysis] disables the button, the request follows,
    and nothing in between or after touches the button except the end of
    the attempt.  When the promises settle, [handleAnalysis] completes
    normally and its last effects enable the button again; when one does
    not, the attempt never completes and the button stays disabled.  So
    the button is disabled from before the request until the attempt is
    over, in every outcome. *)
Theorem button_disabled_during_attempt
    (host : Host) (net : Request -> FetchOutcome) (w : World) :
  trim (urlInput_value w) <> [] ->
  modelled (net (analyze_request (trim (urlInput_value w)))) = true ->
  exists res after w',
    handleAnalysis host net w = Some (res, w')
    /\ res = (if settles (net (analyze_request (trim (urlInput_value w))))
              then Normal tt else Suspended)
    /\ trace w'
       = trace w
         ++ [EvDisabled true; EvButtonHTML
               (lit "<i class=" ++ [34%N] ++ lit "fa-solid fa-spinner fa-spin"
                ++ [34%N] ++ lit "></i> Analyzing...")]
         ++ clearing_events w
         ++ EvFetch (analyze_request (trim (urlInput_value w))) :: after
         ++ (if settles (net (analyze_request (trim (urlInput_value w))))
             then [EvDisabled false; EvButtonHTML (lit "Analyze")] else [])
    /\ quiet (clearing_events w)
    /\ quiet after
    /\ analyzeButton_disabled w'
       = negb (settles (net (analyze_request (trim (urlInput_value w))))).
Proof.
  change (lit "<i class=" ++ [34%N] ++ lit "fa-solid fa-spinner fa-spin"
          ++ [34%N] ++ lit "></i> Analyzing...") with analyzing_markup.
  intros Hne Hm.
  destruct (handleAnalysis_shape host net w Hne Hm)
    as (res & post & w' & Hrun & Hres & Htrace & Hquiet & Hbutton & _).
  exists res, post, w'. split; [exact Hrun|]. split; [exact Hres|]. split.
  - rewrite Htrace. unfold loading_events. rewrite <- !app_assoc. reflexivity.
  - split; [|auto]. unfold quiet, clearing_events, release_events.
    destruct (sentimentChart w); reflexivity.
Qed.

Lemma button_disabled_during_attempt_witness :
  exists after w',
    handleAnalysis v8 (responds 200 (JsonResolves VNull)) (initial_world (lit "x"))
    = Some (Normal tt, w')
    /\ trace w'
       = [EvDisabled true; EvButtonHTML analyzing_markup]
         ++ [EvErrorText []; EvDisplay (lit "none"); EvSummary []]
         ++ EvFetch (analyze_request (lit "x")) :: after
         ++ [EvDisabled false; EvButtonHTML (lit "Analyze")]
    /\ quiet [EvErrorText []; EvDisplay (lit "none"); EvSummary []]
    /\ quiet after
    /\ analyzeButton_disabled w' = false.
Proof.
  destruct (button_disabled_during_attempt v8 (responds 200 (JsonResolves VNull))
              (initial_world (lit "x")))
    as (res & after & w' & Hrun & Hres & Htrace & Hclear & Hafter & Hbutton).
  - discriminate.
  - reflexivity.
  - exists after, w'. subst res.
    split; [exact Hrun|]. split; [exact Htrace|].
    split; [exact Hclear|]. split; [exact Hafter | exact Hbutton].
Defined.



(** ** Failures *)

Lemma failure_world (err : JSError) (w : World) :
  errorMessage_textContent (replay (failure_events err) w)
  = lit "Error: " ++ message err
  /\ summaryContainer_innerHTML (replay (failure_events err) w)
     = summaryContainer_innerHTML w
  /\ trace (replay (failure_events err) w) = trace w ++ failure_events err.
Proof. repeat split; try reflexivity. apply trace_replay. Qed.

Lemma handleAnalysis_failure_world
    (host : Host) (net : Request -> FetchOutcome) (w : World) (err : JSError) :
  trim (urlInput_value w) <> [] ->
  attempt_fails host (net (analyze_request (trim (urlInput_value w)))) err ->
  exists w',
    handleAnalysis host net w = Some (Normal tt, w')
    /\ errorMessage_textContent w' = lit "Error: " ++ message err
    /\ trace w'
       = trace w ++ loading_events w
         ++ EvFetch (analyze_request (trim (urlInput_value w)))
            :: failure_events err.
Proof.
  intros Hne Hfail. eexists. split.
  - apply handleAnalysis_failure; eassumption.
  - destruct (failure_world err
                (perform (EvFetch (analyze_request (trim (urlInput_value w))))
                   (replay (loading_events w) w))) as (Htext & _ & Htrace).
    split; [exact Htext|].
    rewrite Htrace, trace_perform, trace_replay, <- !app_assoc. reflexivity.
Qed.

(** C4, as amended.  When no response is received, [handleAnalysis]
    completes with the error line set to "Error: " followed by the
    description of the failure, after the loading phase and the request and
    without rendering anything.  The prefix is not particular to this kind
    of failure: every failure of the attempt, a refusal by the service
    included, is reported with the same prefix before its own message. *)
Theorem transport_failure_reports_description
    (host : Host) (net : Request -> FetchOutcome) (w : World) (e : JSError) :
  trim (urlInput_value w) <> [] ->
  net (analyze_request (trim (urlInput_value w))) = FetchRejects e ->
  (exists w',
     handleAnalysis host net w = Some (Normal tt, w')
     /\ errorMessage_textContent w' = lit "Error: " ++ message e
     /\ trace w'
        = trace w ++ loading_events w
          ++ EvFetch (analyze_request (trim (urlInput_value w)))
             :: failure_events e)
  /\ (forall net' err,
        attempt_fails host
          (net' (analyze_request (trim (urlInput_value w)))) err ->
        exists w',
          handleAnalysis host net' w = Some (Normal tt, w')
          /\ errorMessage_textContent w' = lit "Error: " ++ message err).
Proof.
  intros Hne Hnet. split.
  - apply handleAnalysis_failure_world; [exact Hne|].
    rewrite Hnet. constructor.
  - intros net' err Hfail.
    destruct (handleAnalysis_failure_world host net' w err Hne Hfail)
      as (w' & Hrun & Htext & _).
    exists w'. split; assumption.
Qed.

Lemma transport_failure_reports_description_witness :
  exists w',
    handleAnalysis v8 (unreachable "Failed to fetch") (initial_world (lit "x"))
    = Some (Normal tt, w')
    /\ errorMessage_textContent w' = lit "Error: Failed to fetch".
Proof.
  destruct (transport_failure_reports_description v8
              (unreachable "Failed to fetch") (initial_world (lit "x"))
              {| error_name := lit "TypeError"; message := lit "Failed to fetch" |})
    as [(w' & Hrun & Htext & _) _].
  - discriminate.
  - reflexivity.
  - exists w'. split; [exact Hrun | exact Htext].
Defined.

(** C4, as stated, fails: an unreachable service whose failure reads
    "bad url" and a service that refuses with the detail "bad url" leave
    the same error line, so no prefix tells the two apart. *)
Lemma transport_error_not_distinguished :
  exists wt ws,
    handleAnalysis v8 (unreachable "bad url") (initial_world (lit "x"))
    = Some (Normal tt, wt)
    /\ handleAnalysis v8 (responds 422 (detail_body "bad url"))
         (initial_world (lit "x"))
       = Some (Normal tt, ws)
    /\ errorMessage_textContent wt = lit "Error: bad url"
    /\ errorMessage_textContent ws = lit "Error: bad url".
Proof.
  do 2 eexists.
  split; [vm_compute; reflexivity|].
  split; [vm_compute; reflexivity|].
  split; vm_compute; reflexivity.
Qed.

(** C3, as amended.  When a response arrives that is not [ok], or whose
    body does not parse, [handleAnalysis] completes with the error line
    set to "Error: " followed by a message, after the loading phase and
    the request and without rendering anything.  The message is the
    description of the parse failure when the body does not parse.
    Otherwise it is the engine's [TypeError] text when the body is [null];
    the fallback "An unknown error occurred." when the body's [detail] is
    missing or falsy; the [detail] itself when it is a string; "true" and
    the digits of the number for the other truthy primitives;
    "[object Object]" for an object, unless it has a member named
    [toString], which makes the conversion throw: the message is then the
    engine's [TypeError] text; and for an array the strings of its
    elements joined by commas, or that [TypeError] text when one of them
    cannot be converted. *)
Theorem failed_response_reports_error
    (host : Host) (net : Request -> FetchOutcome) (w : World) (r : Response) :
  trim (urlInput_value w) <> [] ->
  net (analyze_request (trim (urlInput_value w))) = FetchResolves r ->
  modelled (FetchResolves r) = true ->
  settles (FetchResolves r) = true ->
  ok r = false \/ (exists e, json r = JsonRejects e) ->
  exists err w',
    handleAnalysis host net w = Some (Normal tt, w')
    /\ errorMessage_textContent w' = lit "Error: " ++ message err
    /\ trace w'
       = trace w ++ loading_events w
         ++ EvFetch (analyze_request (trim (urlInput_value w)))
            :: failure_events err
    /\ match json r with
       | JsonRejects e => err = e
       | JsonResolves data =>
           if nullish data then
             message err = cannot_read_property host data (lit "detail")
           else if truthy (property data (lit "detail")) then
             match property data (lit "detail") with
             | VString s => message err = s
             | VBool _ => message err = lit "true"
             | VNumber (Int z) =>
                 message err = decimal z /\ read_decimal (decimal z) = Some z
             | VObject fields =>
                 match own_property fields (lit "toString") with
                 | Some _ => message err = cannot_convert host (VObject fields)
                 | None => message err = lit "[object Object]"
                 end
             | VArray l =>
                 match to_string (VArray l) with
                 | Some (Returns s) => message err = s
                 | Some (Raises v) => message err = cannot_convert host v
                 | None => False
                 end
             | VUndefined | VNull | VNumber NaN => False
             end
           else message err = lit "An unknown error occurred."
       | JsonPending => False
       end.
Proof.
  intros Hne Hnet Hm Hsettles Hbad.
  assert (Hfail : exists err,
             attempt_fails host (FetchResolves r) err
             /\ match json r with
                | JsonRejects e => err = e
                | JsonResolves data =>
                    if nullish data then
                      message err = cannot_read_property host data (lit "detail")
                    else if truthy (property data (lit "detail")) then
                      match property data (lit "detail") with
                      | VString s => message err = s
                      | VBool _ => message err = lit "true"
                      | VNumber (Int z) =>
                          message err = decimal z /\ read_decimal (decimal z) = Some z
                      | VObject fields =>
                          match own_property fields (lit "toString") with
                          | Some _ => message err = cannot_convert host (VObject fields)
                          | None => message err = lit "[object Object]"
                          end
                      | VArray l =>
                          match to_string (VArray l) with
                          | Some (Returns s) => message err = s
                          | Some (Raises v) => message err = cannot_convert host v
                          | None => False
                          end
                      | VUndefined | VNull | VNumber NaN => False
                      end
                    else message err = lit "An unknown error occurred."
                | JsonPending => False
                end).
  { simpl in Hm, Hsettles. destruct (json r) as [e|data|] eqn:Hjson;
      [| |discriminate].
    - exists e. split; [now constructor | reflexivity].
    - destruct Hbad as [Hok|[e He]]; [|discriminate].
      destruct (nullish data) eqn:Hnull.
      + eexists. split; [eapply fails_null_body; eauto | reflexivity].
      + unfold modelled_body in Hm.
        pose proof (property_safe data (lit "detail") Hm) as Hsafe.
        destruct (truthy (property data (lit "detail"))) eqn:Htruthy.
        * assert (Hor : js_or (property data (lit "detail"))
                          (VString fallback_message)
                        = property data (lit "detail"))
            by (unfold js_or; rewrite Htruthy; reflexivity).
          destruct (to_string_defined _ Hsafe) as [[s|v] Hstr].
          -- exists {| error_name := lit "Error"; message := s |}.
             split; [eapply fails_service; eauto; rewrite Hor; exact Hstr|].
             cbn [message].
             destruct (property data (lit "detail"))
               as [| |b|[z|]|s'|l|fields]; try discriminate Htruthy.
             ++ simpl in Htruthy. subst b. simpl in Hstr. congruence.
             ++ simpl in Hsafe, Hstr.
                rewrite (is_safe_double z Hsafe) in Hstr. simpl in Hstr.
                split; [congruence | apply read_decimal_decimal].
             ++ simpl in Hstr. congruence.
             ++ rewrite Hstr. reflexivity.
             ++ simpl in Hstr. unfold object_to_primitive, has_own_property in Hstr.
                destruct (own_property fields (lit "toString"));
                  [discriminate | congruence].
          -- exists (type_error (cannot_convert host v)).
             split; [eapply fails_message; eauto; rewrite Hor; exact Hstr|].
             cbn [message type_error].
             destruct (property data (lit "detail"))
               as [| |b|[z|]|s'|l|fields]; try discriminate Htruthy.
             ++ destruct b; discriminate Hstr.
             ++ simpl in Hstr. destruct (is_double z); discriminate Hstr.
             ++ discriminate Hstr.
             ++ rewrite Hstr. reflexivity.
             ++ simpl in Hstr. unfold object_to_primitive, has_own_property in Hstr.
                destruct (own_property fields (lit "toString"));
                  [congruence | discriminate].
        * exists {| error_name := lit "Error"; message := fallback_message |}.
          split; [|reflexivity].
          eapply fails_service; eauto.
          unfold js_or. rewrite Htruthy. reflexivity. }
  destruct Hfail as (err & Hfail & Hmsg).
  rewrite <- Hnet in Hfail.
  destruct (handleAnalysis_failure_world host net w err Hne Hfail)
    as (w' & Hrun & Htext & Htrace).
  exists err, w'. split; [exact Hrun|]. split; [exact Htext|].
  split; [exact Htrace | exact Hmsg].
Qed.

Lemma failed_response_reports_error_witness :
  exists w',
    handleAnalysis v8 (responds 422 (detail_body "bad url"))
      (initial_world (lit "x"))
    = Some (Normal tt, w')
    /\ errorMessage_textContent w' = lit "Error: bad url".
Proof.
  destruct (failed_response_reports_error v8
              (responds 422 (detail_body "bad url")) (initial_world (lit "x"))
              {| status := 422; json := detail_body "bad url" |})
    as (err & w' & Hrun & Htext & _ & Hmsg).
  - discriminate.
  - reflexivity.
  - reflexivity.
  - reflexivity.
  - left. reflexivity.
  - exists w'. split; [exact Hrun|].
    rewrite Htext. simpl in Hmsg. rewrite Hmsg. reflexivity.
Defined.

(** C3, as stated, fails: a refusal whose body does not parse (here status
    500 with an empty body) is reported with the description of the parse
    failure, which is neither a [detail] of the body nor the fallback
    "An unknown error occurred.". *)
Lemma unparseable_body_not_fallback :
  exists w',
    handleAnalysis v8 (responds 500 unparseable_body) (initial_world (lit "x"))
    = Some (Normal tt, w')
    /\ errorMessage_textContent w' = lit "Error: Unexpected end of JSON input"
    /\ errorMessage_textContent w' <> lit "Error: An unknown error occurred.".
Proof.
  eexists. split; [vm_compute; reflexivity|].
  split; [vm_compute; reflexivity|]. vm_compute. discriminate.
Qed.

(** ** Clearing *)

Lemma sentimentChart_replay (evs : list Event) :
  forall w, sentimentChart (replay evs w) = sentimentChart w.
Proof.
  induction evs as [|e evs IH]; intros w; [reflexivity|].
  rewrite replay_cons, IH. reflexivity.
Qed.

(** C5, as amended.  A click with blank input only sets the error line:
    that is its one effect, and the summary, the results region and the
    chart stay as they were.  A click with other input writes the empty
    summary in the loading phase, before the request goes out (between the
    two, the only effect is [destroy] on the chart the variable refers
    to); and whenever the page shows an error when [handleAnalysis] is
    over, the summary is empty. *)
Theorem summary_cleared_by_loading
    (host : Host) (net : Request -> FetchOutcome) (w : World) :
  (trim (urlInput_value w) = [] ->
   exists w',
     handleAnalysis host net w = Some (Normal tt, w')
     /\ trace w'
        = trace w ++ [EvErrorText (lit "Please paste a YouTube video URL.")]
     /\ summaryContainer_innerHTML w' = summaryContainer_innerHTML w
     /\ resultsContainer_display w' = resultsContainer_display w
     /\ sentimentChart w' = sentimentChart w
     /\ live (trace w') = live (trace w))
  /\ (trim (urlInput_value w) <> [] ->
      modelled (net (analyze_request (trim (urlInput_value w)))) = true ->
      exists res after w',
        handleAnalysis host net w = Some (res, w')
        /\ trace w'
           = trace w
             ++ [EvDisabled true; EvButtonHTML
               (lit "<i class=" ++ [34%N] ++ lit "fa-solid fa-spinner fa-spin"
                ++ [34%N] ++ lit "></i> Analyzing...");
                 EvErrorText []; EvDisplay (lit "none"); EvSummary []]
             ++ match sentimentChart w with
                | Some c => [EvDestroy c]
                | None => []
                end
             ++ EvFetch (analyze_request (trim (urlInput_value w))) :: after
        /\ (errorMessage_textContent w' <> [] ->
            res = Normal tt /\ summaryContainer_innerHTML w' = [])).
Proof.
  change (lit "<i class=" ++ [34%N] ++ lit "fa-solid fa-spinner fa-spin"
          ++ [34%N] ++ lit "></i> Analyzing...") with analyzing_markup.
  split.
  - intros Hblank. unfold handleAnalysis. rewrite Hblank.
    eexists. split; [reflexivity|]. split; [reflexivity|].
    split; [reflexivity|]. split; [reflexivity|]. split; [reflexivity|].
    rewrite trace_perform, live_app. reflexivity.
  - intros Hne Hm.
    destruct (handleAnalysis_shape host net w Hne Hm)
      as (res & post & w' & Hrun & Hres & Htrace & _ & _ & Hor).
    exists res,
      (post ++ (if settles (net (analyze_request (trim (urlInput_value w))))
                then [EvDisabled false; EvButtonHTML (lit "Analyze")] else [])),
      w'.
    split; [exact Hrun|]. split.
    + rewrite Htrace. unfold loading_events, clearing_events, release_events.
      rewrite <- !app_assoc. reflexivity.
    + intros Herr. destruct Hor as [Hnone|Hsum]; [contradiction|].
      split; [|exact Hsum].
      destruct (settles (net (analyze_request (trim (urlInput_value w)))))
        eqn:Hsettles; [exact Hres|].
      exfalso. apply Herr.
      destruct (attempt_shape host net (trim (urlInput_value w))
                  (replay (loading_events w) w) Hm)
        as (res1 & evs & w1 & Hattempt & _ & _ & Htext & _ & Hpending & _).
      destruct Hpending as [_ Hp]. rewrite (Hp Hsettles) in Hattempt.
      rewrite (handleAnalysis_run host net w Suspended w1 Hne Hattempt) in Hrun.
      assert (Hw' : w' = w1) by congruence. subst w'.
      rewrite Htext. apply loading_world.
Qed.

Lemma summary_cleared_by_loading_witness :
  exists res after w',
    handleAnalysis v8 (responds 422 (detail_body "bad url"))
      (type_input (lit "x")
         (replay [EvSummary no_comments_markup] (initial_world [])))
    = Some (res, w')
    /\ trace w'
       = [EvSummary no_comments_markup]
         ++ [EvDisabled true; EvButtonHTML analyzing_markup;
             EvErrorText []; EvDisplay (lit "none"); EvSummary []]
         ++ []
         ++ EvFetch (analyze_request (lit "x")) :: after
    /\ (errorMessage_textContent w' <> [] ->
        res = Normal tt /\ summaryContainer_innerHTML w' = []).
Proof.
  apply (proj2 (summary_cleared_by_loading v8
                  (responds 422 (detail_body "bad url"))
                  (type_input (lit "x")
                     (replay [EvSummary no_comments_markup] (initial_world []))))).
  - discriminate.
  - reflexivity.
Defined.

(** C5, as stated, fails: after an analysis that rendered "10 / 5 / 15"
    and drew its chart, a click with the field emptied enters the error
    state of the validation, and the summary, the results region and the
    chart are still on the page. *)
Lemma blank_input_keeps_summary :
  exists w1 w2 before after,
    handleAnalysis v8 (responds 200 (JsonResolves (result_model 10 5)))
      (initial_world (lit "https://youtu.be/abc"))
    = Some (Normal tt, w1)
    /\ handleAnalysis v8 (responds 200 (JsonResolves (result_model 10 5)))
         (type_input [] w1)
       = Some (Normal tt, w2)
    /\ errorMessage_textContent w2 = lit "Please paste a YouTube video URL."
    /\ summaryContainer_innerHTML w2
       = before ++ lit "<span><strong>15</strong> Total Comments Analyzed</span>"
         ++ after
    /\ summaryContainer_innerHTML w2 <> []
    /\ resultsContainer_display w2 = lit "flex"
    /\ live (trace w2) = [0%nat].
Proof.
  eexists. eexists.
  exists (firstn 531 (summary_markup (lit "10") (lit "5") (lit "15"))).
  exists (skipn 587 (summary_markup (lit "10") (lit "5") (lit "15"))).
  split; [vm_compute; reflexivity|].
  split; [vm_compute; reflexivity|].
  split; [vm_compute; reflexivity|].
  split; [vm_compute; reflexivity|].
  split; [vm_compute; discriminate|].
  split; vm_compute; reflexivity.
Qed.

(** C8, as amended.  [clearResults] completes with the effects of
    clearing, among them [destroy] on the chart the variable refers to, if
    it refers to one; afterwards no chart is alive, and the variable is
    what it was: the reference is kept.  When the variable is [null] there
    is no effect on any chart.  A second [clearResults] repeats the same
    effects, [destroy] on the same chart included, and leaves the page and
    the charts as the first one left them. *)
Theorem clear_destroys_and_keeps_reference (w : World) :
  single_owner w ->
  exists w' w'',
    clearResults w = Some (Normal tt, w')
    /\ trace w'
       = trace w ++ [EvErrorText []; EvDisplay (lit "none"); EvSummary []]
         ++ match sentimentChart w with
            | Some c => [EvDestroy c]
            | None => []
            end
    /\ live (trace w') = []
    /\ sentimentChart w' = sentimentChart w
    /\ clearResults w' = Some (Normal tt, w'')
    /\ trace w'' = trace w' ++ clearing_events w
    /\ same_page w' w''.
Proof.
  intros Hown.
  exists (replay (clearing_events w) w).
  exists (replay (clearing_events w) (replay (clearing_events w) w)).
  assert (Href : clearing_events (replay (clearing_events w) w) = clearing_events w).
  { unfold clearing_events at 1, release_events.
    rewrite sentimentChart_replay. reflexivity. }
  assert (Hlive : live (trace (replay (clearing_events w) w)) = []).
  { rewrite trace_replay. apply live_cleared, Hown. }
  split; [apply clearResults_run|].
  split; [apply trace_replay|].
  split; [exact Hlive|].
  split; [apply sentimentChart_replay|].
  split; [rewrite clearResults_run, Href; reflexivity|].
  split; [apply trace_replay|].
  unfold same_page.
  rewrite (trace_replay (clearing_events w) (replay (clearing_events w) w)).
  rewrite live_app, Hlive.
  unfold clearing_events, release_events.
  destruct (sentimentChart w); simpl; intuition reflexivity.
Qed.

Lemma clear_destroys_and_keeps_reference_witness :
  exists w' w'',
    clearResults
      (assign_sentimentChart 0%nat
         (replay [EvNewChart 0%nat (VNumber (Int 1)) (VNumber (Int 2))]
            (initial_world [])))
    = Some (Normal tt, w')
    /\ trace w'
       = [EvNewChart 0%nat (VNumber (Int 1)) (VNumber (Int 2))]
         ++ [EvErrorText []; EvDisplay (lit "none"); EvSummary []]
         ++ [EvDestroy 0%nat]
    /\ live (trace w') = []
    /\ sentimentChart w' = Some 0%nat
    /\ clearResults w' = Some (Normal tt, w'')
    /\ trace w''
       = trace w' ++ [EvErrorText []; EvDisplay (lit "none"); EvSummary [];
                      EvDestroy 0%nat]
    /\ same_page w' w''.
Proof.
  apply (clear_destroys_and_keeps_reference
           (assign_sentimentChart 0%nat
              (replay [EvNewChart 0%nat (VNumber (Int 1)) (VNumber (Int 2))]
                 (initial_world [])))).
  right. exists 0%nat. split; reflexivity.
Defined.

(** C8, as stated, fails: after a chart has been presented and cleared,
    no chart is alive but the variable still refers to the destroyed one,
    and a second clear calls [destroy] on it again. *)
Lemma clear_keeps_reference :
  exists w1 w2 w3,
    createOrUpdateChart v8 (result_model 10 5) (initial_world [])
    = Some (Normal tt, w1)
    /\ clearResults w1 = Some (Normal tt, w2)
    /\ live (trace w2) = []
    /\ sentimentChart w2 = Some 0%nat
    /\ sentimentChart w2 <> None
    /\ clearResults w2 = Some (Normal tt, w3)
    /\ trace w3
       = trace w2 ++ [EvErrorText []; EvDisplay (lit "none"); EvSummary [];
                      EvDestroy 0%nat].
Proof.
  do 3 eexists.
  split; [vm_compute; reflexivity|].
  split; [vm_compute; reflexivity|].
  split; [vm_compute; reflexivity|].
  split; [vm_compute; reflexivity|].
  split; [vm_compute; discriminate|].
  split; vm_compute; reflexivity.
Qed.

(** ** One chart at a time *)

Lemma at_most_one_live_nil : at_most_one_live [].
Proof. intros n. destruct n; simpl; lia. Qed.

Lemma at_most_one_live_snoc (tr : list Event) (e : Event) :
  at_most_one_live tr ->
  (List.length (live (tr ++ [e])) <= 1)%nat ->
  at_most_one_live (tr ++ [e]).
Proof.
  intros Htr He n. destruct (Nat.le_gt_cases n (List.length tr)) as [Hn|Hn].
  - rewrite firstn_app.
    replace (n - List.length tr)%nat with 0%nat by lia.
    simpl. rewrite app_nil_r. apply Htr.
  - rewrite firstn_all2; [exact He|]. rewrite length_app. simpl. lia.
Qed.

Lemma single_owner_length (w : World) :
  single_owner w -> (List.length (live (trace w)) <= 1)%nat.
Proof. intros [H|(c & _ & H)]; rewrite H; simpl; lia. Qed.

Lemma invariant_initial (input : jsstring) : chart_invariant (initial_world input).
Proof. split; [left; reflexivity | apply at_most_one_live_nil]. Qed.

Lemma invariant_type_input (input : jsstring) (w : World) :
  chart_invariant w -> chart_invariant (type_input input w).
Proof. intros H. exact H. Qed.

(** An effect on the page or the network leaves the charts alone. *)
Lemma invariant_perform (e : Event) (w : World) :
  is_chart_event e = false ->
  chart_invariant w -> chart_invariant (perform e w).
Proof.
  intros He [Hown Hpast].
  assert (Hlive : live (trace (perform e w)) = live (trace w)).
  { rewrite trace_perform, live_app. destruct e; try discriminate; reflexivity. }
  assert (Hown' : single_owner (perform e w)).
  { unfold single_owner. rewrite Hlive. exact Hown. }
  split; [exact Hown'|].
  rewrite trace_perform. apply at_most_one_live_snoc; [exact Hpast|].
  rewrite <- trace_perform. apply single_owner_length, Hown'.
Qed.

Lemma invariant_replay (evs : list Event) :
  forallb (fun e => negb (is_chart_event e)) evs = true ->
  forall w, chart_invariant w -> chart_invariant (replay evs w).
Proof.
  induction evs as [|e evs IH]; intros Hevs w Hw; [exact Hw|].
  simpl in Hevs. apply andb_prop in Hevs. destruct Hevs as [He Hevs].
  rewrite replay_cons. apply IH; [exact Hevs|].
  apply invariant_perform; [|exact Hw].
  destruct (is_chart_event e); [discriminate | reflexivity].
Qed.

(** Destroying the chart the variable refers to leaves none alive. *)
Lemma invariant_destroy (c : ChartRef) (w : World) :
  sentimentChart w = Some c ->
  chart_invariant w ->
  chart_invariant (perform (EvDestroy c) w)
  /\ live (trace (perform (EvDestroy c) w)) = [].
Proof.
  intros Href [Hown Hpast].
  assert (Hlive : live (trace (perform (EvDestroy c) w)) = []).
  { rewrite trace_perform, live_app.
    pose proof (live_released w Hown) as Hrel.
    unfold release_events in Hrel. rewrite Href in Hrel. exact Hrel. }
  split; [|exact Hlive]. split.
  - left. exact Hlive.
  - rewrite trace_perform. apply at_most_one_live_snoc; [exact Hpast|].
    rewrite <- trace_perform, Hlive. simpl. lia.
Qed.

Lemma invariant_release (w : World) :
  chart_invariant w ->
  chart_invariant (replay (release_events w) w)
  /\ live (trace (replay (release_events w) w)) = [].
Proof.
  intros Hw. unfold release_events.
  destruct (sentimentChart w) as [c|] eqn:Href.
  - apply (invariant_destroy c w Href Hw).
  - split; [exact Hw|]. destruct Hw as [[Hnone|(c & Hc & _)] _];
      [exact Hnone | congruence].
Qed.

(** Constructing a chart when none is alive, and keeping it in the
    variable. *)
Lemma invariant_construct (c : ChartRef) (p n : JSValue) (w : World) :
  chart_invariant w -> live (trace w) = [] ->
  chart_invariant (assign_sentimentChart c (perform (EvNewChart c p n) w))
  /\ live (trace (assign_sentimentChart c (perform (EvNewChart c p n) w))) = [c].
Proof.
  intros [Hown Hpast] Hnone.
  assert (Hlive : live (trace w ++ [EvNewChart c p n]) = [c]).
  { rewrite live_app, Hnone. reflexivity. }
  split; [|exact Hlive]. split.
  - right. exists c. split; [reflexivity | exact Hlive].
  - change (at_most_one_live (trace w ++ [EvNewChart c p n])).
    apply at_most_one_live_snoc; [exact Hpast|]. rewrite Hlive. simpl. lia.
Qed.

Lemma keeps_ret {A} (a : A) : keeps (ret a).
Proof. intros w r w' Hw H. inversion H; subst. exact Hw. Qed.

Lemma keeps_throw {A} (e : JSError) : keeps (@throw A e).
Proof. intros w r w' Hw H. inversion H; subst. exact Hw. Qed.

Lemma keeps_convert host {A} (c : option (Completion A)) :
  keeps (convert host c).
Proof.
  intros w r w' Hw H. unfold convert in H.
  destruct c as [[a|v]|]; inversion H; subst; exact Hw.
Qed.

Lemma keeps_await_forever {A} : keeps (@await_forever A).
Proof. intros w r w' Hw H. inversion H; subst. exact Hw. Qed.

Lemma keeps_bind {A B} (m : M A) (k : A -> M B) :
  keeps m -> (forall a, keeps (k a)) -> keeps (bind m k).
Proof.
  intros Hm Hk w r w' Hw H. unfold bind in H.
  destruct (m w) as [[[a|e|] w1]|] eqn:Hrun; [| | |discriminate].
  - apply (Hk a w1 r w'); [|exact H]. apply (Hm w _ w1 Hw Hrun).
  - inversion H; subst. apply (Hm w _ w' Hw Hrun).
  - inversion H; subst. apply (Hm w _ w' Hw Hrun).
Qed.

Lemma keeps_event (e : Event) : is_chart_event e = false -> keeps (do_event e).
Proof.
  intros He w r w' Hw H. inversion H; subst. apply invariant_perform; assumption.
Qed.

Lemma keeps_finally {A} (r : Result A) (fin : M unit) :
  keeps fin -> keeps (finally r fin).
Proof.
  intros Hfin w r' w' Hw H. unfold finally in H.
  destruct (fin w) as [[[u|e|] w1]|] eqn:Hrun; [| | |discriminate];
    inversion H; subst; apply (Hfin w _ w' Hw Hrun).
Qed.

Lemma keeps_try {A} (body : M A) (handler : JSError -> M A) (fin : M unit) :
  keeps body -> (forall e, keeps (handler e)) -> keeps fin ->
  keeps (try_catch_finally body handler fin).
Proof.
  intros Hbody Hhandler Hfin w r w' Hw H. unfold try_catch_finally in H.
  destruct (body w) as [[[a|e|] w1]|] eqn:Hrun; [| | |discriminate].
  - apply (keeps_finally (Normal a) fin Hfin w1 r w'); [|exact H].
    apply (Hbody w _ w1 Hw Hrun).
  - destruct (handler e w1) as [[r1 w2]|] eqn:Hcatch; [|discriminate].
    assert (Hw2 : chart_invariant w2).
    { apply (Hhandler e w1 r1 w2); [|exact Hcatch].
      apply (Hbody w _ w1 Hw Hrun). }
    destruct r1 as [a|e1|].
    + apply (keeps_finally (Normal a) fin Hfin w2 r w' Hw2 H).
    + apply (keeps_finally (Throw e1) fin Hfin w2 r w' Hw2 H).
    + inversion H; subst. exact Hw2.
  - inversion H; subst. apply (Hbody w _ w' Hw Hrun).
Qed.

Create HintDb keeps.
#[local] Hint Resolve keeps_ret keeps_throw keeps_convert keeps_await_forever
  keeps_try : keeps.
#[local] Hint Extern 1 (keeps (do_event _)) =>
  apply keeps_event; reflexivity : keeps.
#[local] Hint Extern 2 (keeps (bind _ _)) =>
  apply keeps_bind; [|intros ?] : keeps.

Lemma keeps_get_property host v k : keeps (get_property host v k).
Proof. destruct v; simpl; auto with keeps. Qed.
#[local] Hint Resolve keeps_get_property : keeps.

Lemma keeps_destructure host data : keeps (destructure host data).
Proof. destruct data; simpl; auto with keeps. Qed.
#[local] Hint Resolve keeps_destructure : keeps.

Lemma keeps_new_Error host v : keeps (new_Error host v).
Proof. destruct v; unfold new_Error; auto with keeps. Qed.
#[local] Hint Resolve keeps_new_Error : keeps.

Lemma keeps_setLoadingState b : keeps (setLoadingState b).
Proof. unfold setLoadingState. auto with keeps. Qed.
#[local] Hint Resolve keeps_setLoadingState : keeps.

Lemma keeps_showError msg : keeps (showError msg).
Proof. unfold showError. auto with keeps. Qed.
#[local] Hint Resolve keeps_showError : keeps.

Lemma keeps_clearResults : keeps clearResults.
Proof.
  intros w r w' Hw H. rewrite clearResults_run in H.
  assert (Hw' : w' = replay (clearing_events w) w) by congruence.
  subst w'. clear H.
  unfold clearing_events. rewrite replay_app.
  set (w1 := replay _ w).
  assert (Hw1 : chart_invariant w1).
  { subst w1. apply invariant_replay; [reflexivity | exact Hw]. }
  replace (release_events w) with (release_events w1)
    by (unfold release_events; subst w1; rewrite sentimentChart_replay; reflexivity).
  apply invariant_release, Hw1.
Qed.
#[local] Hint Resolve keeps_clearResults : keeps.

Lemma keeps_createOrUpdateChart host data : keeps (createOrUpdateChart host data).
Proof.
  intros w r w' Hw H.
  destruct (invariant_release w Hw) as [Hrel Hnone].
  destruct (nullish data) eqn:Hnull.
  - assert (Hthrow : createOrUpdateChart host data w
                     = Some (Throw (type_error
                                      (cannot_read_property host data (lit "positive"))),
                             replay (release_events w) w)).
    { unfold createOrUpdateChart, release_events, bind.
      destruct data; try discriminate; destruct (sentimentChart w); reflexivity. }
    rewrite Hthrow in H.
    assert (Hw' : w' = replay (release_events w) w) by congruence.
    subst w'. exact Hrel.
  - rewrite (createOrUpdateChart_run host data w Hnull) in H.
    match type of H with
    | Some (_, ?x) = _ => assert (Hw' : w' = x) by congruence
    end.
    subst w'. clear H. rewrite replay_app.
    apply invariant_construct; assumption.
Qed.
#[local] Hint Resolve keeps_createOrUpdateChart : keeps.

Lemma keeps_displayResults host data : keeps (displayResults host data).
Proof.
  unfold displayResults.
  apply keeps_bind; [auto with keeps | intros _].
  apply keeps_bind; [auto with keeps | intros pn].
  apply keeps_bind; [auto with keeps | intros total].
  destruct (strict_equals_zero total); auto 8 with keeps.
Qed.
#[local] Hint Resolve keeps_displayResults : keeps.

Lemma keeps_fetch net r : keeps (fetch net r).
Proof.
  unfold fetch. apply keeps_bind; [auto with keeps | intros _].
  destruct (net r); auto with keeps.
Qed.
#[local] Hint Resolve keeps_fetch : keeps.

Lemma keeps_response_json r : keeps (response_json r).
Proof. unfold response_json. destruct (json r); auto with keeps. Qed.
#[local] Hint Resolve keeps_response_json : keeps.

Lemma keeps_attempt host net url : keeps (attempt host net url).
Proof.
  unfold attempt.
  apply keeps_bind; [auto with keeps | intros response].
  apply keeps_bind; [auto with keeps | intros data].
  apply keeps_bind; [|auto with keeps].
  destruct (negb (ok response)); auto with keeps.
Qed.
#[local] Hint Resolve keeps_attempt : keeps.

Lemma keeps_report error : keeps (report error).
Proof. unfold report. auto with keeps. Qed.
#[local] Hint Resolve keeps_report : keeps.

Lemma keeps_handleAnalysis host net : keeps (handleAnalysis host net).
Proof.
  intros w r w' Hw H. unfold handleAnalysis in H.
  destruct (trim (urlInput_value w)) as [|c url].
  - apply (keeps_showError _ w r w' Hw H).
  - revert H.
    assert (Hkeeps : keeps (setLoadingState true ;; clearResults ;;
                            try_catch_finally (attempt host net (c :: url))
                              (report) (setLoadingState false)))
      by auto 8 with keeps.
    intros H. apply (Hkeeps w r w' Hw H).
Qed.

Lemma keeps_act host a : keeps (act host a).
Proof.
  destruct a as [input net|data|]; simpl.
  - intros w r w' Hw H.
    apply (keeps_handleAnalysis host net (type_input input w) r w');
      [apply invariant_type_input, Hw | exact H].
  - apply keeps_createOrUpdateChart.
  - apply keeps_clearResults.
Qed.

(** Every world the page can reach satisfies the invariant of the
    chart. *)
Lemma run_invariant host actions :
  forall w w', chart_invariant w -> run host actions w = Some w' ->
               chart_invariant w'.
Proof.
  induction actions as [|a rest IH]; intros w w' Hw H; simpl in H.
  - inversion H; subst. exact Hw.
  - destruct (act host a w) as [[r w1]|] eqn:Hact; [|discriminate].
    apply (IH w1 w'); [|exact H].
    apply (keeps_act host a w r w1 Hw Hact).
Qed.

(** C7.  In every world the page can reach from its initial state by
    clicks and by calls of the two chart functions, no prefix of the trace
    leaves more than one chart alive.  From such a world two successive
    calls of [createOrUpdateChart] (with data that is not [null]) both
    complete; after the first the variable refers to the one live chart
    [c1]; the effects of the second are [destroy] on [c1] followed by the
    construction of [c2], a later instance; afterwards [c2] is the one live
    chart, and still no prefix of the trace leaves more than one alive. *)
Theorem one_chart_at_a_time
    (host : Host) (actions : list Action) (input : jsstring) (w : World)
    (d1 d2 : JSValue) :
  run host actions (initial_world input) = Some w ->
  nullish d1 = false -> nullish d2 = false ->
  at_most_one_live (trace w)
  /\ exists c1 c2 w1 w2,
       createOrUpdateChart host d1 w = Some (Normal tt, w1)
       /\ sentimentChart w1 = Some c1
       /\ live (trace w1) = [c1]
       /\ createOrUpdateChart host d2 w1 = Some (Normal tt, w2)
       /\ trace w2
          = trace w1
            ++ [EvDestroy c1;
                EvNewChart c2 (property d2 (lit "positive"))
                  (property d2 (lit "negative"))]
       /\ c2 = S c1
       /\ sentimentChart w2 = Some c2
       /\ live (trace w2) = [c2]
       /\ at_most_one_live (trace w2).
Proof.
  intros Hrun Hd1 Hd2.
  pose proof (run_invariant host actions _ w (invariant_initial input) Hrun) as Hw.
  split; [apply Hw|].
  pose proof (createOrUpdateChart_run host d1 w Hd1) as Hrun1.
  set (w1 := assign_sentimentChart _ _) in Hrun1.
  pose proof (createOrUpdateChart_run host d2 w1 Hd2) as Hrun2.
  set (w2 := assign_sentimentChart _ _) in Hrun2.
  assert (Hw1 : chart_invariant w1)
    by (apply (keeps_createOrUpdateChart host d1 w _ w1 Hw Hrun1)).
  assert (Hw2 : chart_invariant w2)
    by (apply (keeps_createOrUpdateChart host d2 w1 _ w2 Hw1 Hrun2)).
  assert (Hlive1 : live (trace w1) = [charts_constructed w]).
  { subst w1. rewrite replay_app.
    apply invariant_construct; apply invariant_release, Hw. }
  assert (Hcount : charts_constructed w1 = S (charts_constructed w)).
  { subst w1. unfold release_events. destruct (sentimentChart w); reflexivity. }
  assert (Hlive2 : live (trace w2) = [charts_constructed w1]).
  { subst w2. rewrite replay_app.
    apply invariant_construct; apply invariant_release, Hw1. }
  exists (charts_constructed w), (charts_constructed w1), w1, w2.
  split; [exact Hrun1|]. split; [reflexivity|]. split; [exact Hlive1|].
  split; [exact Hrun2|]. split.
  { subst w2. cbn [trace assign_sentimentChart]. rewrite trace_replay.
    reflexivity. }
  split; [exact Hcount|]. split; [reflexivity|]. split; [exact Hlive2|].
  apply Hw2.
Qed.

Lemma one_chart_at_a_time_witness :
  at_most_one_live
    (trace
       (assign_sentimentChart 0%nat
          (replay
             [EvDisabled true; EvButtonHTML analyzing_markup; EvErrorText [];
              EvDisplay (lit "none"); EvSummary [];
              EvFetch (analyze_request (lit "x"));
              EvDisplay (lit "flex");
              EvSummary (summary_markup (lit "10") (lit "5") (lit "15"));
              EvNewChart 0%nat (VNumber (Int 10)) (VNumber (Int 5));
              EvDisabled false; EvButtonHTML (lit "Analyze")]
             (type_input (lit "x") (initial_world [])))))
  /\ exists c1 c2 w1 w2,
       createOrUpdateChart v8 (result_model 1 2)
         (assign_sentimentChart 0%nat
            (replay
               [EvDisabled true; EvButtonHTML analyzing_markup; EvErrorText [];
                EvDisplay (lit "none"); EvSummary [];
                EvFetch (analyze_request (lit "x"));
                EvDisplay (lit "flex");
                EvSummary (summary_markup (lit "10") (lit "5") (lit "15"));
                EvNewChart 0%nat (VNumber (Int 10)) (VNumber (Int 5));
                EvDisabled false; EvButtonHTML (lit "Analyze")]
               (type_input (lit "x") (initial_world []))))
       = Some (Normal tt, w1)
       /\ sentimentChart w1 = Some c1
       /\ live (trace w1) = [c1]
       /\ createOrUpdateChart v8 (result_model 3 4) w1 = Some (Normal tt, w2)
       /\ trace w2
          = trace w1
            ++ [EvDestroy c1;
                EvNewChart c2 (property (result_model 3 4) (lit "positive"))
                  (property (result_model 3 4) (lit "negative"))]
       /\ c2 = S c1
       /\ sentimentChart w2 = Some c2
       /\ live (trace w2) = [c2]
       /\ at_most_one_live (trace w2).
Proof.
  apply (one_chart_at_a_time v8
           [Click (lit "x") (responds 200 (JsonResolves (result_model 10 5)))]
           []).
  - vm_compute. reflexivity.
  - reflexivity.
  - reflexivity.
Defined.

(** ** The summary *)

Lemma is_safe_bounds (z : Z) :
  0 <= z <= MAX_SAFE_INTEGER -> is_safe z = true.
Proof.
  intros [Hlo Hhi]. unfold is_safe.
  apply andb_true_intro. split; apply Z.leb_le; [|exact Hhi].
  unfold MAX_SAFE_INTEGER. lia.
Qed.

(** The template of [displayResults], written out. *)
Lemma summary_markup_text (sp sn st : jsstring) :
  summary_markup sp sn st
  = [10%N]
    ++ lit "            <h3>Analysis Summary</h3>" ++ [10%N]
    ++ lit "            <div class=" ++ [34%N] ++ lit "stat" ++ [34%N]
    ++ lit ">" ++ [10%N]
    ++ lit "                <i class=" ++ [34%N]
    ++ lit "fa-solid fa-thumbs-up stat-icon positive" ++ [34%N]
    ++ lit "></i>" ++ [10%N]
    ++ lit "                <span><strong>" ++ sp
    ++ lit "</strong> Positive Comments</span>" ++ [10%N]
    ++ lit "            </div>" ++ [10%N]
    ++ lit "            <div class=" ++ [34%N] ++ lit "stat" ++ [34%N]
    ++ lit ">" ++ [10%N]
    ++ lit "                <i class=" ++ [34%N]
    ++ lit "fa-solid fa-thumbs-down stat-icon negative" ++ [34%N]
    ++ lit "></i>" ++ [10%N]
    ++ lit "                <span><strong>" ++ sn
    ++ lit "</strong> Negative Comments</span>" ++ [10%N]
    ++ lit "            </div>" ++ [10%N]
    ++ lit "             <div class=" ++ [34%N] ++ lit "stat" ++ [34%N]
    ++ lit ">" ++ [10%N]
    ++ lit "                <i class=" ++ [34%N]
    ++ lit "fa-solid fa-comments stat-icon" ++ [34%N]
    ++ lit "></i>" ++ [10%N]
    ++ lit "                <span><strong>" ++ st
    ++ lit "</strong> Total Comments Analyzed</span>" ++ [10%N]
    ++ lit "            </div>" ++ [10%N]
    ++ lit "        ".
Proof.
  unfold summary_markup, stat_markup, markup_line, quoted, dquote, newline.
  rewrite <- !app_assoc. reflexivity.
Qed.

(** The sum of two counts, as the operator [+] computes it. *)
Lemma js_add_counts (p n : Z) :
  is_safe p = true -> is_safe n = true -> is_safe (p + n) = true ->
  js_add (VNumber (Int p)) (VNumber (Int n))
  = Some (Returns (VNumber (Int (p + n)))).
Proof.
  intros Sp Sn Ss. unfold js_add. simpl. rewrite Sp, Sn. simpl.
  rewrite (nearest_double_safe _ Ss). reflexivity.
Qed.

Lemma to_string_count (z : Z) :
  is_safe z = true -> to_string (VNumber (Int z)) = Some (Returns (decimal z)).
Proof. intros Sz. simpl. rewrite (is_safe_double z Sz). reflexivity. Qed.

(** C6, as amended.  For a body whose [positive] and [negative] are the
    non-negative integers [p] and [n] with a sum of at most [2^53 - 1],
    [displayResults] completes.  When [p + n] is [0] its effects are to
    show the results region and to write the "No comments were analyzed."
    markup: no chart is constructed and no count is rendered.  When
    [p + n] is positive the summary is the markup of the script with the
    digits of [p], of [n] and of [p + n] in the three places, digits that
    denote exactly these numbers, and the chart is constructed with [p]
    and [n]. *)
Theorem summary_of_counts
    (host : Host) (data : JSValue) (p n : Z) (w : World) :
  property data (lit "positive") = VNumber (Int p) ->
  property data (lit "negative") = VNumber (Int n) ->
  0 <= p -> 0 <= n -> p + n <= 2 ^ 53 - 1 ->
  exists summary w',
    displayResults host data w = Some (Normal tt, w')
    /\ summaryContainer_innerHTML w' = summary
    /\ if p + n =? 0 then
         summary
         = lit "<h3>No comments were analyzed.</h3><p>The video may have no comments, or they could not be processed.</p>"
         /\ trace w' = trace w ++ [EvDisplay (lit "flex"); EvSummary summary]
       else
         summary
         = [10%N]
           ++ lit "            <h3>Analysis Summary</h3>" ++ [10%N]
           ++ lit "            <div class=" ++ [34%N] ++ lit "stat" ++ [34%N]
           ++ lit ">" ++ [10%N]
           ++ lit "                <i class=" ++ [34%N]
           ++ lit "fa-solid fa-thumbs-up stat-icon positive" ++ [34%N]
           ++ lit "></i>" ++ [10%N]
           ++ lit "                <span><strong>" ++ decimal p
           ++ lit "</strong> Positive Comments</span>" ++ [10%N]
           ++ lit "            </div>" ++ [10%N]
           ++ lit "            <div class=" ++ [34%N] ++ lit "stat" ++ [34%N]
           ++ lit ">" ++ [10%N]
           ++ lit "                <i class=" ++ [34%N]
           ++ lit "fa-solid fa-thumbs-down stat-icon negative" ++ [34%N]
           ++ lit "></i>" ++ [10%N]
           ++ lit "                <span><strong>" ++ decimal n
           ++ lit "</strong> Negative Comments</span>" ++ [10%N]
           ++ lit "            </div>" ++ [10%N]
           ++ lit "             <div class=" ++ [34%N] ++ lit "stat" ++ [34%N]
           ++ lit ">" ++ [10%N]
           ++ lit "                <i class=" ++ [34%N]
           ++ lit "fa-solid fa-comments stat-icon" ++ [34%N]
           ++ lit "></i>" ++ [10%N]
           ++ lit "                <span><strong>" ++ decimal (p + n)
           ++ lit "</strong> Total Comments Analyzed</span>" ++ [10%N]
           ++ lit "            </div>" ++ [10%N]
           ++ lit "        "
         /\ read_decimal (decimal p) = Some p
         /\ read_decimal (decimal n) = Some n
         /\ read_decimal (decimal (p + n)) = Some (p + n)
         /\ trace w'
            = trace w
              ++ [EvDisplay (lit "flex"); EvSummary summary]
              ++ match sentimentChart w with
                 | Some c => [EvDestroy c]
                 | None => []
                 end
              ++ [EvNewChart (charts_constructed w)
                    (VNumber (Int p)) (VNumber (Int n))].
Proof.
  intros Hp Hn Hp0 Hn0 Hsum.
  assert (Hnull : nullish data = false).
  { destruct data; try reflexivity; discriminate. }
  assert (Sp : is_safe p = true)
    by (apply is_safe_bounds; unfold MAX_SAFE_INTEGER; lia).
  assert (Sn : is_safe n = true)
    by (apply is_safe_bounds; unfold MAX_SAFE_INTEGER; lia).
  assert (Ss : is_safe (p + n) = true)
    by (apply is_safe_bounds; unfold MAX_SAFE_INTEGER; lia).
  assert (Htotal : js_add (property data (lit "positive"))
                          (property data (lit "negative"))
                   = Some (Returns (VNumber (Int (p + n)))))
    by (rewrite Hp, Hn; apply js_add_counts; assumption).
  assert (Hsp : to_string (property data (lit "positive"))
                = Some (Returns (decimal p)))
    by (rewrite Hp; apply to_string_count, Sp).
  assert (Hsn : to_string (property data (lit "negative"))
                = Some (Returns (decimal n)))
    by (rewrite Hn; apply to_string_count, Sn).
  pose proof (to_string_count (p + n) Ss) as Hst.
  rewrite (displayResults_run host data w _ _ _ _ Hnull Htotal Hsp Hsn Hst).
  cbn [strict_equals_zero]. rewrite Hp, Hn.
  destruct (p + n =? 0).
  - exists no_comments_markup. eexists. split; [reflexivity|].
    split; [reflexivity|]. split; [reflexivity|]. apply trace_replay.
  - exists (summary_markup (decimal p) (decimal n) (decimal (p + n))).
    eexists. split; [reflexivity|]. split.
    + cbn [summaryContainer_innerHTML assign_sentimentChart].
      rewrite replay_app. unfold release_events.
      destruct (sentimentChart w); reflexivity.
    + split; [apply summary_markup_text|].
      split; [apply read_decimal_decimal|].
      split; [apply read_decimal_decimal|].
      split; [apply read_decimal_decimal|].
      cbn [trace assign_sentimentChart]. apply trace_replay.
Qed.

Lemma summary_of_counts_witness :
  exists w',
    displayResults v8 (result_model 10 5) (initial_world []) = Some (Normal tt, w')
    /\ summaryContainer_innerHTML w'
       = [10%N]
         ++ lit "            <h3>Analysis Summary</h3>" ++ [10%N]
         ++ lit "            <div class=" ++ [34%N] ++ lit "stat" ++ [34%N]
         ++ lit ">" ++ [10%N]
         ++ lit "                <i class=" ++ [34%N]
         ++ lit "fa-solid fa-thumbs-up stat-icon positive" ++ [34%N]
         ++ lit "></i>" ++ [10%N]
         ++ lit "                <span><strong>10</strong> Positive Comments</span>"
         ++ [10%N]
         ++ lit "            </div>" ++ [10%N]
         ++ lit "            <div class=" ++ [34%N] ++ lit "stat" ++ [34%N]
         ++ lit ">" ++ [10%N]
         ++ lit "                <i class=" ++ [34%N]
         ++ lit "fa-solid fa-thumbs-down stat-icon negative" ++ [34%N]
         ++ lit "></i>" ++ [10%N]
         ++ lit "                <span><strong>5</strong> Negative Comments</span>"
         ++ [10%N]
         ++ lit "            </div>" ++ [10%N]
         ++ lit "             <div class=" ++ [34%N] ++ lit "stat" ++ [34%N]
         ++ lit ">" ++ [10%N]
         ++ lit "                <i class=" ++ [34%N]
         ++ lit "fa-solid fa-comments stat-icon" ++ [34%N]
         ++ lit "></i>" ++ [10%N]
         ++ lit "                <span><strong>15</strong> Total Comments Analyzed</span>"
         ++ [10%N]
         ++ lit "            </div>" ++ [10%N]
         ++ lit "        "
    /\ exists summary,
         trace w'
         = [EvDisplay (lit "flex"); EvSummary summary;
            EvNewChart 0%nat (VNumber (Int 10)) (VNumber (Int 5))].
Proof.
  destruct (summary_of_counts v8 (result_model 10 5) 10 5 (initial_world []))
    as (summary & w' & Hrun & Hsummary & Hcase);
    try reflexivity; try lia.
  change (10 + 5 =? 0) with false in Hcase. cbv iota in Hcase.
  destruct Hcase as (Htext & _ & _ & _ & Htrace).
  exists w'. split; [exact Hrun|]. split.
  - rewrite Hsummary, Htext. vm_compute. reflexivity.
  - exists summary. exact Htrace.
Defined.

(** The sum of two safe integers, as the model computes it, agrees with
    the standard library's specification of binary64 on samples on both
    sides of [2^53]. *)
Example sums_agree_on_samples :
  forallb sums_agree
    [(10, 5); (0, 0); (9007199254740991, 0); (9007199254740991, 1);
     (9007199254740991, 2); (9007199254740991, 3); (9007199254740991, 4);
     (9007199254740991, 9007199254740991);
     (9007199254740990, 9007199254740991); (4503599627370497, 4503599627370496);
     (-9007199254740991, -2); (-9007199254740991, 9007199254740991)] = true.
Proof. vm_compute. reflexivity. Qed.

(** C6, as stated, fails: beyond [2^53 - 1] the sum is rounded to a
    double.  For the counts [9007199254740991] and [2] the summary shows
    the total [9007199254740992], which is not their sum. *)
Lemma total_rounded_beyond_safe_range :
  exists w' before after,
    displayResults v8 (result_model 9007199254740991 2) (initial_world [])
    = Some (Normal tt, w')
    /\ summaryContainer_innerHTML w'
       = before
         ++ lit "<span><strong>9007199254740992</strong> Total Comments Analyzed</span>"
         ++ after
    /\ read_decimal (lit "9007199254740992") <> Some (9007199254740991 + 2)
    /\ 0 < 9007199254740991 + 2.
Proof.
  eexists.
  exists (firstn 545
            (summary_markup (lit "9007199254740991") (lit "2")
               (lit "9007199254740992"))).
  exists (skipn 615
            (summary_markup (lit "9007199254740991") (lit "2")
               (lit "9007199254740992"))).
  split; [vm_compute; reflexivity|].
  split; [vm_compute; reflexivity|].
  split; [vm_compute; discriminate | reflexivity].
Qed.

(** ** The percentage of the tooltip *)



Lemma binade_bounds (a b : Z) :
  Z.log2 a - Z.log2 b - 53 <= binade a b <= Z.log2 a - Z.log2 b - 52.
Proof.
  unfold binade.
  destruct (a * 2 ^ Z.max 0 (- (Z.log2 a - Z.log2 b))
            <? b * 2 ^ Z.max 0 (Z.log2 a - Z.log2 b)); lia.
Qed.

(** With a negative exponent [e] the scaled ratio [a * 2^(-e) / b] has
    exactly 53 bits. *)
Lemma binade_spec (a b : Z) :
  0 < a -> 0 < b -> binade a b < 0 ->
  2 ^ 52 * b <= a * 2 ^ (- binade a b) < 2 ^ 53 * b.
Proof.
  intros Ha Hb. unfold binade.
  pose proof (Z.log2_spec a Ha) as [Ha1 Ha2].
  pose proof (Z.log2_spec b Hb) as [Hb1 Hb2].
  pose proof (Z.log2_nonneg a) as Hla.
  pose proof (Z.log2_nonneg b) as Hlb.
  set (la := Z.log2 a) in *. set (lb := Z.log2 b) in *.
  rewrite <- Z.add_1_r in Ha2, Hb2.
  rewrite Z.pow_add_r in Ha2, Hb2 by lia. change (2 ^ 1) with 2 in *.
  destruct (Z.le_gt_cases (la - lb) 0) as [Hd|Hd].
  - (* the ratio is below one: [la <= lb] *)
    rewrite (Z.max_r 0 (- (la - lb))) by lia.
    rewrite (Z.max_l 0 (la - lb)) by lia.
    change (2 ^ 0) with 1. rewrite Z.mul_1_r.
    assert (Hlb' : 2 ^ lb = 2 ^ la * 2 ^ (- (la - lb))).
    { rewrite <- Z.pow_add_r by lia. f_equal. lia. }
    assert (Hpos : 0 < 2 ^ (- (la - lb))) by (apply Z.pow_pos_nonneg; lia).
    assert (Hpa : 0 < 2 ^ la) by (apply Z.pow_pos_nonneg; lia).
    destruct (a * 2 ^ (- (la - lb)) <? b) eqn:Hcmp; intros He.
    + apply Z.ltb_lt in Hcmp.
      replace (- (la - lb - 1 - 52)) with (- (la - lb) + 53) by lia.
      rewrite Z.pow_add_r by lia.
      change (2 ^ 53) with (2 * 2 ^ 52). nia.
    + apply Z.ltb_ge in Hcmp.
      replace (- (la - lb - 52)) with (- (la - lb) + 52) by lia.
      rewrite Z.pow_add_r by lia.
      change (2 ^ 53) with (2 * 2 ^ 52). nia.
  - (* the ratio is at least one: [lb < la] *)
    rewrite (Z.max_l 0 (- (la - lb))) by lia.
    rewrite (Z.max_r 0 (la - lb)) by lia.
    change (2 ^ 0) with 1. rewrite Z.mul_1_r.
    assert (Hla' : 2 ^ la = 2 ^ lb * 2 ^ (la - lb)).
    { rewrite <- Z.pow_add_r by lia. f_equal. lia. }
    assert (Hpos : 0 < 2 ^ (la - lb)) by (apply Z.pow_pos_nonneg; lia).
    assert (Hpb : 0 < 2 ^ lb) by (apply Z.pow_pos_nonneg; lia).
    destruct (a <? b * 2 ^ (la - lb)) eqn:Hcmp; intros He.
    + apply Z.ltb_lt in Hcmp.
      assert (Hsplit : 2 ^ 53 = 2 ^ (la - lb) * 2 ^ (- (la - lb - 1 - 52))).
      { rewrite <- Z.pow_add_r by lia. f_equal. lia. }
      assert (Hpe : 0 < 2 ^ (- (la - lb - 1 - 52))) by (apply Z.pow_pos_nonneg; lia).
      assert (Hhalf : 2 ^ 53 = 2 * 2 ^ 52) by reflexivity.
      set (E := 2 ^ (- (la - lb - 1 - 52))) in *.
      set (D := 2 ^ (la - lb)) in *.
      set (X := 2 ^ 53) in *. set (Y := 2 ^ 52) in *.
      split.
      * (* [2 * Y * b = D * E * b < 2 * 2^lb * D * E <= 2 * a * E] *)
        assert (H1 : b * (D * E) <= 2 * a * E - 1 * (D * E)) by nia.
        nia.
      * nia.
    + apply Z.ltb_ge in Hcmp.
      assert (Hsplit : 2 ^ 52 = 2 ^ (la - lb) * 2 ^ (- (la - lb - 52))).
      { rewrite <- Z.pow_add_r by lia. f_equal. lia. }
      assert (Hpe : 0 < 2 ^ (- (la - lb - 52))) by (apply Z.pow_pos_nonneg; lia).
      assert (Hhalf : 2 ^ 53 = 2 * 2 ^ 52) by reflexivity.
      set (E := 2 ^ (- (la - lb - 52))) in *.
      set (D := 2 ^ (la - lb)) in *.
      set (X := 2 ^ 53) in *. set (Y := 2 ^ 52) in *.
      split; nia.
Qed.

(** The rounded mantissa is within half a unit of the scaled ratio. *)
Lemma nearest_mantissa (num den : Z) :
  0 < den -> 0 <= num ->
  let q := num / den in
  let r := num mod den in
  let m := if (den <? 2 * r) || ((den =? 2 * r) && Z.odd q) then q + 1 else q in
  2 * Z.abs (m * den - num) <= den /\ q <= m <= q + 1.
Proof.
  intros Hden Hnum q r m.
  pose proof (Z.div_mod num den ltac:(lia)) as Hdiv.
  pose proof (Z.mod_pos_bound num den Hden) as Hr.
  fold q r in Hdiv, Hr.
  assert (Hup : (q + 1) * den - num = den - r) by (rewrite Hdiv at 1; ring).
  assert (Hdown : q * den - num = - r) by (rewrite Hdiv at 1; ring).
  subst m.
  destruct (den <? 2 * r) eqn:Hlt; cbn [orb].
  - apply Z.ltb_lt in Hlt. rewrite Hup. lia.
  - apply Z.ltb_ge in Hlt.
    destruct (den =? 2 * r) eqn:Heq; cbn [andb].
    + apply Z.eqb_eq in Heq.
      destruct (Z.odd q); [rewrite Hup | rewrite Hdown]; lia.
    + rewrite Hdown. lia.
Qed.

(** [round_binary64] on a ratio whose exponent is negative and in range:
    the result has a mantissa of 53 bits and a negative exponent, and its
    value [m * 2^e] is within [2^-53] of [a / b], relatively. *)
Lemma round_binary64_spec (a b : Z) :
  0 < a -> 0 < b ->
  -1074 <= binade a b < -1 ->
  exists x,
    round_binary64 a b = Some x
    /\ binade a b <= exponent x <= binade a b + 1
    /\ 2 ^ 52 <= mantissa x < 2 ^ 53
    /\ 2 ^ 53 * Z.abs (mantissa x * b - a * 2 ^ (- exponent x))
       <= a * 2 ^ (- exponent x).
Proof.
  intros Ha Hb He.
  destruct (binade_spec a b Ha Hb ltac:(lia)) as [Hlo Hhi].
  unfold round_binary64.
  set (e := binade a b) in *.
  rewrite (Z.max_r 0 (- e)) by lia. rewrite (Z.max_l 0 e) by lia.
  change (2 ^ 0) with 1. rewrite Z.mul_1_r.
  assert (HP : 0 < 2 ^ (- e)) by (apply Z.pow_pos_nonneg; lia).
  assert (HP' : 2 ^ (- e) = 2 * 2 ^ (- (e + 1))).
  { replace (- e) with (1 + - (e + 1)) by lia.
    rewrite Z.pow_add_r by lia. reflexivity. }
  assert (HQ : 0 < 2 ^ (- (e + 1))) by (apply Z.pow_pos_nonneg; lia).
  set (P := 2 ^ (- e)) in *. set (Q := 2 ^ (- (e + 1))) in *.
  set (num := a * P) in *.
  destruct (nearest_mantissa num b Hb ltac:(subst num; nia)) as [Hnear Hm].
  assert (Hq : 2 ^ 52 <= num / b < 2 ^ 53).
  { split.
    - apply Z.div_le_lower_bound; lia.
    - apply Z.div_lt_upper_bound; lia. }
  set (q := num / b) in *. set (r := num mod b) in *.
  set (m := if (b <? 2 * r) || ((b =? 2 * r) && Z.odd q) then q + 1 else q) in *.
  assert (H53 : 2 ^ 53 = 2 * 2 ^ 52) by reflexivity.
  destruct (m =? 2 ^ 53) eqn:Hover.
  - apply Z.eqb_eq in Hover.
    eexists. split.
    { cbn [exponent].
      replace ((-1074 <=? e + 1) && (e + 1 <=? 971)) with true; [reflexivity|].
      symmetry. apply andb_true_intro. split; apply Z.leb_le; lia. }
    cbn [exponent mantissa]. fold Q.
    split; [lia|]. split; [lia|].
    set (X := 2 ^ 53) in *. set (Y := 2 ^ 52) in *.
    assert (Heven : m * b - num = 2 * (Y * b - a * Q)) by (subst num; nia).
    rewrite Heven in Hnear.
    remember (Z.abs (Y * b - a * Q)) as z eqn:Hz.
    assert (Hz4 : 4 * z <= b) by lia.
    assert (HY : 0 < Y) by (subst Y; reflexivity).
    assert (Hscaled : Y * (4 * z) <= Y * b) by (apply Z.mul_le_mono_nonneg_l; lia).
    subst num. nia.
  - apply Z.eqb_neq in Hover.
    eexists. split.
    { cbn [exponent].
      replace ((-1074 <=? e) && (e <=? 971)) with true; [reflexivity|].
      symmetry. apply andb_true_intro. split; apply Z.leb_le; lia. }
    cbn [exponent mantissa]. fold P. fold num.
    split; [lia|]. split; [lia|].
    set (X := 2 ^ 53) in *. set (Y := 2 ^ 52) in *.
    remember (Z.abs (m * b - num)) as z eqn:Hz.
    assert (HY : 0 < Y) by (subst Y; reflexivity).
    assert (Hscaled : Y * (2 * z) <= Y * b) by (apply Z.mul_le_mono_nonneg_l; lia).
    nia.
Qed.

(** Two roundings and the choice of the nearest tenth: with relative
    errors of [2^-53] in [N / D] for [v / t] and in [N' / D'] for
    [100 * N / D], the integer nearest to [10 * N' / D'] is an integer
    nearest to [1000 * v / t], as long as [t] stays below [10^12]. *)
Lemma nearest_tenth_arith (v t N D N' D' n : Z) :
  0 < v <= t -> t <= 10 ^ 12 ->
  0 < D -> 0 < D' -> 0 <= N -> 0 <= N' ->
  2 ^ 53 * Z.abs (N * t - v * D) <= v * D ->
  2 ^ 53 * Z.abs (N' * D - 100 * N * D') <= 100 * N * D' ->
  2 * n * D' <= 20 * N' + D' < 2 * n * D' + 2 * D' ->
  2 * Z.abs (n * t - 1000 * v) <= t.
Proof.
  intros Hv Ht HD HD' HN HN' H1 H2 Hn.
  change (10 ^ 12) with 1000000000000 in Ht.
  change (2 ^ 53) with 9007199254740992 in H1, H2.
  set (K := 9007199254740992) in *.
  assert (HK : K = 9007199254740992) by reflexivity.
  (* the two relative errors, without absolute values *)
  assert (H1u : K * (N * t) <= (K + 1) * (v * D)) by lia.
  assert (H1l : (K - 1) * (v * D) <= K * (N * t)) by lia.
  assert (H2u : K * (N' * D) <= (K + 1) * (100 * N * D')) by lia.
  assert (H2l : (K - 1) * (100 * N * D') <= K * (N' * D)) by lia.
  (* composed, and freed from [D] *)
  assert (HU : K * K * (N' * t) <= (K + 1) * (K + 1) * (100 * v * D')).
  { apply (Z.mul_le_mono_pos_l _ _ D HD).
    transitivity ((K + 1) * (100 * D') * (K * (N * t))).
    - replace (D * (K * K * (N' * t))) with (K * t * (K * (N' * D))) by ring.
      replace ((K + 1) * (100 * D') * (K * (N * t)))
        with (K * t * ((K + 1) * (100 * N * D'))) by ring.
      apply Z.mul_le_mono_nonneg_l; [lia | exact H2u].
    - replace (D * ((K + 1) * (K + 1) * (100 * v * D')))
        with ((K + 1) * (100 * D') * ((K + 1) * (v * D))) by ring.
      apply Z.mul_le_mono_nonneg_l; [lia | exact H1u]. }
  assert (HL : (K - 1) * (K - 1) * (100 * v * D') <= K * K * (N' * t)).
  { apply (Z.mul_le_mono_pos_l _ _ D HD).
    transitivity ((K - 1) * (100 * D') * (K * (N * t))).
    - replace (D * ((K - 1) * (K - 1) * (100 * v * D')))
        with ((K - 1) * (100 * D') * ((K - 1) * (v * D))) by ring.
      apply Z.mul_le_mono_nonneg_l; [lia | exact H1l].
    - replace (D * (K * K * (N' * t))) with (K * t * (K * (N' * D))) by ring.
      replace ((K - 1) * (100 * D') * (K * (N * t)))
        with (K * t * ((K - 1) * (100 * N * D'))) by ring.
      apply Z.mul_le_mono_nonneg_l; [lia | exact H2l]. }
  (* the floor, scaled, and freed from [D'] *)
  destruct Hn as [Hna Hnb].
  assert (Habove : K * K * (2 * (n * t))
                   <= 2000 * ((K + 1) * (K + 1)) * v + K * K * t).
  { apply (Z.mul_le_mono_pos_l _ _ D' HD').
    transitivity (K * K * t * (20 * N' + D')).
    - replace (D' * (K * K * (2 * (n * t)))) with (K * K * t * (2 * n * D')) by ring.
      apply Z.mul_le_mono_nonneg_l; [lia | exact Hna].
    - replace (K * K * t * (20 * N' + D'))
        with (20 * (K * K * (N' * t)) + D' * (K * K * t)) by ring.
      replace (D' * (2000 * ((K + 1) * (K + 1)) * v + K * K * t))
        with (20 * ((K + 1) * (K + 1) * (100 * v * D')) + D' * (K * K * t))
        by ring.
      lia. }
  assert (Hbelow : 2000 * ((K - 1) * (K - 1)) * v
                   < K * K * (2 * (n * t)) + K * K * t).
  { apply (Z.mul_lt_mono_pos_l D' _ _ HD').
    apply Z.le_lt_trans with (K * K * t * (20 * N' + D') - D' * (K * K * t)).
    - replace (K * K * t * (20 * N' + D') - D' * (K * K * t))
        with (20 * (K * K * (N' * t))) by ring.
      replace (D' * (2000 * ((K - 1) * (K - 1)) * v))
        with (20 * ((K - 1) * (K - 1) * (100 * v * D'))) by ring.
      lia.
    - replace (D' * (K * K * (2 * (n * t)) + K * K * t))
        with (K * K * t * (2 * n * D' + 2 * D') - D' * (K * K * t)) by ring.
      assert (Hpos : 0 < K * K * t) by lia.
      assert (Hstrict : K * K * t * (20 * N' + D')
                        < K * K * t * (2 * n * D' + 2 * D'))
        by (apply Z.mul_lt_mono_pos_l; assumption).
      lia. }
  remember (n * t) as W eqn:HW.
  subst K. lia.
Qed.

(** The percentage in tenths, as the callback computes it from a count
    and a total of at most [10^12]: an integer nearest to
    [1000 * value / total]. *)
Lemma percentage_tenths_nearest (value total : Z) :
  0 <= value <= total -> 0 < total <= 10 ^ 12 ->
  exists n,
    percentage_tenths value total = Some n
    /\ 2 * Z.abs (n * total - 1000 * value) <= total
    /\ 0 <= n <= 1000.
Proof.
  intros Hv Ht.
  assert (Hbounds : forall n,
             2 * Z.abs (n * total - 1000 * value) <= total -> 0 <= n <= 1000).
  { intros n Hn. split; nia. }
  assert (Hsmall : 10 ^ 12 < 2 ^ 40) by reflexivity.
  assert (Hsafe : forall z, 0 <= z <= total -> is_safe z = true).
  { intros z Hz. apply is_safe_bounds. unfold MAX_SAFE_INTEGER.
    assert (2 ^ 40 <= 2 ^ 53 - 1) by (vm_compute; discriminate). lia. }
  unfold percentage_tenths.
  replace (0 <=? value) with true by (symmetry; apply Z.leb_le; lia).
  replace (0 <? total) with true by (symmetry; apply Z.ltb_lt; lia).
  rewrite (Hsafe value) by lia. rewrite (Hsafe total) by lia. cbn [andb].
  destruct (value =? 0) eqn:Hzero.
  { apply Z.eqb_eq in Hzero. subst value.
    exists 0. split; [reflexivity|]. split; lia. }
  apply Z.eqb_neq in Hzero.
  assert (Hpos : 0 < value) by lia.
  (* the division *)
  assert (Hlv : 0 <= Z.log2 value <= Z.log2 total).
  { split; [apply Z.log2_nonneg | apply Z.log2_le_mono; lia]. }
  assert (Hlt : Z.log2 total < 40).
  { apply Z.log2_lt_pow2; lia. }
  pose proof (binade_bounds value total) as Hb1.
  destruct (round_binary64_spec value total Hpos ltac:(lia) ltac:(lia))
    as (x1 & Hx1 & He1 & Hm1 & Herr1).
  unfold double_div. rewrite Hx1.
  set (m1 := mantissa x1) in *. set (e1 := exponent x1) in *.
  (* the multiplication *)
  unfold double_mul_100. fold m1 e1.
  rewrite (Z.max_l 0 e1) by lia. rewrite (Z.max_r 0 (- e1)) by lia.
  change (2 ^ 0) with 1. rewrite Z.mul_1_r.
  assert (HD : 0 < 2 ^ (- e1)) by (apply Z.pow_pos_nonneg; lia).
  assert (Hla : 58 <= Z.log2 (m1 * 100) < 60).
  { split.
    - apply Z.log2_le_pow2; [lia|].
      change (2 ^ 58) with (2 ^ 52 * 64). lia.
    - apply Z.log2_lt_pow2; [lia|].
      change (2 ^ 60) with (2 ^ 53 * 128). lia. }
  assert (Hlb : Z.log2 (2 ^ (- e1)) = - e1) by (apply Z.log2_pow2; lia).
  pose proof (binade_bounds (m1 * 100) (2 ^ (- e1))) as Hb2.
  rewrite Hlb in Hb2.
  destruct (round_binary64_spec (m1 * 100) (2 ^ (- e1)) ltac:(lia) HD ltac:(lia))
    as (x2 & Hx2 & He2 & Hm2 & Herr2).
  rewrite Hx2.
  set (m2 := mantissa x2) in *. set (e2 := exponent x2) in *.
  (* the digit *)
  unfold tenths. fold m2 e2.
  rewrite (Z.max_l 0 e2) by lia. rewrite (Z.max_r 0 (- e2)) by lia.
  change (2 ^ 0) with 1. rewrite Z.mul_1_r.
  assert (HD' : 0 < 2 ^ (- e2)) by (apply Z.pow_pos_nonneg; lia).
  set (D := 2 ^ (- e1)) in *. set (D' := 2 ^ (- e2)) in *.
  set (n := (2 * 10 * m2 + D') / (2 * D')).
  assert (Hfloor : 2 * n * D' <= 20 * m2 + D' < 2 * n * D' + 2 * D').
  { pose proof (Z.div_mod (2 * 10 * m2 + D') (2 * D') ltac:(lia)) as Hdm.
    pose proof (Z.mod_pos_bound (2 * 10 * m2 + D') (2 * D') ltac:(lia)) as Hmod.
    fold n in Hdm. lia. }
  assert (Hnear : 2 * Z.abs (n * total - 1000 * value) <= total).
  { apply (nearest_tenth_arith value total m1 D m2 D' n); lia. }
  exists n. split; [reflexivity|]. split; [exact Hnear | apply Hbounds, Hnear].
Qed.

(** The model of the two roundings agrees with the standard library's
    specification of binary64 on sample counts. *)
Example products_agree_on_samples :
  forallb products_agree
    [(10, 15); (5, 15); (1, 3); (2, 3); (1, 7); (3, 2000); (1, 2000);
     (9, 2000); (11, 2000); (1, 400); (999, 1000); (7, 7);
     (123456789, 987654321); (1, 1000000000000);
     (999999999999, 1000000000000)] = true.
Proof. vm_compute. reflexivity. Qed.

(** At an exact tie the digit follows the binary value of the product:
    3 of 2000 is 0.15 percent and shows as 0.1, 1 of 2000 is 0.05 percent
    and shows as 0.1 too, 1 of 400 is 0.25 percent and shows as 0.3. *)
Example percentage_at_ties :
  percentage 3 2000 = Some (lit "0.1%")
  /\ percentage 1 2000 = Some (lit "0.1%")
  /\ percentage 1 400 = Some (lit "0.3%").
Proof. split; [|split]; vm_compute; reflexivity. Qed.

(** The label of a slice, from the percentage in tenths. *)
Lemma tooltip_label_run (positive negative n : Z) (slice : bool) :
  percentage_tenths (if slice then positive else negative)
    (positive + negative) = Some n ->
  tooltip_label (slice_context positive negative slice)
  = Some ((if slice then lit "Positive" else lit "Negative")
          ++ lit ": " ++ decimal (if slice then positive else negative)
          ++ lit " (" ++ decimal (n / 10) ++ lit "." ++ decimal (n mod 10)
          ++ lit "%)").
Proof.
  intros Hrun.
  unfold tooltip_label, percentage, slice_context, dataset_total, fixed1.
  cbn [context_label context_raw context_total].
  rewrite Hrun. cbn [option_map].
  destruct slice; cbn [string_or lit map list_ascii_of_string];
    rewrite <- !app_assoc; reflexivity.
Qed.

(** C9, as amended.  For counts that are not negative and sum to at most
    [10^12], the callback of either slice answers
    "label: value (d.d%)", where the total is the sum of the two values of
    the chart, the digits of the value denote the value, and the digits
    [d.d] are those of the whole part and of the one decimal of [n / 10]
    for an integer [n] nearest to [1000 * value / total]: the percentage
    is [value / total * 100] rounded to one decimal place, to either
    neighbour when it lies exactly between two. *)
Theorem tooltip_reports_nearest_tenth (positive negative : Z) (slice : bool) :
  0 <= positive -> 0 <= negative -> 0 < positive + negative <= 10 ^ 12 ->
  exists n,
    tooltip_label (slice_context positive negative slice)
    = Some ((if slice then lit "Positive" else lit "Negative")
            ++ lit ": " ++ decimal (if slice then positive else negative)
            ++ lit " (" ++ decimal (n / 10) ++ lit "." ++ decimal (n mod 10)
            ++ lit "%)")
    /\ read_decimal (decimal (if slice then positive else negative))
       = Some (if slice then positive else negative)
    /\ read_decimal (decimal (n / 10)) = Some (n / 10)
    /\ read_decimal (decimal (n mod 10)) = Some (n mod 10)
    /\ 0 <= n mod 10 <= 9
    /\ 2 * Z.abs (n * (positive + negative)
                  - 1000 * (if slice then positive else negative))
       <= positive + negative
    /\ 0 <= n <= 1000.
Proof.
  intros Hp Hn Ht.
  destruct (percentage_tenths_nearest (if slice then positive else negative)
              (positive + negative)) as (n & Hrun & Hnear & Hrange).
  { destruct slice; lia. }
  { exact Ht. }
  exists n. split; [apply tooltip_label_run, Hrun|].
  split; [apply read_decimal_decimal|].
  split; [apply read_decimal_decimal|].
  split; [apply read_decimal_decimal|].
  split; [pose proof (Z.mod_pos_bound n 10 ltac:(lia)); lia|].
  split; assumption.
Qed.

Lemma tooltip_reports_nearest_tenth_witness :
  tooltip_label (slice_context 10 5 true) = Some (lit "Positive: 10 (66.7%)").
Proof.
  destruct (tooltip_reports_nearest_tenth 10 5 true) as (n & Hlabel & _ & _ & _ & _ & Hnear & _);
    [lia | lia | change (10 ^ 12) with 1000000000000; lia |].
  assert (Hn : n = 667) by lia.
  subst n. rewrite Hlabel. vm_compute. reflexivity.
Defined.

(** C9, as stated, fails above that bound: the two roundings of the
    double arithmetic can move the digit.  For [4132781149513] positive
    and [1237954587346] negative comments the percentage lies between
    76.85 and 76.95, so rounded to one decimal place it is 76.9; the
    callback shows 77.0.  (The model of the two roundings agrees with the
    standard library's specification of binary64 on these counts.) *)
Lemma percentage_beyond_bound :
  tooltip_label (slice_context 4132781149513 1237954587346 true)
  = Some (lit "Positive: 4132781149513 (77.0%)")
  /\ 7685 * (4132781149513 + 1237954587346) < 10000 * 4132781149513
  /\ 10000 * 4132781149513 < 7695 * (4132781149513 + 1237954587346)
  /\ products_agree (4132781149513, 4132781149513 + 1237954587346) = true.
Proof.
  split; [vm_compute; reflexivity|].
  split; [reflexivity|]. split; [reflexivity|]. vm_compute. reflexivity.
Qed.

(** * Further properties of the script *)

(** ** What each kind of response leaves on the page *)

(** The page after an attempt that rendered: the world [displayResults]
    left, with the button enabled again. *)
Lemma handleAnalysis_rendered host net w r data res w1 :
  trim (urlInput_value w) <> [] ->
  net (analyze_request (trim (urlInput_value w))) = FetchResolves r ->
  json r = JsonResolves data -> ok r = true ->
  displayResults host data
    (perform (EvFetch (analyze_request (trim (urlInput_value w))))
       (replay (loading_events w) w))
  = Some (res, w1) ->
  handleAnalysis host net w
  = Some (match res with
          | Suspended => Suspended
          | _ => Normal tt
          end,
          match res with
          | Normal _ => replay [EvDisabled false; EvButtonHTML (lit "Analyze")] w1
          | Throw e => replay (failure_events e) w1
          | Suspended => w1
          end).
Proof.
  intros Hne Hnet Hjson Hok Hshow.
  apply (handleAnalysis_run host net w res w1 Hne).
  rewrite (attempt_renders host net _ _ r data Hnet Hjson Hok). exact Hshow.
Qed.

Lemma live_from_quiet (evs : list Event) :
  forallb (fun e => negb (is_chart_event e)) evs = true ->
  forall alive, live_from alive evs = alive.
Proof.
  induction evs as [|e evs IH]; intros Hevs alive; [reflexivity|].
  simpl in Hevs. apply andb_prop in Hevs. destruct Hevs as [He Hevs].
  destruct e; try discriminate; simpl; apply IH; exact Hevs.
Qed.

Lemma live_from_release (w : World) : live_from [] (release_events w) = [].
Proof. unfold release_events. destruct (sentimentChart w); reflexivity. Qed.

(** An [ok] response with a body that is not [null] and whose
    [positive + negative] is not the number [0]: the three strings are
    written into the template and a chart is constructed. *)
Lemma analysis_rendered host net w r data total sp sn st :
  trim (urlInput_value w) <> [] ->
  net (analyze_request (trim (urlInput_value w))) = FetchResolves r ->
  json r = JsonResolves data -> ok r = true ->
  nullish data = false ->
  js_add (property data (lit "positive")) (property data (lit "negative"))
  = Some (Returns total) ->
  strict_equals_zero total = false ->
  to_string (property data (lit "positive")) = Some (Returns sp) ->
  to_string (property data (lit "negative")) = Some (Returns sn) ->
  to_string total = Some (Returns st) ->
  single_owner w ->
  exists w',
    handleAnalysis host net w = Some (Normal tt, w')
    /\ trace w'
       = trace w ++ loading_events w
         ++ [EvFetch (analyze_request (trim (urlInput_value w)));
             EvDisplay (lit "flex"); EvSummary (summary_markup sp sn st)]
         ++ release_events w
         ++ [EvNewChart (charts_constructed w)
               (property data (lit "positive")) (property data (lit "negative"));
             EvDisabled false; EvButtonHTML (lit "Analyze")]
    /\ errorMessage_textContent w' = []
    /\ resultsContainer_display w' = lit "flex"
    /\ summaryContainer_innerHTML w' = summary_markup sp sn st
    /\ analyzeButton_disabled w' = false
    /\ sentimentChart w' = Some (charts_constructed w)
    /\ live (trace w') = [charts_constructed w].
Proof.
  intros Hne Hnet Hjson Hok Hnull Htotal Hzero Hsp Hsn Hst Hown.
  set (req := analyze_request (trim (urlInput_value w))) in *.
  pose proof (displayResults_run host data
                (perform (EvFetch req) (replay (loading_events w) w))
                total sp sn st Hnull Htotal Hsp Hsn Hst) as Hshow.
  rewrite Hzero in Hshow.
  rewrite (handleAnalysis_rendered host net w r data _ _ Hne Hnet Hjson Hok Hshow).
  eexists. split; [reflexivity|].
  assert (Hcount : charts_constructed
                     (perform (EvFetch req) (replay (loading_events w) w))
                   = charts_constructed w).
  { unfold loading_events, clearing_events, release_events.
    destruct (sentimentChart w); reflexivity. }
  assert (Hrel : release_events
                   (perform (EvFetch req) (replay (loading_events w) w))
                 = release_events w).
  { unfold release_events at 1. cbn [sentimentChart perform emit apply_event].
    rewrite sentimentChart_replay. reflexivity. }
  rewrite Hcount, Hrel.
  assert (Htrace :
            trace (replay [EvDisabled false; EvButtonHTML (lit "Analyze")]
                     (assign_sentimentChart (charts_constructed w)
                        (replay
                           ([EvDisplay (lit "flex");
                             EvSummary (summary_markup sp sn st)]
                            ++ release_events w
                            ++ [EvNewChart (charts_constructed w)
                                  (property data (lit "positive"))
                                  (property data (lit "negative"))])
                           (perform (EvFetch req) (replay (loading_events w) w)))))
            = trace w ++ loading_events w
              ++ [EvFetch req; EvDisplay (lit "flex");
                  EvSummary (summary_markup sp sn st)]
              ++ release_events w
              ++ [EvNewChart (charts_constructed w)
                    (property data (lit "positive"))
                    (property data (lit "negative"));
                  EvDisabled false; EvButtonHTML (lit "Analyze")]).
  { rewrite trace_replay. cbn [trace assign_sentimentChart].
    rewrite trace_replay, trace_perform, trace_replay.
    rewrite <- !app_assoc. reflexivity. }
  split; [exact Htrace|].
  split.
  { unfold loading_events, clearing_events, release_events.
    destruct (sentimentChart w); reflexivity. }
  split.
  { unfold release_events. destruct (sentimentChart w); reflexivity. }
  split.
  { unfold release_events. destruct (sentimentChart w); reflexivity. }
  split; [reflexivity|]. split; [reflexivity|].
  rewrite Htrace.
  rewrite app_assoc, live_app, (live_loading w Hown).
  cbn [app live_from]. rewrite live_from_app, live_from_release. reflexivity.
Qed.

(** X1.  A successful analysis.  For input that is not blank and an [ok]
    response whose [positive] and [negative] are safe integers [p] and [n]
    with a sum that is not [0], [handleAnalysis] completes after the
    loading phase with: the request, the results region shown, the summary
    (the markup of the script with the digits of [p], of [n] and of the
    total [t]), [destroy] once more on the chart the variable still refers
    to (the loading phase destroyed it already), the construction of a new
    chart with [p] and [n], and the button enabled.  The total [t] is
    [p + n] when that is a safe integer; otherwise the sum is rounded to
    a double and [t] is within [1] of it.  Afterwards the error line is
    empty and the new chart is the only one alive. *)
Theorem analysis_renders_counts
    (host : Host) (net : Request -> FetchOutcome) (w : World)
    (r : Response) (data : JSValue) (p n : Z) :
  trim (urlInput_value w) <> [] ->
  net (analyze_request (trim (urlInput_value w))) = FetchResolves r ->
  json r = JsonResolves data -> ok r = true ->
  property data (lit "positive") = VNumber (Int p) ->
  property data (lit "negative") = VNumber (Int n) ->
  - (2 ^ 53 - 1) <= p <= 2 ^ 53 - 1 ->
  - (2 ^ 53 - 1) <= n <= 2 ^ 53 - 1 ->
  p + n <> 0 ->
  single_owner w ->
  exists t summary w',
    handleAnalysis host net w = Some (Normal tt, w')
    /\ trace w'
       = trace w
         ++ [EvDisabled true; EvButtonHTML
               (lit "<i class=" ++ [34%N] ++ lit "fa-solid fa-spinner fa-spin"
                ++ [34%N] ++ lit "></i> Analyzing...");
             EvErrorText []; EvDisplay (lit "none"); EvSummary []]
         ++ match sentimentChart w with
            | Some c => [EvDestroy c]
            | None => []
            end
         ++ [EvFetch (analyze_request (trim (urlInput_value w)));
             EvDisplay (lit "flex");
             EvSummary summary]
         ++ match sentimentChart w with
            | Some c => [EvDestroy c]
            | None => []
            end
         ++ [EvNewChart (charts_constructed w) (VNumber (Int p)) (VNumber (Int n));
             EvDisabled false; EvButtonHTML (lit "Analyze")]
    /\ summary
       = [10%N]
         ++ lit "            <h3>Analysis Summary</h3>" ++ [10%N]
         ++ lit "            <div class=" ++ [34%N] ++ lit "stat" ++ [34%N]
         ++ lit ">" ++ [10%N]
         ++ lit "                <i class=" ++ [34%N]
         ++ lit "fa-solid fa-thumbs-up stat-icon positive" ++ [34%N]
         ++ lit "></i>" ++ [10%N]
         ++ lit "                <span><strong>" ++ decimal p
         ++ lit "</strong> Positive Comments</span>" ++ [10%N]
         ++ lit "            </div>" ++ [10%N]
         ++ lit "            <div class=" ++ [34%N] ++ lit "stat" ++ [34%N]
         ++ lit ">" ++ [10%N]
         ++ lit "                <i class=" ++ [34%N]
         ++ lit "fa-solid fa-thumbs-down stat-icon negative" ++ [34%N]
         ++ lit "></i>" ++ [10%N]
         ++ lit "                <span><strong>" ++ decimal n
         ++ lit "</strong> Negative Comments</span>" ++ [10%N]
         ++ lit "            </div>" ++ [10%N]
         ++ lit "             <div class=" ++ [34%N] ++ lit "stat" ++ [34%N]
         ++ lit ">" ++ [10%N]
         ++ lit "                <i class=" ++ [34%N]
         ++ lit "fa-solid fa-comments stat-icon" ++ [34%N]
         ++ lit "></i>" ++ [10%N]
         ++ lit "                <span><strong>" ++ decimal t
         ++ lit "</strong> Total Comments Analyzed</span>" ++ [10%N]
         ++ lit "            </div>" ++ [10%N]
         ++ lit "        "
    /\ read_decimal (decimal p) = Some p
    /\ read_decimal (decimal n) = Some n
    /\ read_decimal (decimal t) = Some t
    /\ Z.abs (t - (p + n)) <= 1
    /\ (- (2 ^ 53 - 1) <= p + n <= 2 ^ 53 - 1 -> t = p + n)
    /\ errorMessage_textContent w' = []
    /\ resultsContainer_display w' = lit "flex"
    /\ summaryContainer_innerHTML w' = summary
    /\ analyzeButton_disabled w' = false
    /\ sentimentChart w' = Some (charts_constructed w)
    /\ live (trace w') = [charts_constructed w].
Proof.
  change (lit "<i class=" ++ [34%N] ++ lit "fa-solid fa-spinner fa-spin"
          ++ [34%N] ++ lit "></i> Analyzing...") with analyzing_markup.
  intros Hne Hnet Hjson Hok Hp Hn Bp Bn Hsum Hown.
  assert (Hnull : nullish data = false).
  { destruct data; try reflexivity; discriminate. }
  assert (Sp : is_safe p = true).
  { unfold is_safe, MAX_SAFE_INTEGER. apply andb_true_intro.
    split; apply Z.leb_le; lia. }
  assert (Sn : is_safe n = true).
  { unfold is_safe, MAX_SAFE_INTEGER. apply andb_true_intro.
    split; apply Z.leb_le; lia. }
  destruct (number_add_safe p n Sp Sn) as (t & Hadd & Hdouble & Hnear).
  assert (Hexact : - (2 ^ 53 - 1) <= p + n <= 2 ^ 53 - 1 -> t = p + n).
  { intros Bs.
    assert (Ss : is_safe (p + n) = true).
    { unfold is_safe, MAX_SAFE_INTEGER. apply andb_true_intro.
      split; apply Z.leb_le; lia. }
    unfold number_add in Hadd. rewrite Sp, Sn in Hadd. cbn [andb] in Hadd.
    rewrite (nearest_double_safe _ Ss) in Hadd. simpl in Hadd. congruence. }
  assert (Hzero : t <> 0).
  { intros Ht. subst t.
    assert (Bs : - (2 ^ 53 - 1) <= p + n <= 2 ^ 53 - 1) by lia.
    specialize (Hexact Bs). lia. }
  destruct (analysis_rendered host net w r data (VNumber (Int t))
              (decimal p) (decimal n) (decimal t))
    as (w' & Hrun & Htrace & Herr & Hdisplay & Hsummary & Hbutton & Href & Hlive);
    try assumption.
  { rewrite Hp, Hn. unfold js_add. cbn [to_primitive and_then is_string orb to_number].
    rewrite Hadd. reflexivity. }
  { simpl. apply Z.eqb_neq, Hzero. }
  { rewrite Hp. apply to_string_count, Sp. }
  { rewrite Hn. apply to_string_count, Sn. }
  { simpl. rewrite Hdouble. reflexivity. }
  exists t, (summary_markup (decimal p) (decimal n) (decimal t)), w'.
  split; [exact Hrun|]. split.
  { rewrite Htrace, Hp, Hn.
    unfold loading_events, clearing_events, release_events.
    rewrite <- !app_assoc. reflexivity. }
  split; [apply summary_markup_text|].
  split; [apply read_decimal_decimal|].
  split; [apply read_decimal_decimal|].
  split; [apply read_decimal_decimal|].
  split; [exact Hnear|]. split; [exact Hexact|].
  split; [exact Herr|]. split; [exact Hdisplay|]. split; [exact Hsummary|].
  split; [exact Hbutton|]. split; [exact Href | exact Hlive].
Qed.

Lemma analysis_renders_counts_witness :
  exists w',
    handleAnalysis v8 (responds 200 (JsonResolves (result_model 10 5)))
      (initial_world (lit " https://youtu.be/abc ")) = Some (Normal tt, w')
    /\ summaryContainer_innerHTML w'
       = [10%N]
         ++ lit "            <h3>Analysis Summary</h3>" ++ [10%N]
         ++ lit "            <div class=" ++ [34%N] ++ lit "stat" ++ [34%N]
         ++ lit ">" ++ [10%N]
         ++ lit "                <i class=" ++ [34%N]
         ++ lit "fa-solid fa-thumbs-up stat-icon positive" ++ [34%N]
         ++ lit "></i>" ++ [10%N]
         ++ lit "                <span><strong>10</strong> Positive Comments</span>"
         ++ [10%N]
         ++ lit "            </div>" ++ [10%N]
         ++ lit "            <div class=" ++ [34%N] ++ lit "stat" ++ [34%N]
         ++ lit ">" ++ [10%N]
         ++ lit "                <i class=" ++ [34%N]
         ++ lit "fa-solid fa-thumbs-down stat-icon negative" ++ [34%N]
         ++ lit "></i>" ++ [10%N]
         ++ lit "                <span><strong>5</strong> Negative Comments</span>"
         ++ [10%N]
         ++ lit "            </div>" ++ [10%N]
         ++ lit "             <div class=" ++ [34%N] ++ lit "stat" ++ [34%N]
         ++ lit ">" ++ [10%N]
         ++ lit "                <i class=" ++ [34%N]
         ++ lit "fa-solid fa-comments stat-icon" ++ [34%N]
         ++ lit "></i>" ++ [10%N]
         ++ lit "                <span><strong>15</strong> Total Comments Analyzed</span>"
         ++ [10%N]
         ++ lit "            </div>" ++ [10%N]
         ++ lit "        "
    /\ errorMessage_textContent w' = []
    /\ live (trace w') = [0%nat].
Proof.
  destruct (analysis_renders_counts v8
              (responds 200 (JsonResolves (result_model 10 5)))
              (initial_world (lit " https://youtu.be/abc "))
              {| status := 200; json := JsonResolves (result_model 10 5) |}
              (result_model 10 5) 10 5)
    as (t & summary & w' & Hrun & _ & Htext & _ & _ & _ & _ & Hexact
        & Herr & _ & Hsummary & _ & _ & Hlive);
    try reflexivity; try discriminate; try lia.
  - left. reflexivity.
  - assert (Ht : t = 10 + 5) by (apply Hexact; lia). subst t.
    exists w'. split; [exact Hrun|]. split.
    + rewrite Hsummary, Htext. vm_compute. reflexivity.
    + split; [exact Herr | exact Hlive].
Defined.

(** X2.  No comments.  For input that is not blank and an [ok] response
    whose safe integers [p] and [n] sum to [0] (also when they cancel, as
    [5] and [-5] do), [handleAnalysis] completes with the results region
    shown and the "No comments were analyzed." markup; no chart is
    constructed, and none is alive afterwards, whatever was shown
    before. *)
Theorem analysis_without_comments
    (host : Host) (net : Request -> FetchOutcome) (w : World)
    (r : Response) (data : JSValue) (p n : Z) :
  trim (urlInput_value w) <> [] ->
  net (analyze_request (trim (urlInput_value w))) = FetchResolves r ->
  json r = JsonResolves data -> ok r = true ->
  property data (lit "positive") = VNumber (Int p) ->
  property data (lit "negative") = VNumber (Int n) ->
  - (2 ^ 53 - 1) <= p <= 2 ^ 53 - 1 ->
  - (2 ^ 53 - 1) <= n <= 2 ^ 53 - 1 ->
  p + n = 0 ->
  single_owner w ->
  exists w',
    handleAnalysis host net w = Some (Normal tt, w')
    /\ trace w'
       = trace w
         ++ [EvDisabled true; EvButtonHTML
               (lit "<i class=" ++ [34%N] ++ lit "fa-solid fa-spinner fa-spin"
                ++ [34%N] ++ lit "></i> Analyzing...");
             EvErrorText []; EvDisplay (lit "none"); EvSummary []]
         ++ match sentimentChart w with
            | Some c => [EvDestroy c]
            | None => []
            end
         ++ [EvFetch (analyze_request (trim (urlInput_value w)));
             EvDisplay (lit "flex");
             EvSummary
               (lit "<h3>No comments were analyzed.</h3><p>The video may have no comments, or they could not be processed.</p>");
             EvDisabled false; EvButtonHTML (lit "Analyze")]
    /\ errorMessage_textContent w' = []
    /\ resultsContainer_display w' = lit "flex"
    /\ summaryContainer_innerHTML w'
       = lit "<h3>No comments were analyzed.</h3><p>The video may have no comments, or they could not be processed.</p>"
    /\ analyzeButton_disabled w' = false
    /\ live (trace w') = [].
Proof.
  change (lit "<i class=" ++ [34%N] ++ lit "fa-solid fa-spinner fa-spin"
          ++ [34%N] ++ lit "></i> Analyzing...") with analyzing_markup.
  intros Hne Hnet Hjson Hok Hp Hn Bp Bn Hsum Hown.
  assert (Hnull : nullish data = false).
  { destruct data; try reflexivity; discriminate. }
  assert (Sp : is_safe p = true).
  { unfold is_safe, MAX_SAFE_INTEGER. apply andb_true_intro.
    split; apply Z.leb_le; lia. }
  assert (Sn : is_safe n = true).
  { unfold is_safe, MAX_SAFE_INTEGER. apply andb_true_intro.
    split; apply Z.leb_le; lia. }
  set (req := analyze_request (trim (urlInput_value w))) in *.
  assert (Htotal : js_add (property data (lit "positive"))
                          (property data (lit "negative"))
                   = Some (Returns (VNumber (Int 0)))).
  { rewrite Hp, Hn, <- Hsum. apply js_add_counts; try assumption.
    rewrite Hsum. reflexivity. }
  assert (Hsp : to_string (property data (lit "positive"))
                = Some (Returns (decimal p)))
    by (rewrite Hp; apply to_string_count, Sp).
  assert (Hsn : to_string (property data (lit "negative"))
                = Some (Returns (decimal n)))
    by (rewrite Hn; apply to_string_count, Sn).
  pose proof (displayResults_run host data
                (perform (EvFetch req) (replay (loading_events w) w))
                (VNumber (Int 0)) (decimal p) (decimal n) (decimal 0)
                Hnull Htotal Hsp Hsn eq_refl) as Hshow.
  cbn [strict_equals_zero Z.eqb] in Hshow.
  rewrite (handleAnalysis_rendered host net w r data _ _ Hne Hnet Hjson Hok Hshow).
  eexists. split; [reflexivity|].
  assert (Htrace :
            trace (replay [EvDisabled false; EvButtonHTML (lit "Analyze")]
                     (replay [EvDisplay (lit "flex"); EvSummary no_comments_markup]
                        (perform (EvFetch req) (replay (loading_events w) w))))
            = trace w ++ loading_events w
              ++ [EvFetch req; EvDisplay (lit "flex"); EvSummary no_comments_markup;
                  EvDisabled false; EvButtonHTML (lit "Analyze")]).
  { rewrite !trace_replay, trace_perform, trace_replay.
    rewrite <- !app_assoc. reflexivity. }
  split.
  { rewrite Htrace. unfold loading_events, clearing_events, release_events.
    rewrite <- !app_assoc. reflexivity. }
  split.
  { unfold loading_events, clearing_events, release_events.
    destruct (sentimentChart w); reflexivity. }
  split; [reflexivity|]. split; [reflexivity|]. split; [reflexivity|].
  rewrite Htrace, app_assoc, live_app, (live_loading w Hown). reflexivity.
Qed.

Lemma analysis_without_comments_witness :
  exists w',
    handleAnalysis v8 (responds 200 (JsonResolves (result_model 5 (-5))))
      (type_input (lit "x")
         (assign_sentimentChart 0%nat
            (replay [EvNewChart 0%nat (VNumber (Int 1)) (VNumber (Int 2))]
               (initial_world []))))
    = Some (Normal tt, w')
    /\ summaryContainer_innerHTML w'
       = lit "<h3>No comments were analyzed.</h3><p>The video may have no comments, or they could not be processed.</p>"
    /\ live (trace w') = [].
Proof.
  destruct (analysis_without_comments v8
              (responds 200 (JsonResolves (result_model 5 (-5))))
              (type_input (lit "x")
                 (assign_sentimentChart 0%nat
                    (replay [EvNewChart 0%nat (VNumber (Int 1)) (VNumber (Int 2))]
                       (initial_world []))))
              {| status := 200; json := JsonResolves (result_model 5 (-5)) |}
              (result_model 5 (-5)) 5 (-5))
    as (w' & Hrun & _ & _ & _ & Hsum & _ & Hlive);
    try reflexivity; try discriminate; try lia.
  - right. exists 0%nat. split; reflexivity.
  - exists w'. split; [exact Hrun|]. split; [exact Hsum | exact Hlive].
Defined.

(** X3.  Missing counts.  An [ok] response whose body is not [null] and has
    neither a [positive] nor a [negative] member (an empty object, an
    array, a string, a number) is not treated as a failure: the summary is
    rendered with "undefined", "undefined" and "NaN", a chart is
    constructed with two [undefined] values, and the error line stays
    empty. *)
Theorem missing_counts_render_NaN
    (host : Host) (net : Request -> FetchOutcome) (w : World)
    (r : Response) (data : JSValue) :
  trim (urlInput_value w) <> [] ->
  net (analyze_request (trim (urlInput_value w))) = FetchResolves r ->
  json r = JsonResolves data -> ok r = true ->
  nullish data = false ->
  property data (lit "positive") = VUndefined ->
  property data (lit "negative") = VUndefined ->
  single_owner w ->
  exists w',
    handleAnalysis host net w = Some (Normal tt, w')
    /\ summaryContainer_innerHTML w'
       = [10%N]
         ++ lit "            <h3>Analysis Summary</h3>" ++ [10%N]
         ++ lit "            <div class=" ++ [34%N] ++ lit "stat" ++ [34%N]
         ++ lit ">" ++ [10%N]
         ++ lit "                <i class=" ++ [34%N]
         ++ lit "fa-solid fa-thumbs-up stat-icon positive" ++ [34%N]
         ++ lit "></i>" ++ [10%N]
         ++ lit "                <span><strong>undefined</strong> Positive Comments</span>"
         ++ [10%N]
         ++ lit "            </div>" ++ [10%N]
         ++ lit "            <div class=" ++ [34%N] ++ lit "stat" ++ [34%N]
         ++ lit ">" ++ [10%N]
         ++ lit "                <i class=" ++ [34%N]
         ++ lit "fa-solid fa-thumbs-down stat-icon negative" ++ [34%N]
         ++ lit "></i>" ++ [10%N]
         ++ lit "                <span><strong>undefined</strong> Negative Comments</span>"
         ++ [10%N]
         ++ lit "            </div>" ++ [10%N]
         ++ lit "             <div class=" ++ [34%N] ++ lit "stat" ++ [34%N]
         ++ lit ">" ++ [10%N]
         ++ lit "                <i class=" ++ [34%N]
         ++ lit "fa-solid fa-comments stat-icon" ++ [34%N]
         ++ lit "></i>" ++ [10%N]
         ++ lit "                <span><strong>NaN</strong> Total Comments Analyzed</span>"
         ++ [10%N]
         ++ lit "            </div>" ++ [10%N]
         ++ lit "        "
    /\ errorMessage_textContent w' = []
    /\ resultsContainer_display w' = lit "flex"
    /\ sentimentChart w' = Some (charts_constructed w)
    /\ live (trace w') = [charts_constructed w]
    /\ In (EvNewChart (charts_constructed w) VUndefined VUndefined) (trace w').
Proof.
  intros Hne Hnet Hjson Hok Hnull Hp Hn Hown.
  destruct (analysis_rendered host net w r data (VNumber NaN)
              (lit "undefined") (lit "undefined") (lit "NaN"))
    as (w' & Hrun & Htrace & Herr & Hdisplay & Hsum & _ & Href & Hlive);
    try assumption; try (rewrite ?Hp, ?Hn; reflexivity); try reflexivity.
  exists w'. split; [exact Hrun|]. split.
  { rewrite Hsum, summary_markup_text. reflexivity. }
  split; [exact Herr|]. split; [exact Hdisplay|]. split; [exact Href|].
  split; [exact Hlive|].
  rewrite Htrace, Hp, Hn. rewrite !in_app_iff. do 4 right. left. reflexivity.
Qed.

Lemma missing_counts_render_NaN_witness :
  exists w',
    handleAnalysis v8 (responds 200 (JsonResolves (VObject [])))
      (initial_world (lit "x")) = Some (Normal tt, w')
    /\ summaryContainer_innerHTML w'
       = [10%N]
         ++ lit "            <h3>Analysis Summary</h3>" ++ [10%N]
         ++ lit "            <div class=" ++ [34%N] ++ lit "stat" ++ [34%N]
         ++ lit ">" ++ [10%N]
         ++ lit "                <i class=" ++ [34%N]
         ++ lit "fa-solid fa-thumbs-up stat-icon positive" ++ [34%N]
         ++ lit "></i>" ++ [10%N]
         ++ lit "                <span><strong>undefined</strong> Positive Comments</span>"
         ++ [10%N]
         ++ lit "            </div>" ++ [10%N]
         ++ lit "            <div class=" ++ [34%N] ++ lit "stat" ++ [34%N]
         ++ lit ">" ++ [10%N]
         ++ lit "                <i class=" ++ [34%N]
         ++ lit "fa-solid fa-thumbs-down stat-icon negative" ++ [34%N]
         ++ lit "></i>" ++ [10%N]
         ++ lit "                <span><strong>undefined</strong> Negative Comments</span>"
         ++ [10%N]
         ++ lit "            </div>" ++ [10%N]
         ++ lit "             <div class=" ++ [34%N] ++ lit "stat" ++ [34%N]
         ++ lit ">" ++ [10%N]
         ++ lit "                <i class=" ++ [34%N]
         ++ lit "fa-solid fa-comments stat-icon" ++ [34%N]
         ++ lit "></i>" ++ [10%N]
         ++ lit "                <span><strong>NaN</strong> Total Comments Analyzed</span>"
         ++ [10%N]
         ++ lit "            </div>" ++ [10%N]
         ++ lit "        "
    /\ errorMessage_textContent w' = [].
Proof.
  destruct (missing_counts_render_NaN v8
              (responds 200 (JsonResolves (VObject [])))
              (initial_world (lit "x"))
              {| status := 200; json := JsonResolves (VObject []) |}
              (VObject []))
    as (w' & Hrun & Hsum & Herr & _);
    try reflexivity; try discriminate.
  - left. reflexivity.
  - exists w'. split; [exact Hrun|]. split; [exact Hsum | exact Herr].
Defined.

(** X4.  Counts sent as strings.  When [positive] and [negative] are the
    strings [a] and [b], [+] concatenates: the total shown is [a] followed
    by [b] (for "10" and "5", "105"), and since a string is never [=== 0]
    the summary and the chart are rendered even for "0" and "0". *)
Theorem string_counts_concatenate
    (host : Host) (net : Request -> FetchOutcome) (w : World)
    (r : Response) (data : JSValue) (a b : jsstring) :
  trim (urlInput_value w) <> [] ->
  net (analyze_request (trim (urlInput_value w))) = FetchResolves r ->
  json r = JsonResolves data -> ok r = true ->
  property data (lit "positive") = VString a ->
  property data (lit "negative") = VString b ->
  single_owner w ->
  exists w',
    handleAnalysis host net w = Some (Normal tt, w')
    /\ summaryContainer_innerHTML w'
       = [10%N]
         ++ lit "            <h3>Analysis Summary</h3>" ++ [10%N]
         ++ lit "            <div class=" ++ [34%N] ++ lit "stat" ++ [34%N]
         ++ lit ">" ++ [10%N]
         ++ lit "                <i class=" ++ [34%N]
         ++ lit "fa-solid fa-thumbs-up stat-icon positive" ++ [34%N]
         ++ lit "></i>" ++ [10%N]
         ++ lit "                <span><strong>" ++ a
         ++ lit "</strong> Positive Comments</span>" ++ [10%N]
         ++ lit "            </div>" ++ [10%N]
         ++ lit "            <div class=" ++ [34%N] ++ lit "stat" ++ [34%N]
         ++ lit ">" ++ [10%N]
         ++ lit "                <i class=" ++ [34%N]
         ++ lit "fa-solid fa-thumbs-down stat-icon negative" ++ [34%N]
         ++ lit "></i>" ++ [10%N]
         ++ lit "                <span><strong>" ++ b
         ++ lit "</strong> Negative Comments</span>" ++ [10%N]
         ++ lit "            </div>" ++ [10%N]
         ++ lit "             <div class=" ++ [34%N] ++ lit "stat" ++ [34%N]
         ++ lit ">" ++ [10%N]
         ++ lit "                <i class=" ++ [34%N]
         ++ lit "fa-solid fa-comments stat-icon" ++ [34%N]
         ++ lit "></i>" ++ [10%N]
         ++ lit "                <span><strong>" ++ (a ++ b)
         ++ lit "</strong> Total Comments Analyzed</span>" ++ [10%N]
         ++ lit "            </div>" ++ [10%N]
         ++ lit "        "
    /\ errorMessage_textContent w' = []
    /\ live (trace w') = [charts_constructed w]
    /\ In (EvNewChart (charts_constructed w) (VString a) (VString b)) (trace w').
Proof.
  intros Hne Hnet Hjson Hok Hp Hn Hown.
  assert (Hnull : nullish data = false).
  { destruct data; try reflexivity; discriminate. }
  destruct (analysis_rendered host net w r data (VString (a ++ b)) a b (a ++ b))
    as (w' & Hrun & Htrace & Herr & _ & Hsum & _ & _ & Hlive);
    try assumption; try (rewrite ?Hp, ?Hn; reflexivity); try reflexivity.
  exists w'. split; [exact Hrun|]. split.
  { rewrite Hsum. apply summary_markup_text. }
  split; [exact Herr|]. split; [exact Hlive|].
  rewrite Htrace, Hp, Hn. rewrite !in_app_iff. do 4 right. left. reflexivity.
Qed.

Lemma string_counts_concatenate_witness :
  exists w',
    handleAnalysis v8
      (responds 200
         (JsonResolves
            (VObject [(lit "positive", VString (lit "10"));
                      (lit "negative", VString (lit "5"))])))
      (initial_world (lit "x")) = Some (Normal tt, w')
    /\ summaryContainer_innerHTML w'
       = [10%N]
         ++ lit "            <h3>Analysis Summary</h3>" ++ [10%N]
         ++ lit "            <div class=" ++ [34%N] ++ lit "stat" ++ [34%N]
         ++ lit ">" ++ [10%N]
         ++ lit "                <i class=" ++ [34%N]
         ++ lit "fa-solid fa-thumbs-up stat-icon positive" ++ [34%N]
         ++ lit "></i>" ++ [10%N]
         ++ lit "                <span><strong>10</strong> Positive Comments</span>"
         ++ [10%N]
         ++ lit "            </div>" ++ [10%N]
         ++ lit "            <div class=" ++ [34%N] ++ lit "stat" ++ [34%N]
         ++ lit ">" ++ [10%N]
         ++ lit "                <i class=" ++ [34%N]
         ++ lit "fa-solid fa-thumbs-down stat-icon negative" ++ [34%N]
         ++ lit "></i>" ++ [10%N]
         ++ lit "                <span><strong>5</strong> Negative Comments</span>"
         ++ [10%N]
         ++ lit "            </div>" ++ [10%N]
         ++ lit "             <div class=" ++ [34%N] ++ lit "stat" ++ [34%N]
         ++ lit ">" ++ [10%N]
         ++ lit "                <i class=" ++ [34%N]
         ++ lit "fa-solid fa-comments stat-icon" ++ [34%N]
         ++ lit "></i>" ++ [10%N]
         ++ lit "                <span><strong>105</strong> Total Comments Analyzed</span>"
         ++ [10%N]
         ++ lit "            </div>" ++ [10%N]
         ++ lit "        ".
Proof.
  destruct (string_counts_concatenate v8
              (responds 200
                 (JsonResolves
                    (VObject [(lit "positive", VString (lit "10"));
                              (lit "negative", VString (lit "5"))])))
              (initial_world (lit "x"))
              {| status := 200;
                 json := JsonResolves
                           (VObject [(lit "positive", VString (lit "10"));
                                     (lit "negative", VString (lit "5"))]) |}
              (VObject [(lit "positive", VString (lit "10"));
                        (lit "negative", VString (lit "5"))])
              (lit "10") (lit "5"))
    as (w' & Hrun & Hsum & _);
    try reflexivity; try discriminate.
  - left. reflexivity.
  - exists w'. split; [exact Hrun|]. rewrite Hsum. vm_compute. reflexivity.
Defined.

(** X5.  A [null] body.  An [ok] response whose body is [null] makes the
    destructuring in [displayResults] throw after the results region has
    been shown: the attempt ends with the engine's [TypeError] text on the
    error line, the results region visible, the summary empty and no chart
    alive. *)
Theorem null_body_shows_empty_results
    (host : Host) (net : Request -> FetchOutcome) (w : World)
    (r : Response) (data : JSValue) :
  trim (urlInput_value w) <> [] ->
  net (analyze_request (trim (urlInput_value w))) = FetchResolves r ->
  json r = JsonResolves data -> ok r = true ->
  nullish data = true ->
  single_owner w ->
  exists w',
    handleAnalysis host net w = Some (Normal tt, w')
    /\ trace w'
       = trace w ++ loading_events w
         ++ [EvFetch (analyze_request (trim (urlInput_value w)));
             EvDisplay (lit "flex")]
         ++ failure_events (type_error (cannot_destructure host data))
    /\ errorMessage_textContent w'
       = lit "Error: " ++ cannot_destructure host data
    /\ resultsContainer_display w' = lit "flex"
    /\ summaryContainer_innerHTML w' = []
    /\ analyzeButton_disabled w' = false
    /\ live (trace w') = [].
Proof.
  intros Hne Hnet Hjson Hok Hnull Hown.
  set (req := analyze_request (trim (urlInput_value w))) in *.
  pose proof (displayResults_nullish host data
                (perform (EvFetch req) (replay (loading_events w) w)) Hnull)
    as Hshow.
  rewrite (handleAnalysis_rendered host net w r data _ _ Hne Hnet Hjson Hok Hshow).
  eexists. split; [reflexivity|].
  assert (Htrace :
            trace (replay (failure_events (type_error (cannot_destructure host data)))
                     (replay [EvDisplay (lit "flex")]
                        (perform (EvFetch req) (replay (loading_events w) w))))
            = trace w ++ loading_events w
              ++ [EvFetch req; EvDisplay (lit "flex")]
              ++ failure_events (type_error (cannot_destructure host data))).
  { rewrite !trace_replay, trace_perform, trace_replay.
    rewrite <- !app_assoc. reflexivity. }
  split; [exact Htrace|].
  split; [reflexivity|]. split; [reflexivity|].
  split.
  { unfold loading_events, clearing_events, release_events.
    destruct (sentimentChart w); reflexivity. }
  split; [reflexivity|].
  rewrite Htrace, app_assoc, live_app, (live_loading w Hown). reflexivity.
Qed.

Lemma null_body_shows_empty_results_witness :
  exists w',
    handleAnalysis v8 (responds 200 (JsonResolves VNull))
      (initial_world (lit "x")) = Some (Normal tt, w')
    /\ resultsContainer_display w' = lit "flex"
    /\ summaryContainer_innerHTML w' = []
    /\ errorMessage_textContent w'
       = lit "Error: Cannot destructure property 'positive' of 'data' as it is null.".
Proof.
  destruct (null_body_shows_empty_results v8
              (responds 200 (JsonResolves VNull)) (initial_world (lit "x"))
              {| status := 200; json := JsonResolves VNull |} VNull)
    as (w' & Hrun & _ & Herr & Hdisplay & Hsum & _);
    try reflexivity; try discriminate.
  - left. reflexivity.
  - exists w'. split; [exact Hrun|]. split; [exact Hdisplay|].
    split; [exact Hsum|]. rewrite Herr. vm_compute. reflexivity.
Defined.

(** X6.  A failure before rendering (no response, a body that does not
    parse, a response that is not [ok]) leaves no results on the page: the
    results region is hidden, the summary is empty, no chart is alive, and
    the button is enabled and reads "Analyze" again. *)
Theorem failed_attempt_leaves_no_results
    (host : Host) (net : Request -> FetchOutcome) (w : World) (err : JSError) :
  trim (urlInput_value w) <> [] ->
  attempt_fails host (net (analyze_request (trim (urlInput_value w)))) err ->
  single_owner w ->
  exists w',
    handleAnalysis host net w = Some (Normal tt, w')
    /\ resultsContainer_display w' = lit "none"
    /\ summaryContainer_innerHTML w' = []
    /\ live (trace w') = []
    /\ analyzeButton_disabled w' = false
    /\ analyzeButton_innerHTML w' = lit "Analyze"
    /\ errorMessage_textContent w' = lit "Error: " ++ message err.
Proof.
  intros Hne Hfail Hown.
  rewrite (handleAnalysis_failure host net w err Hne Hfail).
  eexists. split; [reflexivity|].
  split.
  { unfold loading_events, clearing_events, release_events.
    destruct (sentimentChart w); reflexivity. }
  split.
  { unfold loading_events, clearing_events, release_events.
    destruct (sentimentChart w); reflexivity. }
  split.
  { rewrite trace_replay, trace_perform, trace_replay.
    rewrite <- !app_assoc, app_assoc, live_app, (live_loading w Hown).
    reflexivity. }
  split; [reflexivity|]. split; reflexivity.
Qed.

Lemma failed_attempt_leaves_no_results_witness :
  exists w',
    handleAnalysis v8 (unreachable "Failed to fetch")
      (type_input (lit "x")
         (assign_sentimentChart 0%nat
            (replay [EvDisplay (lit "flex"); EvSummary no_comments_markup;
                     EvNewChart 0%nat (VNumber (Int 1)) (VNumber (Int 2))]
               (initial_world []))))
    = Some (Normal tt, w')
    /\ resultsContainer_display w' = lit "none"
    /\ summaryContainer_innerHTML w' = []
    /\ live (trace w') = [].
Proof.
  destruct (failed_attempt_leaves_no_results v8 (unreachable "Failed to fetch")
              (type_input (lit "x")
                 (assign_sentimentChart 0%nat
                    (replay [EvDisplay (lit "flex"); EvSummary no_comments_markup;
                             EvNewChart 0%nat (VNumber (Int 1)) (VNumber (Int 2))]
                       (initial_world []))))
              {| error_name := lit "TypeError"; message := lit "Failed to fetch" |})
    as (w' & Hrun & Hdisplay & Hsum & Hlive & _).
  - discriminate.
  - constructor.
  - right. exists 0%nat. split; reflexivity.
  - exists w'. split; [exact Hrun|]. split; [exact Hdisplay|].
    split; [exact Hsum | exact Hlive].
Defined.

(** ** The request *)

Lemma requests_app (a b : list Event) :
  requests (a ++ b) = requests a ++ requests b.
Proof.
  induction a as [|e a IH]; [reflexivity|].
  destruct e; simpl; rewrite IH; reflexivity.
Qed.

Lemma requests_quiet (evs : list Event) : quiet evs -> requests evs = [].
Proof.
  unfold quiet. induction evs as [|e evs IH]; intros H; [reflexivity|].
  simpl in H. apply andb_prop in H. destruct H as [He Hevs].
  destruct e; try discriminate; simpl; apply IH; exact Hevs.
Qed.

Lemma requests_loading (w : World) : requests (loading_events w) = [].
Proof.
  unfold loading_events, clearing_events, release_events.
  destruct (sentimentChart w); reflexivity.
Qed.

(** X7.  One click, at most one request.  A click with blank input sends
    nothing; a click with other input sends exactly one request, whatever
    the response is and also when none ever comes: a POST to the analysis
    endpoint, with JSON content type, whose [url] is the trimmed text of
    the field.  [handleAnalysis] completes unless a promise of the attempt
    never settles. *)
Theorem one_request_per_click
    (host : Host) (net : Request -> FetchOutcome) (w : World) :
  trim (urlInput_value w) = []
  \/ modelled (net (analyze_request (trim (urlInput_value w)))) = true ->
  exists res w',
    handleAnalysis host net w = Some (res, w')
    /\ (trim (urlInput_value w) = []
        \/ settles (net (analyze_request (trim (urlInput_value w)))) = true ->
        res = Normal tt)
    /\ requests (trace w')
       = requests (trace w)
         ++ match trim (urlInput_value w) with
            | [] => []
            | url =>
                [{| req_resource := lit "http://127.0.0.1:8000/analyze";
                    req_method := lit "POST";
                    req_content_type := lit "application/json";
                    req_body_url := url |}]
            end.
Proof.
  intros Hcase.
  destruct (trim (urlInput_value w)) as [|c url] eqn:Hurl.
  - unfold handleAnalysis. rewrite Hurl. do 2 eexists.
    split; [reflexivity|]. split; [reflexivity|].
    cbn [showError do_event trace perform emit apply_event].
    rewrite requests_app. reflexivity.
  - destruct Hcase as [Hblank|Hm]; [discriminate|].
    assert (Hne : trim (urlInput_value w) <> []) by (rewrite Hurl; discriminate).
    rewrite <- Hurl in Hm.
    destruct (handleAnalysis_shape host net w Hne Hm)
      as (res & post & w' & Hrun & Hres & Htrace & Hquiet & _).
    exists res, w'. split; [exact Hrun|]. split.
    + intros [Hblank|Hsettles]; [discriminate|].
      rewrite <- Hurl in Hsettles. rewrite Hsettles in Hres. exact Hres.
    + rewrite Htrace, Hurl. rewrite !requests_app, requests_loading.
      cbn [requests app]. rewrite !requests_app, (requests_quiet post Hquiet).
      destruct (settles (net (analyze_request (c :: url)))); reflexivity.
Qed.

Lemma one_request_per_click_witness :
  exists w',
    handleAnalysis v8 (responds 500 unparseable_body)
      (initial_world (lit "  https://youtu.be/abc  "))
    = Some (Normal tt, w')
    /\ requests (trace w')
       = [{| req_resource := lit "http://127.0.0.1:8000/analyze";
             req_method := lit "POST";
             req_content_type := lit "application/json";
             req_body_url := lit "https://youtu.be/abc" |}].
Proof.
  destruct (one_request_per_click v8 (responds 500 unparseable_body)
              (initial_world (lit "  https://youtu.be/abc  ")))
    as (res & w' & Hrun & Hres & Hrequests).
  - right. reflexivity.
  - exists w'. rewrite (Hres (or_intror eq_refl)) in Hrun.
    split; [exact Hrun | exact Hrequests].
Defined.

Lemma trim_start_split (s : jsstring) :
  exists pre,
    s = pre ++ trim_start s
    /\ forallb is_white_space pre = true
    /\ match trim_start s with
       | [] => True
       | c :: _ => is_white_space c = false
       end.
Proof.
  induction s as [|c s (pre & Hs & Hpre & Hhead)].
  - exists []. repeat split.
  - simpl. destruct (is_white_space c) eqn:Hc.
    + exists (c :: pre). split; [simpl; congruence|].
      split; [simpl; rewrite Hc; exact Hpre | exact Hhead].
    + exists []. repeat split. exact Hc.
Qed.

(** X8.  What [trim] removes.  The trimmed text is the text of the field
    without a run of white space at its start and one at its end: nothing
    inside is changed, and what remains neither starts nor ends with white
    space. *)
Theorem trim_strips_only_the_ends (s : jsstring) :
  exists pre post,
    s = pre ++ trim s ++ post
    /\ forallb is_white_space pre = true
    /\ forallb is_white_space post = true
    /\ match trim s with
       | [] => True
       | c :: _ => is_white_space c = false
       end
    /\ match rev (trim s) with
       | [] => True
       | c :: _ => is_white_space c = false
       end.
Proof.
  destruct (trim_start_split s) as (pre & Hs & Hpre & Hhead).
  destruct (trim_start_split (rev (trim_start s))) as (erp & Hr & Herp & Hlast).
  exists pre, (rev erp).
  assert (Hmid : trim_start s = trim s ++ rev erp).
  { unfold trim, trim_end. rewrite <- rev_app_distr, <- Hr, rev_involutive.
    reflexivity. }
  split; [rewrite <- Hmid; exact Hs|].
  split; [exact Hpre|].
  split; [rewrite forallb_rev; exact Herp|].
  split.
  - rewrite Hmid in Hhead. destruct (trim s); [exact I | exact Hhead].
  - unfold trim, trim_end. rewrite rev_involutive. exact Hlast.
Qed.

(** ** What a click leaves alone *)

Lemma preserves_ret {A} P (a : A) : preserves P (ret a).
Proof. intros w r w' Hw H. inversion H; subst. exact Hw. Qed.

Lemma preserves_throw {A} P (e : JSError) : preserves P (@throw A e).
Proof. intros w r w' Hw H. inversion H; subst. exact Hw. Qed.

Lemma preserves_convert host {A} P (c : option (Completion A)) :
  preserves P (convert host c).
Proof.
  intros w r w' Hw H. unfold convert in H.
  destruct c as [[a|v]|]; inversion H; subst; exact Hw.
Qed.

Lemma preserves_await_forever {A} P : preserves P (@await_forever A).
Proof. intros w r w' Hw H. inversion H; subst. exact Hw. Qed.

Lemma preserves_bind {A B} P (m : M A) (k : A -> M B) :
  preserves P m -> (forall a, preserves P (k a)) -> preserves P (bind m k).
Proof.
  intros Hm Hk w r w' Hw H. unfold bind in H.
  destruct (m w) as [[[a|e|] w1]|] eqn:Hrun; [| | |discriminate].
  - apply (Hk a w1 r w'); [|exact H]. apply (Hm w _ w1 Hw Hrun).
  - inversion H; subst. apply (Hm w _ w' Hw Hrun).
  - inversion H; subst. apply (Hm w _ w' Hw Hrun).
Qed.

Lemma preserves_event P (e : Event) : stable P -> preserves P (do_event e).
Proof.
  intros [Hperform _] w r w' Hw H. inversion H; subst. apply Hperform, Hw.
Qed.

Lemma preserves_finally {A} P (r : Result A) (fin : M unit) :
  preserves P fin -> preserves P (finally r fin).
Proof.
  intros Hfin w r' w' Hw H. unfold finally in H.
  destruct (fin w) as [[[u|e|] w1]|] eqn:Hrun; [| | |discriminate];
    inversion H; subst; apply (Hfin w _ w' Hw Hrun).
Qed.

Lemma preserves_try {A} P (body : M A) (handler : JSError -> M A) (fin : M unit) :
  preserves P body -> (forall e, preserves P (handler e)) -> preserves P fin ->
  preserves P (try_catch_finally body handler fin).
Proof.
  intros Hbody Hhandler Hfin w r w' Hw H. unfold try_catch_finally in H.
  destruct (body w) as [[[a|e|] w1]|] eqn:Hrun; [| | |discriminate].
  - apply (preserves_finally P (Normal a) fin Hfin w1 r w'); [|exact H].
    apply (Hbody w _ w1 Hw Hrun).
  - destruct (handler e w1) as [[r1 w2]|] eqn:Hcatch; [|discriminate].
    assert (Hw2 : P w2).
    { apply (Hhandler e w1 r1 w2); [|exact Hcatch].
      apply (Hbody w _ w1 Hw Hrun). }
    destruct r1 as [a|e1|].
    + apply (preserves_finally P (Normal a) fin Hfin w2 r w' Hw2 H).
    + apply (preserves_finally P (Throw e1) fin Hfin w2 r w' Hw2 H).
    + inversion H; subst. exact Hw2.
  - inversion H; subst. apply (Hbody w _ w' Hw Hrun).
Qed.

Create HintDb preserves.
#[local] Hint Resolve preserves_ret preserves_throw preserves_convert
  preserves_await_forever preserves_try preserves_event : preserves.
#[local] Hint Extern 2 (preserves _ (bind _ _)) =>
  apply preserves_bind; [|intros ?] : preserves.

Section Stable.

Variable P : World -> Prop.
Hypothesis P_stable : stable P.
Variable host : Host.

Lemma preserves_get_property v k : preserves P (get_property host v k).
Proof. destruct v; simpl; auto with preserves. Qed.
Hint Resolve preserves_get_property : preserves.

Lemma preserves_destructure data : preserves P (destructure host data).
Proof. destruct data; simpl; auto with preserves. Qed.

Lemma preserves_new_Error v : preserves P (new_Error host v).
Proof. destruct v; unfold new_Error; auto with preserves. Qed.

Lemma preserves_release :
  preserves P (fun w => match sentimentChart w with
                        | Some c => do_event (EvDestroy c) w
                        | None => ret tt w
                        end).
Proof.
  intros w r w' Hw H. destruct (sentimentChart w) as [c|].
  - apply (preserves_event P (EvDestroy c) P_stable w r w' Hw H).
  - apply (preserves_ret P tt w r w' Hw H).
Qed.

Lemma preserves_setLoadingState b : preserves P (setLoadingState b).
Proof. unfold setLoadingState. auto with preserves. Qed.

Lemma preserves_showError msg : preserves P (showError msg).
Proof. unfold showError. auto with preserves. Qed.

Lemma preserves_clearResults : preserves P clearResults.
Proof.
  unfold clearResults.
  apply preserves_bind; [auto with preserves | intros _].
  apply preserves_bind; [auto with preserves | intros _].
  apply preserves_bind; [auto with preserves | intros _].
  apply preserves_release.
Qed.

Lemma preserves_createOrUpdateChart data :
  preserves P (createOrUpdateChart host data).
Proof.
  unfold createOrUpdateChart.
  apply preserves_bind; [apply preserves_release | intros _].
  apply preserves_bind; [auto with preserves | intros positive].
  apply preserves_bind; [auto with preserves | intros negative].
  intros w r w' Hw H. inversion H; subst.
  destruct P_stable as [Hperform Hassign]. apply Hassign, Hperform, Hw.
Qed.

Lemma preserves_displayResults data : preserves P (displayResults host data).
Proof.
  unfold displayResults.
  apply preserves_bind; [auto with preserves | intros _].
  apply preserves_bind; [apply preserves_destructure | intros pn].
  apply preserves_bind; [auto with preserves | intros total].
  destruct (strict_equals_zero total); [auto with preserves|].
  apply preserves_bind; [auto with preserves | intros sp].
  apply preserves_bind; [auto with preserves | intros sn].
  apply preserves_bind; [auto with preserves | intros st].
  apply preserves_bind; [auto with preserves | intros _].
  apply preserves_createOrUpdateChart.
Qed.

Lemma preserves_attempt net url : preserves P (attempt host net url).
Proof.
  unfold attempt, fetch, response_json.
  apply preserves_bind; [|intros response].
  { apply preserves_bind; [auto with preserves | intros _].
    destruct (net (analyze_request url)); auto with preserves. }
  apply preserves_bind; [|intros data].
  { destruct (json response); auto with preserves. }
  apply preserves_bind; [|intros _; apply preserves_displayResults].
  destruct (negb (ok response)); [|auto with preserves].
  apply preserves_bind; [auto with preserves | intros detail].
  apply preserves_bind; [apply preserves_new_Error | intros error].
  auto with preserves.
Qed.

Lemma preserves_report error : preserves P (report error).
Proof. unfold report, showError. auto with preserves. Qed.

(** Whatever no step of the script disturbs, a click leaves as it was. *)
Lemma preserves_handleAnalysis net : preserves P (handleAnalysis host net).
Proof.
  intros w r w' Hw H. unfold handleAnalysis in H.
  destruct (trim (urlInput_value w)) as [|c url].
  - apply (preserves_showError _ w r w' Hw H).
  - revert H.
    assert (Hall : preserves P
                     (setLoadingState true ;; clearResults ;;
                      try_catch_finally (attempt host net (c :: url))
                        (report) (setLoadingState false))).
    { apply preserves_bind; [apply preserves_setLoadingState | intros _].
      apply preserves_bind; [apply preserves_clearResults | intros _].
      apply preserves_try;
        [apply preserves_attempt | apply preserves_report
         | apply preserves_setLoadingState]. }
    intros H. apply (Hall w r w' Hw H).
Qed.

End Stable.

(** X9.  A click never edits the field.  However the attempt ends, the
    text of the input field after [handleAnalysis] is the text before it,
    surrounding white space included: the script trims a copy. *)
Theorem click_keeps_input
    (host : Host) (net : Request -> FetchOutcome)
    (w w' : World) (r : Result unit) :
  handleAnalysis host net w = Some (r, w') ->
  urlInput_value w' = urlInput_value w.
Proof.
  intros Hrun.
  apply (preserves_handleAnalysis (fun x => urlInput_value x = urlInput_value w)
           ltac:(split; intros; assumption) host net w r w' eq_refl Hrun).
Qed.

Lemma click_keeps_input_witness :
  exists w',
    handleAnalysis v8 (responds 200 (JsonResolves (result_model 10 5)))
      (initial_world (lit " https://youtu.be/abc "))
    = Some (Normal tt, w')
    /\ urlInput_value w' = lit " https://youtu.be/abc ".
Proof.
  assert (Hrun : exists w',
             handleAnalysis v8 (responds 200 (JsonResolves (result_model 10 5)))
               (initial_world (lit " https://youtu.be/abc "))
             = Some (Normal tt, w'))
    by (eexists; vm_compute; reflexivity).
  destruct Hrun as [w' Hrun]. exists w'. split; [exact Hrun|].
  apply (click_keeps_input v8 _ (initial_world (lit " https://youtu.be/abc "))
           w' (Normal tt) Hrun).
Defined.

(** ** The button between clicks *)

Lemma createOrUpdateChart_nullish host data w :
  nullish data = true ->
  createOrUpdateChart host data w
  = Some (Throw (type_error (cannot_read_property host data (lit "positive"))),
          replay (release_events w) w).
Proof.
  intros Hnull. unfold createOrUpdateChart, release_events, bind.
  destruct data; try discriminate; destruct (sentimentChart w); reflexivity.
Qed.

Lemma never_suspends_ret {A} (a : A) : never_suspends (ret a).
Proof. intros w r w' H. inversion H; subst. discriminate. Qed.

Lemma never_suspends_throw {A} (e : JSError) : never_suspends (@throw A e).
Proof. intros w r w' H. inversion H; subst. discriminate. Qed.

Lemma never_suspends_event (e : Event) : never_suspends (do_event e).
Proof. intros w r w' H. inversion H; subst. discriminate. Qed.

Lemma never_suspends_convert host {A} (c : option (Completion A)) :
  never_suspends (convert host c).
Proof.
  intros w r w' H. unfold convert in H.
  destruct c as [[a|v]|]; inversion H; subst; discriminate.
Qed.

Lemma never_suspends_bind {A B} (m : M A) (k : A -> M B) :
  never_suspends m -> (forall a, never_suspends (k a)) ->
  never_suspends (bind m k).
Proof.
  intros Hm Hk w r w' H. unfold bind in H.
  destruct (m w) as [[[a|e|] w1]|] eqn:Hrun; [| | |discriminate].
  - apply (Hk a w1 r w' H).
  - inversion H; subst. discriminate.
  - exfalso. apply (Hm w _ w1 Hrun). reflexivity.
Qed.

Create HintDb never_suspends.
#[local] Hint Resolve never_suspends_ret never_suspends_throw
  never_suspends_event never_suspends_convert : never_suspends.
#[local] Hint Extern 2 (never_suspends (bind _ _)) =>
  apply never_suspends_bind; [|intros ?] : never_suspends.

Lemma never_suspends_get_property host v k :
  never_suspends (get_property host v k).
Proof. destruct v; simpl; auto with never_suspends. Qed.
#[local] Hint Resolve never_suspends_get_property : never_suspends.

Lemma never_suspends_destructure host data :
  never_suspends (destructure host data).
Proof. destruct data; simpl; auto with never_suspends. Qed.
#[local] Hint Resolve never_suspends_destructure : never_suspends.

Lemma never_suspends_new_Error host v : never_suspends (new_Error host v).
Proof. destruct v; unfold new_Error; auto with never_suspends. Qed.
#[local] Hint Resolve never_suspends_new_Error : never_suspends.

Lemma never_suspends_createOrUpdateChart host data :
  never_suspends (createOrUpdateChart host data).
Proof.
  intros w r w' H. destruct (nullish data) eqn:Hnull.
  - rewrite (createOrUpdateChart_nullish host data w Hnull) in H.
    inversion H; subst. discriminate.
  - rewrite (createOrUpdateChart_run host data w Hnull) in H.
    inversion H; subst. discriminate.
Qed.
#[local] Hint Resolve never_suspends_createOrUpdateChart : never_suspends.

Lemma never_suspends_displayResults host data :
  never_suspends (displayResults host data).
Proof.
  unfold displayResults.
  apply never_suspends_bind; [auto with never_suspends | intros _].
  apply never_suspends_bind; [auto with never_suspends | intros pn].
  apply never_suspends_bind; [auto with never_suspends | intros total].
  destruct (strict_equals_zero total); auto 8 with never_suspends.
Qed.

(** The [try] block stays suspended only when a promise does not
    settle. *)
Lemma attempt_settles host net url w res w1 :
  settles (net (analyze_request url)) = true ->
  attempt host net url w = Some (res, w1) ->
  res <> Suspended.
Proof.
  intros Hsettles H. unfold attempt, fetch in H.
  unfold bind at 1 in H. unfold bind at 1 in H. cbn [do_event] in H.
  destruct (net (analyze_request url)) as [e|r|] eqn:Hnet; [| |discriminate].
  { inversion H; subst. discriminate. }
  cbn [ret] in H. unfold response_json in H. unfold bind at 1 in H.
  simpl in Hsettles. destruct (json r) as [e|data|]; [| |discriminate].
  { inversion H; subst. discriminate. }
  cbn [ret] in H. revert H.
  apply never_suspends_bind; [|intros _; apply never_suspends_displayResults].
  destruct (negb (ok r)); auto with never_suspends.
Qed.

(** A click during which the promises settle leaves the button enabled,
    and so do the two chart functions. *)
Lemma act_keeps_button_enabled host a w r w' :
  analyzeButton_disabled w = false ->
  settling a ->
  act host a w = Some (r, w') ->
  analyzeButton_disabled w' = false.
Proof.
  intros Hw Hsettling H. destruct a as [input net|data|]; simpl in H.
  - destruct (trim (urlInput_value (type_input input w))) as [|c url] eqn:Hurl.
    + unfold handleAnalysis in H. rewrite Hurl in H.
      inversion H; subst. exact Hw.
    + assert (Hne : trim (urlInput_value (type_input input w)) <> [])
        by (rewrite Hurl; discriminate).
      destruct (attempt host net (trim (urlInput_value (type_input input w)))
                  (replay (loading_events (type_input input w))
                     (type_input input w)))
        as [[res w1]|] eqn:Hattempt.
      2:{ rewrite (handleAnalysis_undefined host net _ Hne Hattempt) in H.
          discriminate. }
      pose proof (attempt_settles host net _ _ res w1 (Hsettling _) Hattempt)
        as Hres.
      rewrite (handleAnalysis_run host net _ res w1 Hne Hattempt) in H.
      destruct res as [u|e|]; [| |congruence];
        inversion H; subst; reflexivity.
  - destruct (nullish data) eqn:Hnull.
    + rewrite (createOrUpdateChart_nullish host data w Hnull) in H.
      assert (Hw' : w' = replay (release_events w) w) by congruence.
      subst w'. unfold release_events. destruct (sentimentChart w); exact Hw.
    + rewrite (createOrUpdateChart_run host data w Hnull) in H.
      match type of H with
      | Some (_, ?x) = _ => assert (Hw' : w' = x) by congruence
      end.
      subst w'. unfold release_events. destruct (sentimentChart w); exact Hw.
  - rewrite clearResults_run in H.
    assert (Hw' : w' = replay (clearing_events w) w) by congruence.
    subst w'. unfold clearing_events, release_events.
    destruct (sentimentChart w); exact Hw.
Qed.

(** X10.  The button is not left disabled by an attempt that ends.
    Starting from a page whose button is enabled, after any sequence of
    clicks (any input, any response or failure of the network, as long as
    the promises settle) and of calls of the two chart functions the
    button is enabled: every attempt that disables it enables it again
    before it ends. *)
Theorem button_enabled_between_clicks
    (host : Host) (actions : list Action) (w w' : World) :
  analyzeButton_disabled w = false ->
  Forall settling actions ->
  run host actions w = Some w' ->
  analyzeButton_disabled w' = false.
Proof.
  intros Hw Hall. revert w Hw.
  induction Hall as [|a rest Ha _ IH]; intros w Hw H; simpl in H.
  - inversion H; subst. exact Hw.
  - destruct (act host a w) as [[r w1]|] eqn:Hact; [|discriminate].
    apply (IH w1); [|exact H].
    apply (act_keeps_button_enabled host a w r w1 Hw Ha Hact).
Qed.

Lemma button_enabled_between_clicks_witness :
  exists w',
    run v8 [Click (lit "x") (unreachable "Failed to fetch");
            Click [] (unreachable "Failed to fetch");
            Click (lit "y") (responds 200 (JsonResolves VNull))]
      (initial_world [])
    = Some w'
    /\ analyzeButton_disabled w' = false.
Proof.
  assert (Hrun : exists w',
             run v8 [Click (lit "x") (unreachable "Failed to fetch");
                     Click [] (unreachable "Failed to fetch");
                     Click (lit "y") (responds 200 (JsonResolves VNull))]
               (initial_world [])
             = Some w')
    by (eexists; vm_compute; reflexivity).
  destruct Hrun as [w' Hrun]. exists w'. split; [exact Hrun|].
  apply (button_enabled_between_clicks v8
           [Click (lit "x") (unreachable "Failed to fetch");
            Click [] (unreachable "Failed to fetch");
            Click (lit "y") (responds 200 (JsonResolves VNull))]
           (initial_world []) w' eq_refl);
    [|exact Hrun].
  repeat constructor.
Defined.

(** X18.  A request that never resolves leaves the button disabled.
    When the promise of [fetch] or the promise of [response.json()] never
    settles, [handleAnalysis] stays suspended after the request: its
    effects are the loading phase and the request, nothing else; the
    button stays disabled and keeps reading "Analyzing...", the error
    line and the summary are empty and the results region is hidden. *)
Theorem pending_request_keeps_button_disabled
    (host : Host) (net : Request -> FetchOutcome) (w : World) :
  trim (urlInput_value w) <> [] ->
  settles (net (analyze_request (trim (urlInput_value w)))) = false ->
  exists w',
    handleAnalysis host net w = Some (Suspended, w')
    /\ trace w'
       = trace w
         ++ [EvDisabled true;
             EvButtonHTML
               (lit "<i class=" ++ [34%N] ++ lit "fa-solid fa-spinner fa-spin"
                ++ [34%N] ++ lit "></i> Analyzing...");
             EvErrorText []; EvDisplay (lit "none"); EvSummary []]
         ++ match sentimentChart w with
            | Some c => [EvDestroy c]
            | None => []
            end
         ++ [EvFetch (analyze_request (trim (urlInput_value w)))]
    /\ analyzeButton_disabled w' = true
    /\ analyzeButton_innerHTML w'
       = lit "<i class=" ++ [34%N] ++ lit "fa-solid fa-spinner fa-spin"
         ++ [34%N] ++ lit "></i> Analyzing..."
    /\ errorMessage_textContent w' = []
    /\ resultsContainer_display w' = lit "none"
    /\ summaryContainer_innerHTML w' = [].
Proof.
  intros Hne Hpending.
  rewrite (handleAnalysis_run host net w Suspended _ Hne
             (attempt_pending host net _ _ Hpending)).
  eexists. split; [reflexivity|]. split.
  { rewrite trace_perform, trace_replay.
    unfold loading_events, clearing_events, release_events.
    rewrite <- !app_assoc. reflexivity. }
  unfold loading_events, clearing_events, release_events.
  destruct (sentimentChart w).
  - split; [reflexivity|]. split; [reflexivity|]. split; [reflexivity|].
    split; reflexivity.
  - split; [reflexivity|]. split; [reflexivity|]. split; [reflexivity|].
    split; reflexivity.
Qed.

Lemma pending_request_keeps_button_disabled_witness :
  exists w',
    handleAnalysis v8 (responds 200 JsonPending) (initial_world (lit "x"))
    = Some (Suspended, w')
    /\ analyzeButton_disabled w' = true.
Proof.
  destruct (pending_request_keeps_button_disabled v8 (responds 200 JsonPending)
              (initial_world (lit "x")))
    as (w' & Hrun & _ & Hbutton & _).
  - discriminate.
  - reflexivity.
  - exists w'. split; [exact Hrun | exact Hbutton].
Defined.

(** ** The two slices *)

(** X11.  The two percentages of a chart add up to 100.0, give or take
    0.1: for counts that are not negative and sum to at most [10^12], the
    labels of "Positive" and "Negative" show the digits of [np / 10] and
    of [nn / 10] with one decimal, for tenths [np] and [nn] with
    [999 <= np + nn <= 1001]. *)
Theorem slice_percentages_add_up (positive negative : Z) :
  0 <= positive -> 0 <= negative -> 0 < positive + negative <= 10 ^ 12 ->
  exists np nn,
    tooltip_label (slice_context positive negative true)
    = Some (lit "Positive: " ++ decimal positive
            ++ lit " (" ++ decimal (np / 10) ++ lit "."
            ++ decimal (np mod 10) ++ lit "%)")
    /\ tooltip_label (slice_context positive negative false)
       = Some (lit "Negative: " ++ decimal negative
               ++ lit " (" ++ decimal (nn / 10) ++ lit "."
               ++ decimal (nn mod 10) ++ lit "%)")
    /\ read_decimal (decimal (np / 10)) = Some (np / 10)
    /\ read_decimal (decimal (np mod 10)) = Some (np mod 10)
    /\ read_decimal (decimal (nn / 10)) = Some (nn / 10)
    /\ read_decimal (decimal (nn mod 10)) = Some (nn mod 10)
    /\ 0 <= np <= 1000 /\ 0 <= nn <= 1000
    /\ 999 <= np + nn <= 1001.
Proof.
  intros Hp Hn Ht.
  destruct (percentage_tenths_nearest positive (positive + negative))
    as (np & Hrunp & Hnearp & Hrangep); [lia | exact Ht |].
  destruct (percentage_tenths_nearest negative (positive + negative))
    as (nn & Hrunn & Hnearn & Hrangen); [lia | exact Ht |].
  exists np, nn.
  split; [apply (tooltip_label_run positive negative np true Hrunp)|].
  split; [apply (tooltip_label_run positive negative nn false Hrunn)|].
  split; [apply read_decimal_decimal|].
  split; [apply read_decimal_decimal|].
  split; [apply read_decimal_decimal|].
  split; [apply read_decimal_decimal|].
  split; [exact Hrangep|]. split; [exact Hrangen|].
  set (t := positive + negative) in *.
  assert (Hsum : 2 * Z.abs ((np + nn) * t - 1000 * t) <= 2 * t) by (subst t; lia).
  split; nia.
Qed.

Lemma slice_percentages_add_up_witness :
  exists np nn,
    tooltip_label (slice_context 1 1999 true)
    = Some (lit "Positive: " ++ decimal 1
            ++ lit " (" ++ decimal (np / 10) ++ lit "."
            ++ decimal (np mod 10) ++ lit "%)")
    /\ tooltip_label (slice_context 1 1999 false)
       = Some (lit "Negative: " ++ decimal 1999
               ++ lit " (" ++ decimal (nn / 10) ++ lit "."
               ++ decimal (nn mod 10) ++ lit "%)")
    /\ 999 <= np + nn <= 1001.
Proof.
  destruct (slice_percentages_add_up 1 1999)
    as (np & nn & Hp & Hn & _ & _ & _ & _ & _ & _ & Hsum); try lia.
  exists np, nn. split; [exact Hp|]. split; [exact Hn | exact Hsum].
Defined.

(** The bound is reached: 1 of 2000 shows 0.1 and 1999 of 2000 shows
    100.0. *)
Example slice_percentages_off_by_a_tenth :
  tooltip_label (slice_context 1 1999 true) = Some (lit "Positive: 1 (0.1%)")
  /\ tooltip_label (slice_context 1 1999 false)
     = Some (lit "Negative: 1999 (100.0%)").
Proof. split; vm_compute; reflexivity. Qed.

(** X12.  A slice that holds every comment shows 100.0% and the empty one
    0.0%: for [0 < p <= 10^12] positive comments and no negative ones the
    labels are "Positive: p (100.0%)" and "Negative: 0 (0.0%)". *)
Theorem full_slice_shows_100 (p : Z) :
  0 < p <= 10 ^ 12 ->
  tooltip_label (slice_context p 0 true)
  = Some (lit "Positive: " ++ decimal p ++ lit " (100.0%)")
  /\ tooltip_label (slice_context p 0 false) = Some (lit "Negative: 0 (0.0%)").
Proof.
  intros Hp.
  destruct (percentage_tenths_nearest p (p + 0)) as (n & Hrun & Hnear & _);
    [lia | lia |].
  assert (Hn : n = 1000) by nia. subst n.
  split.
  - rewrite (tooltip_label_run p 0 1000 true Hrun). reflexivity.
  - destruct (percentage_tenths_nearest 0 (p + 0)) as (n & Hrun0 & Hnear0 & _);
      [lia | lia |].
    assert (Hn : n = 0) by nia. subst n.
    rewrite (tooltip_label_run p 0 0 false Hrun0). reflexivity.
Qed.

Lemma full_slice_shows_100_witness :
  tooltip_label (slice_context 7 0 true) = Some (lit "Positive: 7 (100.0%)")
  /\ tooltip_label (slice_context 7 0 false) = Some (lit "Negative: 0 (0.0%)").
Proof.
  apply (full_slice_shows_100 7). change (10 ^ 12) with 1000000000000. lia.
Defined.

(** ** The menu *)

Lemma jsstring_eqb_eq (a b : jsstring) : jsstring_eqb a b = true <-> a = b.
Proof.
  unfold jsstring_eqb. destruct (list_eq_dec N.eq_dec a b); split;
    congruence.
Qed.

Lemma jsstring_eqb_refl (a : jsstring) : jsstring_eqb a a = true.
Proof. apply jsstring_eqb_eq. reflexivity. Qed.

Lemma jsstring_eqb_neq (a b : jsstring) : a <> b -> jsstring_eqb a b = false.
Proof.
  intros H. destruct (jsstring_eqb a b) eqn:E; [|reflexivity].
  apply jsstring_eqb_eq in E. contradiction.
Qed.

Lemma classList_contains_In (token : jsstring) (classes : list jsstring) :
  classList_contains token classes = true <-> In token classes.
Proof.
  unfold classList_contains. rewrite existsb_exists. split.
  - intros (c & Hin & Heq). apply jsstring_eqb_eq in Heq. congruence.
  - intros Hin. exists token. split; [exact Hin | apply jsstring_eqb_refl].
Qed.

Lemma classList_toggle_In (token c : jsstring) (classes : list jsstring) :
  In c (fst (classList_toggle token classes))
  <-> (c <> token /\ In c classes)
      \/ (c = token /\ classList_contains token classes = false).
Proof.
  unfold classList_toggle.
  destruct (classList_contains token classes) eqn:Hhas; cbn [fst].
  - rewrite filter_In. split.
    + intros [Hin Hne]. left. split; [|exact Hin].
      intros ->. rewrite jsstring_eqb_refl in Hne. discriminate.
    + intros [[Hne Hin]|[_ Hfalse]]; [|discriminate].
      split; [exact Hin|]. rewrite jsstring_eqb_neq; [reflexivity | congruence].
  - rewrite in_app_iff. split.
    + intros [Hin|[Heq|[]]].
      * left. split; [|exact Hin]. intros ->.
        apply classList_contains_In in Hin. congruence.
      * right. split; [congruence | reflexivity].
    + intros [[_ Hin]|[Heq _]]; [left; exact Hin | right; left; congruence].
Qed.

(** X13.  The menu.  A click on the menu icon flips whether the
    navigation bar has the class "responsive" and changes no other class;
    a second click restores the classes the bar had (the very list, when
    "responsive" was not among them at first). *)
Theorem menu_click_toggles (classes : list jsstring) :
  classList_contains (lit "responsive") (menu_click classes)
  = negb (classList_contains (lit "responsive") classes)
  /\ (forall c, c <> lit "responsive" ->
                (In c (menu_click classes) <-> In c classes))
  /\ (forall c, In c (menu_click (menu_click classes)) <-> In c classes)
  /\ (classList_contains (lit "responsive") classes = false ->
      menu_click (menu_click classes) = classes).
Proof.
  set (token := lit "responsive").
  assert (Hflip : forall l,
             classList_contains token (menu_click l)
             = negb (classList_contains token l)).
  { intros l. destruct (classList_contains token l) eqn:Hhas; cbn [negb].
    - destruct (classList_contains token (menu_click l)) eqn:Hafter;
        [|reflexivity].
      apply classList_contains_In in Hafter.
      apply (classList_toggle_In token token l) in Hafter.
      destruct Hafter as [[Hne _]|[_ Hfalse]]; [contradiction | congruence].
    - apply classList_contains_In. apply (classList_toggle_In token token l).
      right. split; [reflexivity | exact Hhas]. }
  assert (Hother : forall l c, c <> token ->
                               (In c (menu_click l) <-> In c l)).
  { intros l c Hne. unfold menu_click. rewrite classList_toggle_In.
    split; [intros [[_ H]|[H _]]; [exact H | contradiction] | intros H; left; auto]. }
  split; [apply Hflip|]. split; [apply Hother|]. split.
  - intros c. destruct (list_eq_dec N.eq_dec c token) as [->|Hne].
    + rewrite <- !classList_contains_In, !Hflip, negb_involutive. reflexivity.
    + rewrite !Hother by exact Hne. reflexivity.
  - intros Habsent. unfold menu_click at 2, classList_toggle. fold token.
    rewrite Habsent. cbn [fst].
    unfold menu_click, classList_toggle. fold token.
    assert (Hnow : classList_contains token (classes ++ [token]) = true).
    { apply classList_contains_In, in_app_iff. right. left. reflexivity. }
    rewrite Hnow. cbn [fst].
    rewrite filter_app. cbn [filter]. rewrite jsstring_eqb_refl. cbn [negb].
    rewrite app_nil_r.
    clear Hnow. induction classes as [|c l IH]; [reflexivity|].
    unfold classList_contains in Habsent. simpl in Habsent.
    apply orb_false_elim in Habsent. destruct Habsent as [Hc Hl].
    simpl. rewrite Hc. cbn [negb]. f_equal. apply IH. exact Hl.
Qed.

Lemma menu_click_toggles_witness :
  menu_click (menu_click [lit "topnav"]) = [lit "topnav"].
Proof.
  apply (proj2 (proj2 (proj2 (menu_click_toggles [lit "topnav"])))).
  vm_compute. reflexivity.
Defined.

(** ** The body of the request *)

Lemma quote_unit_plain (c : N) : plain_unit c = true -> quote_unit c = [c].
Proof.
  unfold plain_unit, quote_unit. intros H.
  apply andb_prop in H. destruct H as [H Htrail].
  apply andb_prop in H. destruct H as [H Hlead].
  apply andb_prop in H. destruct H as [H H92].
  apply andb_prop in H. destruct H as [H32 H34].
  apply N.leb_le in H32.
  apply negb_true_iff in H34, H92, Hlead, Htrail.
  rewrite H34, H92, Hlead, Htrail.
  replace (c =? 8)%N with false by (symmetry; apply N.eqb_neq; lia).
  replace (c =? 9)%N with false by (symmetry; apply N.eqb_neq; lia).
  replace (c =? 10)%N with false by (symmetry; apply N.eqb_neq; lia).
  replace (c =? 12)%N with false by (symmetry; apply N.eqb_neq; lia).
  replace (c =? 13)%N with false by (symmetry; apply N.eqb_neq; lia).
  replace (c <? 32)%N with false by (symmetry; apply N.ltb_ge; lia).
  reflexivity.
Qed.

Lemma quote_units_plain (s : jsstring) :
  forallb plain_unit s = true -> quote_units s = s.
Proof.
  induction s as [|c rest IH]; intros H; [reflexivity|].
  simpl in H. apply andb_prop in H. destruct H as [Hc Hrest].
  specialize (IH Hrest).
  assert (Hlead : is_leading_surrogate c = false).
  { unfold plain_unit in Hc. apply andb_prop in Hc. destruct Hc as [Hc _].
    apply andb_prop in Hc. destruct Hc as [_ Hc].
    apply negb_true_iff in Hc. exact Hc. }
  cbn [quote_units]. destruct rest as [|d rest'].
  - apply quote_unit_plain, Hc.
  - rewrite Hlead. cbn [andb]. rewrite (quote_unit_plain c Hc), IH. reflexivity.
Qed.

(** X14.  A plain URL is sent as it is.  When the trimmed text holds no
    quote, no backslash, no control character and no surrogate (every
    printable ASCII URL is such a text), the body of the request is the
    text between [{"url":"] and ["}], unchanged. *)
Theorem plain_url_sent_verbatim (url : jsstring) :
  forallb plain_unit url = true ->
  request_body (analyze_request url)
  = lit "{" ++ quoted "url" ++ lit ":" ++ dquote ++ url ++ dquote ++ lit "}".
Proof.
  intros Hplain. unfold request_body, QuoteJSONString.
  cbn [req_body_url analyze_request].
  rewrite (quote_units_plain url Hplain), <- !app_assoc. reflexivity.
Qed.

Lemma plain_url_sent_verbatim_witness :
  request_body (analyze_request (lit "https://www.youtube.com/watch?v=abc&t=1s"))
  = lit "{" ++ quoted "url" ++ lit ":" ++ dquote
    ++ lit "https://www.youtube.com/watch?v=abc&t=1s" ++ dquote ++ lit "}".
Proof.
  apply (plain_url_sent_verbatim (lit "https://www.youtube.com/watch?v=abc&t=1s")).
  reflexivity.
Defined.

Lemma hex_value_digit (d : N) :
  (d < 16)%N -> hex_value (hex_digit d) = Some d.
Proof.
  intros Hd. unfold hex_digit, hex_value.
  destruct (d <? 10)%N eqn:Hlt.
  - apply N.ltb_lt in Hlt.
    replace ((48 <=? 48 + d) && (48 + d <=? 57))%N with true
      by (symmetry; apply andb_true_intro; split; apply N.leb_le; lia).
    f_equal. lia.
  - apply N.ltb_ge in Hlt.
    replace ((48 <=? 87 + d) && (87 + d <=? 57))%N with false
      by (symmetry; apply andb_false_intro2; apply N.leb_gt; lia).
    replace ((97 <=? 87 + d) && (87 + d <=? 102))%N with true
      by (symmetry; apply andb_true_intro; split; apply N.leb_le; lia).
    f_equal. lia.
Qed.

Lemma unquote_unicode_escape (c : N) (tail : jsstring) :
  (c < 65536)%N ->
  unquote_units (unicode_escape c ++ tail)
  = match unquote_units tail with Some r => Some (c :: r) | None => None end.
Proof.
  intros Hc. unfold unicode_escape. cbn [app unquote_units N.eqb Pos.eqb].
  rewrite !hex_value_digit by (apply N.mod_lt; discriminate).
  destruct (unquote_units tail) as [r|]; [|reflexivity].
  f_equal. f_equal.
  assert (H4096 : (c / 4096 mod 16 = c / 4096)%N).
  { apply N.mod_small. apply N.Div0.div_lt_upper_bound. exact Hc. }
  rewrite H4096.
  pose proof (N.div_mod c 16 ltac:(discriminate)) as E1.
  pose proof (N.div_mod (c / 16) 16 ltac:(discriminate)) as E2.
  pose proof (N.div_mod (c / 16 / 16) 16 ltac:(discriminate)) as E3.
  rewrite !N.Div0.div_div in E2, E3. rewrite N.Div0.div_div in E3.
  change (16 * 16)%N with 256%N in *. change (256 * 16)%N with 4096%N in *.
  assert (H3 : (c / 4096 / 16 = 0)%N).
  { rewrite N.Div0.div_div. apply N.div_small. exact Hc. }
  lia.
Qed.

Lemma unquote_quote_unit (c : N) (tail : jsstring) :
  (c < 65536)%N ->
  unquote_units (quote_unit c ++ tail)
  = match unquote_units tail with Some r => Some (c :: r) | None => None end.
Proof.
  intros Hc. unfold quote_unit.
  destruct (c =? 8)%N eqn:E8;
    [apply N.eqb_eq in E8; subst; simpl; destruct (unquote_units tail); reflexivity|].
  destruct (c =? 9)%N eqn:E9;
    [apply N.eqb_eq in E9; subst; simpl; destruct (unquote_units tail); reflexivity|].
  destruct (c =? 10)%N eqn:E10;
    [apply N.eqb_eq in E10; subst; simpl; destruct (unquote_units tail); reflexivity|].
  destruct (c =? 12)%N eqn:E12;
    [apply N.eqb_eq in E12; subst; simpl; destruct (unquote_units tail); reflexivity|].
  destruct (c =? 13)%N eqn:E13;
    [apply N.eqb_eq in E13; subst; simpl; destruct (unquote_units tail); reflexivity|].
  destruct (c =? 34)%N eqn:E34;
    [apply N.eqb_eq in E34; subst; simpl; destruct (unquote_units tail); reflexivity|].
  destruct (c =? 92)%N eqn:E92;
    [apply N.eqb_eq in E92; subst; simpl; destruct (unquote_units tail); reflexivity|].
  destruct ((c <? 32)%N || is_leading_surrogate c || is_trailing_surrogate c)
    eqn:Eesc.
  - apply unquote_unicode_escape, Hc.
  - apply orb_false_elim in Eesc. destruct Eesc as [Eesc _].
    apply orb_false_elim in Eesc. destruct Eesc as [E32 _].
    cbn [app unquote_units]. rewrite E92, E34, E32. reflexivity.
Qed.

Lemma unquote_surrogate (c : N) (tail : jsstring) :
  (55296 <=? c)%N = true ->
  unquote_units (c :: tail)
  = match unquote_units tail with Some r => Some (c :: r) | None => None end.
Proof.
  intros Hc. apply N.leb_le in Hc. cbn [unquote_units].
  replace (c =? 92)%N with false by (symmetry; apply N.eqb_neq; lia).
  replace (c =? 34)%N with false by (symmetry; apply N.eqb_neq; lia).
  replace (c <? 32)%N with false by (symmetry; apply N.ltb_ge; lia).
  reflexivity.
Qed.

(** Reading what [QuoteJSONString] wrote gives the string back. *)
Lemma unquote_quote_units (s : jsstring) :
  Forall (fun c => (c < 65536)%N) s ->
  unquote_units (quote_units s) = Some s.
Proof.
  assert (Hboth : forall t,
             Forall (fun c => (c < 65536)%N) t ->
             unquote_units (quote_units t) = Some t
             /\ forall c, (c < 65536)%N ->
                          unquote_units (quote_units (c :: t)) = Some (c :: t)).
  { clear s. induction t as [|d rest IH]; intros Hs.
    - split; [reflexivity|]. intros c Hc. cbn [quote_units].
      rewrite <- (app_nil_r (quote_unit c)), unquote_quote_unit by exact Hc.
      reflexivity.
    - inversion Hs as [|? ? Hd Hrest]; subst.
      destruct (IH Hrest) as [IHrest IHcons].
      split; [apply IHcons, Hd|].
      intros c Hc. cbn [quote_units].
      destruct (is_leading_surrogate c && is_trailing_surrogate d) eqn:Hpair.
      + apply andb_prop in Hpair. destruct Hpair as [Hlead Htrail].
        unfold is_leading_surrogate in Hlead. apply andb_prop in Hlead.
        unfold is_trailing_surrogate in Htrail. apply andb_prop in Htrail.
        rewrite unquote_surrogate by tauto.
        rewrite unquote_surrogate
          by (apply N.leb_le; destruct Htrail as [Ht _];
              apply N.leb_le in Ht; lia).
        rewrite IHrest. reflexivity.
      + rewrite unquote_quote_unit by exact Hc.
        change (match rest with
                | [] => quote_unit d
                | d0 :: rest' =>
                    if is_leading_surrogate d && is_trailing_surrogate d0
                    then d :: d0 :: quote_units rest'
                    else quote_unit d ++ quote_units rest
                end) with (quote_units (d :: rest)).
        rewrite (IHcons d Hd). reflexivity. }
  intros Hs. apply (Hboth s Hs).
Qed.

(** X15.  Different URLs, different bodies.  For strings of UTF-16 code
    units, the body of the request determines the URL it was made from:
    the escapes of [JSON.stringify] never make two texts collide. *)
Theorem request_body_injective (a b : jsstring) :
  Forall (fun c => (c < 65536)%N) a ->
  Forall (fun c => (c < 65536)%N) b ->
  request_body (analyze_request a) = request_body (analyze_request b) ->
  a = b.
Proof.
  intros Ha Hb Heq. unfold request_body, QuoteJSONString in Heq.
  cbn [req_body_url analyze_request] in Heq.
  apply app_inv_head in Heq. apply app_inv_head in Heq.
  apply app_inv_head in Heq. apply app_inv_tail in Heq.
  apply app_inv_head in Heq. apply app_inv_tail in Heq.
  apply (f_equal unquote_units) in Heq.
  rewrite (unquote_quote_units a Ha), (unquote_quote_units b Hb) in Heq.
  congruence.
Qed.

Lemma request_body_injective_witness :
  lit "a\b" = [97; 92; 98]%N.
Proof.
  apply (request_body_injective (lit "a\b") [97; 92; 98]%N).
  - repeat constructor.
  - repeat constructor.
  - vm_compute. reflexivity.
Defined.

(** ** A [detail] that is not a string *)

Lemma join_comma_tags {A} (l : list A) (tag : jsstring) :
  join_comma (map (fun _ => tag) l)
  = match l with
    | [] => []
    | _ :: l' => tag ++ List.concat (map (fun _ => lit "," ++ tag) l')
    end.
Proof.
  destruct l as [|a l]; [reflexivity|].
  revert a. induction l as [|b l IH]; intros a.
  - simpl. rewrite app_nil_r. reflexivity.
  - change (join_comma (map (fun _ => tag) (a :: b :: l)))
      with (tag ++ lit "," ++ join_comma (map (fun _ => tag) (b :: l))).
    rewrite (IH b). cbn [map List.concat]. rewrite <- !app_assoc. reflexivity.
Qed.

Lemma to_string_objects (l : list JSValue) :
  plain_objects l = true ->
  to_string (VArray l)
  = Some (Returns (join_comma (map (fun _ => lit "[object Object]") l))).
Proof.
  intros Hall. cbn [to_string].
  assert (Hseq : sequence
                   (map (fun e => match e with
                                  | VUndefined | VNull => Some (Returns [])
                                  | _ => to_string e
                                  end) l)
                 = Some (Returns (map (fun _ => lit "[object Object]") l))).
  { induction l as [|v l IH]; [reflexivity|].
    cbn [plain_objects forallb] in Hall. apply andb_prop in Hall.
    destruct Hall as [Hv Hl]. destruct v; try discriminate.
    apply negb_true_iff in Hv.
    cbn [map sequence to_string]. unfold object_to_primitive. rewrite Hv.
    unfold plain_objects in IH. cbn [and_then]. rewrite (IH Hl). reflexivity. }
  rewrite Hseq. reflexivity.
Qed.

(** X16.  A list of error objects is not spelled out.  When the service
    refuses the request with a body whose [detail] is an array of objects
    (the shape of a validation error; none of them with a member named
    [toString]), the error line is "Error: " followed by one
    "[object Object]" per element, separated by commas; for an empty array
    it is "Error: " alone, not the fallback message. *)
Theorem array_detail_shows_object_tags
    (host : Host) (net : Request -> FetchOutcome) (w : World)
    (r : Response) (data : JSValue) (l : list JSValue) :
  trim (urlInput_value w) <> [] ->
  net (analyze_request (trim (urlInput_value w))) = FetchResolves r ->
  json r = JsonResolves data ->
  ok r = false ->
  property data (lit "detail") = VArray l ->
  plain_objects l = true ->
  exists w',
    handleAnalysis host net w = Some (Normal tt, w')
    /\ errorMessage_textContent w'
       = lit "Error: "
         ++ match l with
            | [] => []
            | _ :: l' =>
                lit "[object Object]"
                ++ List.concat (map (fun _ => lit ",[object Object]") l')
            end
    /\ resultsContainer_display w' = lit "none"
    /\ summaryContainer_innerHTML w' = [].
Proof.
  intros Hne Hnet Hjson Hok Hdetail Hall.
  assert (Hfail : attempt_fails host
                    (net (analyze_request (trim (urlInput_value w))))
                    {| error_name := lit "Error";
                       message := join_comma
                                    (map (fun _ => lit "[object Object]") l) |}).
  { rewrite Hnet. apply fails_service with (data := data); try assumption.
    - destruct data; try reflexivity; discriminate.
    - rewrite Hdetail. unfold js_or. cbn [truthy].
      apply to_string_objects, Hall. }
  rewrite (handleAnalysis_failure host net w _ Hne Hfail).
  eexists. split; [reflexivity|].
  split.
  { cbn [replay fold_left failure_events errorMessage_textContent perform
         emit apply_event message].
    rewrite join_comma_tags. reflexivity. }
  split; unfold loading_events, clearing_events, release_events;
    destruct (sentimentChart w); reflexivity.
Qed.

Lemma array_detail_shows_object_tags_witness :
  exists w',
    handleAnalysis v8
      (responds 422
         (JsonResolves
            (VObject [(lit "detail",
                       VArray [VObject [(lit "msg", VString (lit "field required"))];
                               VObject [(lit "msg", VString (lit "invalid url"))]])])))
      (type_input (lit "x") (initial_world []))
    = Some (Normal tt, w')
    /\ errorMessage_textContent w' = lit "Error: [object Object],[object Object]".
Proof.
  destruct (array_detail_shows_object_tags v8
              (responds 422
                 (JsonResolves
                    (VObject [(lit "detail",
                               VArray [VObject [(lit "msg", VString (lit "field required"))];
                                       VObject [(lit "msg", VString (lit "invalid url"))]])])))
              (type_input (lit "x") (initial_world []))
              {| status := 422;
                 json := JsonResolves
                           (VObject [(lit "detail",
                                      VArray [VObject [(lit "msg", VString (lit "field required"))];
                                              VObject [(lit "msg", VString (lit "invalid url"))]])]) |}
              (VObject [(lit "detail",
                         VArray [VObject [(lit "msg", VString (lit "field required"))];
                                 VObject [(lit "msg", VString (lit "invalid url"))]])])
              [VObject [(lit "msg", VString (lit "field required"))];
               VObject [(lit "msg", VString (lit "invalid url"))]])
    as (w' & Hrun & Htext & _).
  - discriminate.
  - reflexivity.
  - reflexivity.
  - reflexivity.
  - vm_compute. reflexivity.
  - reflexivity.
  - exists w'. split; [exact Hrun|]. rewrite Htext. vm_compute. reflexivity.
Defined.

(** X19.  A [detail] that cannot be turned into a string.  When the
    service refuses the request with a body whose [detail] is an object
    with a member named [toString] (no parsed value can be called), making
    the message of the [Error] throws: the error line is "Error: "
    followed by the engine's [TypeError] text, not the fallback message
    and not "[object Object]", and no results are shown. *)
Theorem unconvertible_detail_reports_type_error
    (host : Host) (net : Request -> FetchOutcome) (w : World)
    (r : Response) (data : JSValue) (fields : list (jsstring * JSValue)) :
  trim (urlInput_value w) <> [] ->
  net (analyze_request (trim (urlInput_value w))) = FetchResolves r ->
  json r = JsonResolves data ->
  ok r = false ->
  property data (lit "detail") = VObject fields ->
  (exists v, own_property fields (lit "toString") = Some v) ->
  exists w',
    handleAnalysis host net w = Some (Normal tt, w')
    /\ errorMessage_textContent w'
       = lit "Error: " ++ cannot_convert host (VObject fields)
    /\ trace w'
       = trace w ++ loading_events w
         ++ [EvFetch (analyze_request (trim (urlInput_value w)));
             EvConsoleError
               {| error_name := lit "TypeError";
                  message := cannot_convert host (VObject fields) |};
             EvErrorText (lit "Error: " ++ cannot_convert host (VObject fields));
             EvDisabled false; EvButtonHTML (lit "Analyze")]
    /\ resultsContainer_display w' = lit "none"
    /\ summaryContainer_innerHTML w' = [].
Proof.
  intros Hne Hnet Hjson Hok Hdetail [v Hown].
  assert (Hfail : attempt_fails host
                    (net (analyze_request (trim (urlInput_value w))))
                    (type_error (cannot_convert host (VObject fields)))).
  { rewrite Hnet. apply fails_message with (data := data); try assumption.
    - destruct data; try reflexivity; discriminate.
    - rewrite Hdetail. unfold js_or. cbn [truthy to_string].
      unfold object_to_primitive, has_own_property. rewrite Hown.
      reflexivity. }
  rewrite (handleAnalysis_failure host net w _ Hne Hfail).
  eexists. split; [reflexivity|].
  split; [reflexivity|].
  split.
  { rewrite trace_replay, trace_perform, trace_replay, <- !app_assoc.
    reflexivity. }
  split; unfold loading_events, clearing_events, release_events;
    destruct (sentimentChart w); reflexivity.
Qed.

Lemma unconvertible_detail_reports_type_error_witness :
  exists w',
    handleAnalysis v8
      (responds 500
         (JsonResolves
            (VObject [(lit "detail",
                       VObject [(lit "toString", VNumber (Int 1))])])))
      (initial_world (lit "x"))
    = Some (Normal tt, w')
    /\ errorMessage_textContent w'
       = lit "Error: Cannot convert object to primitive value".
Proof.
  destruct (unconvertible_detail_reports_type_error v8
              (responds 500
                 (JsonResolves
                    (VObject [(lit "detail",
                               VObject [(lit "toString", VNumber (Int 1))])])))
              (initial_world (lit "x"))
              {| status := 500;
                 json := JsonResolves
                           (VObject [(lit "detail",
                                      VObject [(lit "toString", VNumber (Int 1))])]) |}
              (VObject [(lit "detail",
                         VObject [(lit "toString", VNumber (Int 1))])])
              [(lit "toString", VNumber (Int 1))])
    as (w' & Hrun & Htext & _).
  - discriminate.
  - reflexivity.
  - reflexivity.
  - reflexivity.
  - vm_compute. reflexivity.
  - exists (VNumber (Int 1)). vm_compute. reflexivity.
  - exists w'. split; [exact Hrun|]. rewrite Htext. vm_compute. reflexivity.
Defined.

(** ** The results region and the chart *)

Lemma get_property_world host v k w r w' :
  get_property host v k w = Some (r, w') -> w' = w.
Proof. destruct v; simpl; unfold throw, ret; congruence. Qed.

Lemma convert_world host {A} (c : option (Completion A)) w r w' :
  convert host c w = Some (r, w') -> w' = w.
Proof. unfold convert. destruct c as [[a|v]|]; unfold ret, throw; congruence. Qed.

Lemma destructure_world host data w r w' :
  destructure host data w = Some (r, w') -> w' = w.
Proof.
  destruct data; simpl; unfold bind, throw, ret; simpl; congruence.
Qed.

Lemma new_Error_world host v w r w' :
  new_Error host v w = Some (r, w') -> w' = w.
Proof.
  intros H. destruct v; unfold new_Error in H;
    try (unfold ret in H; congruence);
    unfold bind in H;
    match type of H with
    | context [convert host ?c w] =>
        destruct (convert host c w) as [[[msg|e|] w2]|] eqn:Hl;
        try discriminate;
        apply convert_world in Hl; subst w2; unfold ret in H; congruence
    end.
Qed.

(** [createOrUpdateChart] writes neither to the results region nor to the
    summary. *)
Lemma createOrUpdateChart_page host data w r w' :
  createOrUpdateChart host data w = Some (r, w') ->
  resultsContainer_display w' = resultsContainer_display w
  /\ summaryContainer_innerHTML w' = summaryContainer_innerHTML w.
Proof.
  intros H. destruct (nullish data) eqn:Hnull.
  - rewrite (createOrUpdateChart_nullish host data w Hnull) in H.
    assert (Hw' : w' = replay (release_events w) w) by congruence. subst w'.
    unfold release_events. destruct (sentimentChart w); split; reflexivity.
  - rewrite (createOrUpdateChart_run host data w Hnull) in H.
    assert (Hw' : w' = assign_sentimentChart (charts_constructed w)
                         (replay (release_events w
                                  ++ [EvNewChart (charts_constructed w)
                                        (property data (lit "positive"))
                                        (property data (lit "negative"))]) w))
      by congruence.
    subst w'. unfold release_events.
    destruct (sentimentChart w); split; reflexivity.
Qed.

Lemma live_perform_page (e : Event) (w : World) :
  is_chart_event e = false ->
  live (trace (perform e w)) = live (trace w).
Proof.
  intros He. rewrite trace_perform, live_app.
  destruct e; try discriminate; reflexivity.
Qed.

Lemma summary_markup_not_empty (sp sn st : jsstring) :
  summary_markup sp sn st <> [].
Proof. unfold summary_markup, newline. discriminate. Qed.

(** Once it has shown the results region, [displayResults] draws a chart
    only after it has written the summary. *)
Lemma displayResults_consistent host data w r w' :
  live (trace w) = [] ->
  displayResults host data w = Some (r, w') ->
  resultsContainer_display w' = lit "flex"
  /\ (live (trace w') <> [] -> summaryContainer_innerHTML w' <> []).
Proof.
  intros Hdark H. unfold displayResults in H.
  unfold bind at 1 in H. cbn [do_event] in H.
  set (w1 := perform (EvDisplay (lit "flex")) w) in H.
  assert (Hdark1 : live (trace w1) = [])
    by (subst w1; rewrite live_perform_page; [exact Hdark | reflexivity]).
  assert (Hflex1 : resultsContainer_display w1 = lit "flex") by reflexivity.
  clearbody w1.
  unfold bind at 1 in H.
  destruct (destructure host data w1) as [[[pn|e|] w2]|] eqn:Hd;
    [| | |discriminate].
  2:{ apply destructure_world in Hd. subst w2.
      assert (w' = w1) by congruence. subst w'. split; [exact Hflex1|]. congruence. }
  2:{ apply destructure_world in Hd. subst w2.
      assert (w' = w1) by congruence. subst w'. split; [exact Hflex1|]. congruence. }
  apply destructure_world in Hd. subst w2.
  unfold bind at 1 in H.
  destruct (convert host (js_add (fst pn) (snd pn)) w1) as [[[total|e|] w2]|] eqn:Ht;
    [| | |discriminate].
  2:{ apply convert_world in Ht. subst w2.
      assert (w' = w1) by congruence. subst w'. split; [exact Hflex1|]. congruence. }
  2:{ apply convert_world in Ht. subst w2.
      assert (w' = w1) by congruence. subst w'. split; [exact Hflex1|]. congruence. }
  apply convert_world in Ht. subst w2.
  destruct (strict_equals_zero total).
  { unfold do_event in H.
    assert (Hw' : w' = perform (EvSummary no_comments_markup) w1) by congruence.
    subst w'. split; [exact Hflex1|].
    rewrite live_perform_page by reflexivity. congruence. }
  unfold bind at 1 in H.
  destruct (convert host (to_string (fst pn)) w1) as [[[sp|e|] w2]|] eqn:Hsp;
    [| | |discriminate].
  2:{ apply convert_world in Hsp. subst w2.
      assert (w' = w1) by congruence. subst w'. split; [exact Hflex1|]. congruence. }
  2:{ apply convert_world in Hsp. subst w2.
      assert (w' = w1) by congruence. subst w'. split; [exact Hflex1|]. congruence. }
  apply convert_world in Hsp. subst w2.
  unfold bind at 1 in H.
  destruct (convert host (to_string (snd pn)) w1) as [[[sn|e|] w2]|] eqn:Hsn;
    [| | |discriminate].
  2:{ apply convert_world in Hsn. subst w2.
      assert (w' = w1) by congruence. subst w'. split; [exact Hflex1|]. congruence. }
  2:{ apply convert_world in Hsn. subst w2.
      assert (w' = w1) by congruence. subst w'. split; [exact Hflex1|]. congruence. }
  apply convert_world in Hsn. subst w2.
  unfold bind at 1 in H.
  destruct (convert host (to_string total) w1) as [[[st|e|] w2]|] eqn:Hst;
    [| | |discriminate].
  2:{ apply convert_world in Hst. subst w2.
      assert (w' = w1) by congruence. subst w'. split; [exact Hflex1|]. congruence. }
  2:{ apply convert_world in Hst. subst w2.
      assert (w' = w1) by congruence. subst w'. split; [exact Hflex1|]. congruence. }
  apply convert_world in Hst. subst w2.
  unfold bind at 1 in H. cbn [do_event] in H.
  destruct (createOrUpdateChart_page host data _ r w' H) as [Hdisplay Hsummary].
  split.
  - rewrite Hdisplay. exact Hflex1.
  - intros _. rewrite Hsummary. apply summary_markup_not_empty.
Qed.

Lemma attempt_consistent host net url w res w1 :
  resultsContainer_display w = lit "none" ->
  summaryContainer_innerHTML w = [] ->
  live (trace w) = [] ->
  attempt host net url w = Some (res, w1) ->
  results_consistent w1.
Proof.
  intros Hnone Hempty Hdark H. unfold attempt, fetch in H.
  unfold bind at 1 in H. unfold bind at 1 in H. cbn [do_event] in H.
  set (w0 := perform (EvFetch (analyze_request url)) w) in H.
  assert (Hhidden : results_consistent w0).
  { left. subst w0. split; [exact Hnone|]. split; [exact Hempty|].
    rewrite live_perform_page; [exact Hdark | reflexivity]. }
  assert (Hdark0 : live (trace w0) = [])
    by (subst w0; rewrite live_perform_page; [exact Hdark | reflexivity]).
  clearbody w0.
  destruct (net (analyze_request url)) as [e|response|].
  { assert (w1 = w0) by (unfold throw in H; congruence). subst w1. exact Hhidden. }
  2:{ assert (w1 = w0) by (unfold await_forever in H; congruence).
      subst w1. exact Hhidden. }
  cbn [ret] in H. unfold response_json in H. unfold bind at 1 in H.
  destruct (json response) as [e|data|].
  { assert (w1 = w0) by (unfold throw in H; congruence). subst w1. exact Hhidden. }
  2:{ assert (w1 = w0) by (unfold await_forever in H; congruence).
      subst w1. exact Hhidden. }
  cbn [ret] in H. unfold bind at 1 in H.
  destruct (negb (ok response)).
  - unfold bind at 1 in H.
    destruct (get_property host data (lit "detail") w0)
      as [[[detail|e|] w2]|] eqn:Hg; [| | |discriminate].
    2:{ apply get_property_world in Hg. subst w2.
        assert (w1 = w0) by congruence. subst w1. exact Hhidden. }
    2:{ apply get_property_world in Hg. subst w2.
        assert (w1 = w0) by congruence. subst w1. exact Hhidden. }
    apply get_property_world in Hg. subst w2.
    unfold bind at 1 in H.
    destruct (new_Error host
                (js_or detail (VString (lit "An unknown error occurred."))) w0)
      as [[[error|e|] w2]|] eqn:He; [| | |discriminate].
    2:{ apply new_Error_world in He. subst w2.
        assert (w1 = w0) by congruence. subst w1. exact Hhidden. }
    2:{ apply new_Error_world in He. subst w2.
        assert (w1 = w0) by congruence. subst w1. exact Hhidden. }
    apply new_Error_world in He. subst w2.
    assert (w1 = w0) by (unfold throw in H; congruence). subst w1. exact Hhidden.
  - cbn [ret] in H. right.
    apply (displayResults_consistent host data w0 res w1 Hdark0 H).
Qed.

Lemma results_consistent_same (w w' : World) :
  resultsContainer_display w' = resultsContainer_display w ->
  summaryContainer_innerHTML w' = summaryContainer_innerHTML w ->
  live (trace w') = live (trace w) ->
  results_consistent w -> results_consistent w'.
Proof.
  unfold results_consistent. intros -> -> ->. tauto.
Qed.

Lemma handleAnalysis_consistent host net w r w' :
  single_owner w -> results_consistent w ->
  handleAnalysis host net w = Some (r, w') ->
  results_consistent w'.
Proof.
  intros Hown Hw H.
  destruct (trim (urlInput_value w)) as [|c url] eqn:Hurl.
  - unfold handleAnalysis in H. rewrite Hurl in H.
    unfold showError, do_event in H.
    assert (Hw' : w' = perform (EvErrorText (lit "Please paste a YouTube video URL.")) w)
      by congruence.
    subst w'. apply (results_consistent_same w); try reflexivity; [|exact Hw].
    apply live_perform_page. reflexivity.
  - assert (Hne : trim (urlInput_value w) <> []) by (rewrite Hurl; discriminate).
    destruct (attempt host net (trim (urlInput_value w)) (replay (loading_events w) w))
      as [[res w1]|] eqn:Hrun.
    2:{ rewrite (handleAnalysis_undefined host net w Hne Hrun) in H. discriminate. }
    rewrite (handleAnalysis_run host net w res w1 Hne Hrun) in H.
    destruct (loading_world w) as (_ & Hsum & Hdisplay & _).
    assert (Hw1 : results_consistent w1).
    { apply (attempt_consistent host net (trim (urlInput_value w))
               (replay (loading_events w) w) res w1 Hdisplay Hsum);
        [|exact Hrun].
      rewrite trace_replay. apply live_loading, Hown. }
    destruct res as [u|e|].
    + assert (Hw' : w' = replay [EvDisabled false; EvButtonHTML (lit "Analyze")] w1)
        by congruence.
      subst w'. apply (results_consistent_same w1); try reflexivity; [|exact Hw1].
      rewrite trace_replay, live_app. reflexivity.
    + assert (Hw' : w' = replay (failure_events e) w1) by congruence.
      subst w'. apply (results_consistent_same w1); try reflexivity; [|exact Hw1].
      rewrite trace_replay, live_app. reflexivity.
    + assert (Hw' : w' = w1) by congruence. subst w'. exact Hw1.
Qed.

Lemma clicks_consistent host actions :
  forallb is_click actions = true ->
  forall w w', chart_invariant w -> results_consistent w ->
               run host actions w = Some w' ->
               results_consistent w'.
Proof.
  induction actions as [|a rest IH]; intros Hclicks w w' Hinv Hw H; simpl in H.
  - inversion H; subst. exact Hw.
  - simpl in Hclicks. apply andb_prop in Hclicks. destruct Hclicks as [Ha Hrest].
    destruct (act host a w) as [[r w1]|] eqn:Hact; [|discriminate].
    apply (IH Hrest w1 w'); [| |exact H].
    + apply (keeps_act host a w r w1 Hinv Hact).
    + destruct a as [input net| |]; try discriminate. simpl in Hact.
      apply (handleAnalysis_consistent host net (type_input input w) r w1);
        [| |exact Hact].
      * destruct (invariant_type_input input w Hinv) as [Hown _]. exact Hown.
      * apply (results_consistent_same w); try reflexivity. exact Hw.
Qed.

(** X17.  The chart and the results region go together.  However many
    times the button is clicked, with whatever input and whatever the
    network does, the page is in one of two states afterwards: the results
    region is hidden, the summary is empty and no chart is alive; or the
    results region is shown, and if a chart is alive the summary is not
    empty. *)
Theorem clicks_keep_results_consistent
    (host : Host) (actions : list Action) (input : jsstring) (w : World) :
  forallb is_click actions = true ->
  run host actions (initial_world input) = Some w ->
  results_consistent w.
Proof.
  intros Hclicks Hrun.
  apply (clicks_consistent host actions Hclicks (initial_world input) w);
    [| |exact Hrun].
  - split; [left; reflexivity|]. intros n. destruct n; simpl; lia.
  - left. repeat split; reflexivity.
Qed.

Lemma clicks_keep_results_consistent_witness :
  exists w,
    run v8
      [Click (lit "x") (responds 200 (JsonResolves (result_model 10 5)));
       Click [] (unreachable "Failed to fetch");
       Click (lit "y") (responds 200 (JsonResolves VNull))]
      (initial_world [])
    = Some w
    /\ results_consistent w.
Proof.
  assert (Hrun : exists w,
             run v8
               [Click (lit "x") (responds 200 (JsonResolves (result_model 10 5)));
                Click [] (unreachable "Failed to fetch");
                Click (lit "y") (responds 200 (JsonResolves VNull))]
               (initial_world [])
             = Some w)
    by (eexists; vm_compute; reflexivity).
  destruct Hrun as [w Hrun]. exists w. split; [exact Hrun|].
  apply (clicks_keep_results_consistent v8
           [Click (lit "x") (responds 200 (JsonResolves (result_model 10 5)));
            Click [] (unreachable "Failed to fetch");
            Click (lit "y") (responds 200 (JsonResolves VNull))]
           [] w).
  - reflexivity.
  - exact Hrun.
Defined.
